(** * fm-dx-client: the background controller, embedded and verified

    A shallow embedding of [src/fm_dx_client/__main__.py]: the frequency
    parser [mhz_to_khz], and the [AsyncioController] methods that forward
    tune commands, keep the two WebSocket channels connected, drive the
    [ffplay] / [ffmpeg] processes and relay the transcoded stream to the
    HTTP clients.

    Conventions of the embedding.
    - A Python [str] is a [string]; its characters are the code points
      0..255.  A [bytes] value is a [list byte].
    - A Python [float] is a binary64 number, a [spec_float] with
      [prec = 53] and [emax = 1024]; arithmetic uses the IEEE operations of
      the Standard Library ([SFmul], [SFcompare]).
    - A raised exception is the [Raise] case of [result]; [try]/[except]
      is a match on it.
    - An [await] is a point where the coroutine receives the outcome of
      the awaited operation from its environment; the outcome is an
      argument of the function that models the code after the [await]. *)

From Stdlib Require Import ZArith Lia Ascii String QArith Lqa.
From Stdlib Require Import Strings.Byte DecimalString.
From Stdlib Require DecimalPos.
From Stdlib Require Import Floats.SpecFloat.
From stdpp Require Import base option list gmap strings.

#[local] Set Warnings "-register-all".
Local Open Scope Z_scope.

(** ** Python values, exceptions *)

(** The Python values that travel through the controller: JSON values
    decoded by [json.loads], commands of the command queue, payloads of
    the update queue. A [dict] keeps its items in insertion order. *)
Inductive pyval :=
| PNone
| PBool (b : bool)
| PInt (z : Z)
| PFloat (f : spec_float)
| PStr (s : string)
| PBytes (b : list byte)
| PList (l : list pyval)
| PDict (d : list (string * pyval)).

(** The exception classes the modelled code raises or catches. [str(e)]
    is the carried message. *)
Inductive exn :=
| ValueError (msg : string)
| TypeError (msg : string)
| AttributeError (msg : string)
| OverflowError (msg : string)
| FileNotFoundError (msg : string)
| OSError (msg : string)
| ConnectionClosed (code : option Z) (reason : string)
| InvalidURI (msg : string)
| ConnectionRefusedError (msg : string)
| TimeoutError (msg : string)
| CancelledError
| JSONDecodeError (msg : string)
| ProcessLookupError (msg : string)
| QueueFull
| QueueEmpty
| AsyncQueueFull
| AsyncQueueEmpty
| OtherException (msg : string).

Inductive result (A : Type) :=
| Ok (a : A)
| Raise (e : exn).
Arguments Ok {A} a.
Arguments Raise {A} e.

(** [type(v).__name__] *)
Definition type_name (v : pyval) : string :=
  match v with
  | PNone => "NoneType"
  | PBool _ => "bool"
  | PInt _ => "int"
  | PFloat _ => "float"
  | PStr _ => "str"
  | PBytes _ => "bytes"
  | PList _ => "list"
  | PDict _ => "dict"
  end.

(** [d.get(k)] on a dict: the value of the key, [None] when it is absent. *)
Fixpoint dict_get (d : list (string * pyval)) (k : string) : pyval :=
  match d with
  | [] => PNone
  | (k', v) :: d' => if String.eqb k' k then v else dict_get d' k
  end.

(** ** Binary64 floats and [float(str)] *)

Module PyFloat.

Definition prec : Z := 53.
Definition emax : Z := 1024.

(** The binary64 number nearest to [m * 10^e] (ties to even), for [m >= 0];
    the sign is given apart so that "-0.0" keeps it. For a negative [e]
    the quotient [m / 10^(-e)] is rounded once, from the exact quotient
    and remainder. *)
Definition of_decimal (neg : bool) (m : Z) (e : Z) : spec_float :=
  match m with
  | Zpos p =>
      if 0 <=? e then binary_round prec emax neg (p * Z.to_pos (10 ^ e)) 0
      else
        let '(q, e', l) := SFdiv_core_binary prec emax (Zpos p) 0 (10 ^ (- e)) 0 in
        binary_round_aux prec emax neg q e' l
  | _ => S754_zero neg
  end.

(** [float(n)] for an [int]. *)
Definition of_int (n : Z) : spec_float := binary_normalize prec emax n 0 false.

Definition mul : spec_float -> spec_float -> spec_float := SFmul prec emax.
Definition leb : spec_float -> spec_float -> bool := SFleb.

(** [int(x)]: truncation towards zero; [OverflowError] on an infinity,
    [ValueError] on a NaN. *)
Definition to_int (x : spec_float) : result Z :=
  match x with
  | S754_zero _ => Ok 0
  | S754_finite s m e =>
      let a := if 0 <=? e then Zpos m * 2 ^ e else Zpos m / 2 ^ (- e) in
      Ok (if s then - a else a)
  | S754_infinity _ => Raise (OverflowError "cannot convert float infinity to integer")
  | S754_nan => Raise (ValueError "cannot convert float NaN to integer")
  end.

(** *** Characters *)

Definition code (c : ascii) : N := N_of_ascii c.

Definition is_digit (c : ascii) : bool :=
  ((48 <=? code c) && (code c <=? 57))%N.

Definition digit_val (c : ascii) : Z := Z.of_N (code c) - 48.

(** C's [isspace] in the C locale: space, \t, \n, \v, \f, \r. *)
Definition Py_ISSPACE (c : ascii) : bool :=
  (((9 <=? code c) && (code c <=? 13)) || (code c =? 32))%N.

(** [str.isspace] for the code points 127..255: NEL (0x85) and NBSP (0xA0). *)
Definition Py_UNICODE_ISSPACE_high (c : ascii) : bool :=
  ((code c =? 133) || (code c =? 160))%N.

Definition Py_TOLOWER (c : ascii) : ascii :=
  if ((65 <=? code c) && (code c <=? 90))%N then ascii_of_N (code c + 32) else c.

(** *** [_PyUnicode_TransformDecimalAndSpaceToASCII]

    An ASCII string is returned as it is. Otherwise every character below
    127 is kept, a white-space character becomes a space, and the first
    other character (no code point of 127..255 is a decimal digit) is
    replaced by '?' and ends the result. *)
Fixpoint transform_chars (l : list ascii) : list ascii :=
  match l with
  | [] => []
  | c :: t =>
      if (code c <? 127)%N then c :: transform_chars t
      else if Py_UNICODE_ISSPACE_high c then " "%char :: transform_chars t
      else ["?"%char]
  end.

Definition TransformDecimalAndSpaceToASCII (l : list ascii) : list ascii :=
  if forallb (fun c => (code c <? 128)%N) l then l else transform_chars l.

(** *** [_Py_string_to_number_with_underscores]

    An underscore is allowed only between two digits; the accepted
    underscores are removed. [prev] is the previous character, NUL at
    the start. *)
Fixpoint strip_underscores (prev : ascii) (l : list ascii) : option (list ascii) :=
  match l with
  | [] => if Ascii.eqb prev "_" then None else Some []
  | c :: t =>
      if Ascii.eqb c "_" then
        if is_digit prev then strip_underscores c t else None
      else if Ascii.eqb prev "_" && negb (is_digit c) then None
      else option_map (cons c) (strip_underscores c t)
  end.

Definition has_underscore (l : list ascii) : bool := existsb (Ascii.eqb "_") l.
Definition has_nul (l : list ascii) : bool := existsb (Ascii.eqb zero) l.

(** *** [_Py_dg_strtod], strict: sign, digits, fraction, exponent *)

Definition parse_sign (l : list ascii) : bool * list ascii :=
  match l with
  | c :: t =>
      if Ascii.eqb c "-" then (true, t)
      else if Ascii.eqb c "+" then (false, t)
      else (false, l)
  | [] => (false, l)
  end.

(** Reads a run of digits: the number read so far, the count of digits,
    the rest of the input. *)
Fixpoint take_digits (l : list ascii) (acc : Z) (n : Z) : Z * Z * list ascii :=
  match l with
  | c :: t =>
      if is_digit c then take_digits t (10 * acc + digit_val c) (n + 1)
      else (acc, n, l)
  | [] => (acc, n, [])
  end.

(** An exponent is consumed only when it has a digit. *)
Definition parse_exponent (l : list ascii) : Z * list ascii :=
  match l with
  | c :: t =>
      if Ascii.eqb c "e" || Ascii.eqb c "E" then
        let '(neg, t1) := parse_sign t in
        let '(v, n, t2) := take_digits t1 0 0 in
        if n =? 0 then (0, l) else (if neg then - v else v, t2)
      else (0, l)
  | [] => (0, l)
  end.

(** [None]: no conversion was made ([endptr == nptr]). *)
Definition dg_strtod (l : list ascii) : option (spec_float * list ascii) :=
  let '(neg, l1) := parse_sign l in
  let '(ip, ni, l2) := take_digits l1 0 0 in
  let '(fp, nf, l3) :=
    match l2 with
    | c :: t => if Ascii.eqb c "." then take_digits t ip 0 else (ip, 0, l2)
    | [] => (ip, 0, l2)
    end in
  if ni + nf =? 0 then None
  else
    let '(ex, l4) := parse_exponent l3 in
    Some (of_decimal neg fp (ex - nf), l4).

(** *** [_Py_parse_inf_or_nan] *)

Fixpoint case_insensitive_match (l pat : list ascii) : option (list ascii) :=
  match pat with
  | [] => Some l
  | p :: pat' =>
      match l with
      | c :: t => if Ascii.eqb (Py_TOLOWER c) p then case_insensitive_match t pat' else None
      | [] => None
      end
  end.

Definition parse_inf_or_nan (l : list ascii) : option (spec_float * list ascii) :=
  let '(neg, s) := parse_sign l in
  match case_insensitive_match s (list_ascii_of_string "inf") with
  | Some r =>
      match case_insensitive_match r (list_ascii_of_string "inity") with
      | Some r' => Some (S754_infinity neg, r')
      | None => Some (S754_infinity neg, r)
      end
  | None =>
      match case_insensitive_match s (list_ascii_of_string "nan") with
      | Some r => Some (S754_nan, r)
      | None => None
      end
  end.

(** [_PyOS_ascii_strtod]: the number, else an infinity or a NaN. *)
Definition ascii_strtod (l : list ascii) : option (spec_float * list ascii) :=
  match dg_strtod l with
  | Some r => Some r
  | None => parse_inf_or_nan l
  end.

(** *** [float_from_string_inner] *)

Fixpoint lstrip (l : list ascii) : list ascii :=
  match l with
  | c :: t => if Py_ISSPACE c then lstrip t else l
  | [] => []
  end.

(** The trailing white space is removed down to one remaining character;
    after [lstrip] the first character is no space, so that bound is never
    the one that stops the loop. *)
Fixpoint rstrip (l : list ascii) : list ascii :=
  match l with
  | [] => []
  | c :: t =>
      match rstrip t with
      | [] => if Py_ISSPACE c then [] else [c]
      | t' => c :: t'
      end
  end.

Definition could_not_convert : exn := ValueError "could not convert string to float".

Definition float_from_string_inner (l : list ascii) : result spec_float :=
  match lstrip l with
  | [] => Raise could_not_convert
  | s =>
      match ascii_strtod (rstrip s) with
      | Some (x, []) => Ok x
      | _ => Raise could_not_convert
      end
  end.

(** [float(s)] for a [str]. The C code works on NUL-terminated buffers:
    with a NUL inside the string the scan stops before the end and the
    conversion is refused. *)
Definition float_of_str (s : string) : result spec_float :=
  let l := TransformDecimalAndSpaceToASCII (list_ascii_of_string s) in
  if has_nul l then Raise could_not_convert
  else if has_underscore l then
    match strip_underscores zero l with
    | Some l' => float_from_string_inner l'
    | None => Raise could_not_convert
    end
  else float_from_string_inner l.

End PyFloat.

(** ** Helper functions of the module *)

(** [s.replace(",", ".")] *)
Fixpoint replace_comma (s : string) : string :=
  match s with
  | EmptyString => EmptyString
  | String c t => String (if Ascii.eqb c "," then "."%char else c) (replace_comma t)
  end.

Definition MIN_FREQ_MHZ : spec_float := PyFloat.of_decimal false 875 (-1).
Definition MAX_FREQ_MHZ : spec_float := PyFloat.of_decimal false 1080 (-1).
Definition FREQ_STEP_KHZ : Z := 100.
Definition RECONNECT_DELAY_SECONDS : Q := 5%Q.

(** The body of the [try] of [mhz_to_khz]: the exception it may raise is
    still to be caught. *)
Definition mhz_to_khz_try (mhz_str : string) : result (option Z) :=
  match PyFloat.float_of_str (replace_comma mhz_str) with
  | Raise e => Raise e
  | Ok mhz =>
      if PyFloat.leb MIN_FREQ_MHZ mhz && PyFloat.leb mhz MAX_FREQ_MHZ then
        match PyFloat.to_int (PyFloat.mul mhz (PyFloat.of_int 1000)) with
        | Ok k => Ok (Some k)
        | Raise e => Raise e
        end
      else Ok None
  end.

(** [mhz_to_khz]: [Ok None] is the returned [None], [Ok (Some k)] the
    returned [int]. Only [ValueError] and [TypeError] are caught. *)
Definition mhz_to_khz (mhz_str : pyval) : result (option Z) :=
  match mhz_str with
  | PStr s =>
      match mhz_to_khz_try s with
      | Raise (ValueError _) => Ok None
      | Raise (TypeError _) => Ok None
      | r => r
      end
  | _ => Ok None
  end.

(** [int(s)] for a [str], base 10: white space, a sign, digits with
    single underscores between them, white space. *)
Module PyInt.
Import PyFloat.

(** Digits and underscores of [long_from_string_base]: the value, the
    number of digits, the last character read, the rest. Two underscores
    in a row end the scan with an error ([None]). *)
Fixpoint scan_digits (l : list ascii) (prev : ascii) (acc n : Z)
  : option (Z * Z * ascii * list ascii) :=
  match l with
  | c :: t =>
      if Ascii.eqb c "_" then
        if Ascii.eqb prev "_" then None else scan_digits t c acc n
      else if is_digit c then scan_digits t c (10 * acc + digit_val c) (n + 1)
      else Some (acc, n, prev, l)
  | [] => Some (acc, n, prev, [])
  end.

Definition invalid_literal : exn := ValueError "invalid literal for int() with base 10".

Definition int_of_str (s : string) : result Z :=
  let l := TransformDecimalAndSpaceToASCII (list_ascii_of_string s) in
  if has_nul l then Raise invalid_literal
  else
    let '(neg, l1) := parse_sign (lstrip l) in
    match l1 with
    | c :: _ =>
        if Ascii.eqb c "_" then Raise invalid_literal
        else
          match scan_digits l1 zero 0 0 with
          | Some (v, n, prev, rest) =>
              if Ascii.eqb prev "_" || (n =? 0) then Raise invalid_literal
              else
                match lstrip rest with
                | [] => Ok (if neg then - v else v)
                | _ => Raise invalid_literal
                end
          | None => Raise invalid_literal
          end
    | [] => Raise invalid_literal
    end.

End PyInt.

(** [str(n)] for an [int]. *)
Definition str_of_Z (n : Z) : string := NilZero.string_of_int (Z.to_int n).

(** [str(e)]: the message of an exception. *)
Definition exn_str (e : exn) : string :=
  match e with
  | ValueError m | TypeError m | AttributeError m | OverflowError m
  | FileNotFoundError m | OSError m | InvalidURI m | ConnectionRefusedError m
  | TimeoutError m | JSONDecodeError m | ProcessLookupError m
  | OtherException m => m
  | ConnectionClosed _ r => r
  | CancelledError | QueueFull | QueueEmpty | AsyncQueueFull | AsyncQueueEmpty => ""
  end.

(** [needle in haystack] for two [str]. *)
Fixpoint is_prefix (p s : string) : bool :=
  match p, s with
  | EmptyString, _ => true
  | String a p', String b s' => Ascii.eqb a b && is_prefix p' s'
  | String _ _, EmptyString => false
  end.

Fixpoint contains (needle haystack : string) : bool :=
  is_prefix needle haystack ||
  match haystack with
  | EmptyString => false
  | String _ h' => contains needle h'
  end.

(** [s.startswith(p)] *)
Definition startswith (s p : string) : bool := is_prefix p s.

(** [s[1:]] *)
Definition drop_first (s : string) : string :=
  match s with
  | EmptyString => EmptyString
  | String _ t => t
  end.

(** ** Queues

    [queue.Queue] (command and update queues, shared with the interface
    thread) and [asyncio.Queue] (one per HTTP client) keep the same data:
    the bound ([maxsize <= 0]: none), the items, oldest first, and the
    count of unfinished tasks that [task_done] decrements. *)

Record pyqueue (A : Type) := {
  maxsize : Z;
  items : list A;
  unfinished_tasks : Z
}.
Arguments maxsize {A} _.
Arguments items {A} _.
Arguments unfinished_tasks {A} _.
Arguments Build_pyqueue {A} _ _ _.

Section Queue.
Context {A : Type}.

Definition new_queue (maxsize : Z) : pyqueue A := Build_pyqueue maxsize [] 0.

Definition qsize (q : pyqueue A) : Z := Z.of_nat (length (items q)).

Definition full (q : pyqueue A) : bool :=
  (0 <? maxsize q) && (maxsize q <=? qsize q).

Definition empty (q : pyqueue A) : bool :=
  match items q with [] => true | _ => false end.

(** [q.put_nowait(x)]; [e_full] is the exception class of the queue kind. *)
Definition put_nowait_with (e_full : exn) (q : pyqueue A) (x : A) : result (pyqueue A) :=
  if full q then Raise e_full
  else Ok (Build_pyqueue (maxsize q) (items q ++ [x]) (unfinished_tasks q + 1)).

(** [q.get_nowait()]: the oldest item. *)
Definition get_nowait_with (e_empty : exn) (q : pyqueue A) : result (A * pyqueue A) :=
  match items q with
  | [] => Raise e_empty
  | x :: rest => Ok (x, Build_pyqueue (maxsize q) rest (unfinished_tasks q))
  end.

Definition task_done (q : pyqueue A) : result (pyqueue A) :=
  if unfinished_tasks q <=? 0 then Raise (ValueError "task_done() called too many times")
  else Ok (Build_pyqueue (maxsize q) (items q) (unfinished_tasks q - 1)).

End Queue.

(** ** The controller object and the objects it refers to *)

(** A WebSocket connection object of the [websockets] library. *)
Record websocket := {
  ws_id : nat;
  close_code : option Z
}.

(** An [asyncio.subprocess.Process] started with piped stdin. [on_terminate]
    and [on_kill] are what [terminate()] and [kill()] do when called: return,
    or raise. *)
Record process := {
  proc_name : string;
  returncode : option Z;
  stdin_closing : bool;
  on_terminate : result unit;
  on_kill : result unit
}.

(** The event loop of the controller thread, as [stop()] sees it. *)
Record event_loop := {
  is_running : bool;
  stop_requested : bool
}.

(** What the controller does to the outside, in the order it does it.
    [EvConnect]: [websockets.connect] was called, at the clock reading
    [t] that the loop keeps as [last_connect_time];
    [EvWsSend]: [send] was called on the connection; [EvTerminate] and
    [EvKill]: [terminate()] (SIGTERM) and [kill()] (SIGKILL) were called;
    [EvShutdown]: the running flag went from set to cleared. *)
Inductive event :=
| EvSpawn (h : nat) (name : string)
| EvStdinClose (h : nat)
| EvTerminate (h : nat)
| EvKill (h : nat)
| EvStdinWrite (h : nat) (data : list byte)
| EvConnect (uri : string) (t : Q)
| EvWsSend (ws : nat) (payload : string)
| EvWsClose (ws : nat)
| EvClientWrite (client : nat) (data : list byte)
| EvSleep (seconds : Q)
| EvShutdown.

(** [self]: the attributes of [AsyncioController], the process objects
    ([procs]) and client queues ([client_queues]) that its references
    point to, and the [trace] of what it did. [app_running] is the
    shared [threading.Event]. A process is referred to by its handle, the
    key of [procs]; [thread] tells whether [self.thread] is set and
    [thread_alive] whether the thread of this run is still executing
    [_run_asyncio_loop]. [http_runner] tells whether the attribute is set. *)
Record controller := {
  text_uri : string;
  audio_uri : string;
  is_restream_only : bool;
  stream_port : Z;
  command_queue : option (pyqueue pyval);
  update_queue : option (pyqueue (string * pyval));
  app_running : bool;
  stream_enabled : bool;
  text_ws_for_commands : option websocket;
  ffplay_proc : option nat;
  ffmpeg_proc : option nat;
  http_runner : bool;
  aac_clients : gset nat;
  loop : option event_loop;
  thread : bool;
  thread_alive : bool;
  procs : gmap nat process;
  client_queues : gmap nat (pyqueue (option (list byte)));
  trace : list event
}.

Definition set_command_queue (v : option (pyqueue pyval)) (c : controller) : controller :=
  Build_controller (text_uri c) (audio_uri c) (is_restream_only c) (stream_port c) v (update_queue c) (app_running c) (stream_enabled c) (text_ws_for_commands c) (ffplay_proc c) (ffmpeg_proc c) (http_runner c) (aac_clients c) (loop c) (thread c) (thread_alive c) (procs c) (client_queues c) (trace c).

Definition set_update_queue (v : option (pyqueue (string * pyval))) (c : controller) : controller :=
  Build_controller (text_uri c) (audio_uri c) (is_restream_only c) (stream_port c) (command_queue c) v (app_running c) (stream_enabled c) (text_ws_for_commands c) (ffplay_proc c) (ffmpeg_proc c) (http_runner c) (aac_clients c) (loop c) (thread c) (thread_alive c) (procs c) (client_queues c) (trace c).

Definition set_app_running (v : bool) (c : controller) : controller :=
  Build_controller (text_uri c) (audio_uri c) (is_restream_only c) (stream_port c) (command_queue c) (update_queue c) v (stream_enabled c) (text_ws_for_commands c) (ffplay_proc c) (ffmpeg_proc c) (http_runner c) (aac_clients c) (loop c) (thread c) (thread_alive c) (procs c) (client_queues c) (trace c).

Definition set_stream_enabled (v : bool) (c : controller) : controller :=
  Build_controller (text_uri c) (audio_uri c) (is_restream_only c) (stream_port c) (command_queue c) (update_queue c) (app_running c) v (text_ws_for_commands c) (ffplay_proc c) (ffmpeg_proc c) (http_runner c) (aac_clients c) (loop c) (thread c) (thread_alive c) (procs c) (client_queues c) (trace c).

Definition set_text_ws_for_commands (v : option websocket) (c : controller) : controller :=
  Build_controller (text_uri c) (audio_uri c) (is_restream_only c) (stream_port c) (command_queue c) (update_queue c) (app_running c) (stream_enabled c) v (ffplay_proc c) (ffmpeg_proc c) (http_runner c) (aac_clients c) (loop c) (thread c) (thread_alive c) (procs c) (client_queues c) (trace c).

Definition set_ffplay_proc (v : option nat) (c : controller) : controller :=
  Build_controller (text_uri c) (audio_uri c) (is_restream_only c) (stream_port c) (command_queue c) (update_queue c) (app_running c) (stream_enabled c) (text_ws_for_commands c) v (ffmpeg_proc c) (http_runner c) (aac_clients c) (loop c) (thread c) (thread_alive c) (procs c) (client_queues c) (trace c).

Definition set_ffmpeg_proc (v : option nat) (c : controller) : controller :=
  Build_controller (text_uri c) (audio_uri c) (is_restream_only c) (stream_port c) (command_queue c) (update_queue c) (app_running c) (stream_enabled c) (text_ws_for_commands c) (ffplay_proc c) v (http_runner c) (aac_clients c) (loop c) (thread c) (thread_alive c) (procs c) (client_queues c) (trace c).

Definition set_http_runner (v : bool) (c : controller) : controller :=
  Build_controller (text_uri c) (audio_uri c) (is_restream_only c) (stream_port c) (command_queue c) (update_queue c) (app_running c) (stream_enabled c) (text_ws_for_commands c) (ffplay_proc c) (ffmpeg_proc c) v (aac_clients c) (loop c) (thread c) (thread_alive c) (procs c) (client_queues c) (trace c).

Definition set_aac_clients (v : gset nat) (c : controller) : controller :=
  Build_controller (text_uri c) (audio_uri c) (is_restream_only c) (stream_port c) (command_queue c) (update_queue c) (app_running c) (stream_enabled c) (text_ws_for_commands c) (ffplay_proc c) (ffmpeg_proc c) (http_runner c) v (loop c) (thread c) (thread_alive c) (procs c) (client_queues c) (trace c).

Definition set_loop (v : option event_loop) (c : controller) : controller :=
  Build_controller (text_uri c) (audio_uri c) (is_restream_only c) (stream_port c) (command_queue c) (update_queue c) (app_running c) (stream_enabled c) (text_ws_for_commands c) (ffplay_proc c) (ffmpeg_proc c) (http_runner c) (aac_clients c) v (thread c) (thread_alive c) (procs c) (client_queues c) (trace c).

Definition set_thread (v : bool) (c : controller) : controller :=
  Build_controller (text_uri c) (audio_uri c) (is_restream_only c) (stream_port c) (command_queue c) (update_queue c) (app_running c) (stream_enabled c) (text_ws_for_commands c) (ffplay_proc c) (ffmpeg_proc c) (http_runner c) (aac_clients c) (loop c) v (thread_alive c) (procs c) (client_queues c) (trace c).

Definition set_thread_alive (v : bool) (c : controller) : controller :=
  Build_controller (text_uri c) (audio_uri c) (is_restream_only c) (stream_port c) (command_queue c) (update_queue c) (app_running c) (stream_enabled c) (text_ws_for_commands c) (ffplay_proc c) (ffmpeg_proc c) (http_runner c) (aac_clients c) (loop c) (thread c) v (procs c) (client_queues c) (trace c).

Definition set_procs (v : gmap nat process) (c : controller) : controller :=
  Build_controller (text_uri c) (audio_uri c) (is_restream_only c) (stream_port c) (command_queue c) (update_queue c) (app_running c) (stream_enabled c) (text_ws_for_commands c) (ffplay_proc c) (ffmpeg_proc c) (http_runner c) (aac_clients c) (loop c) (thread c) (thread_alive c) v (client_queues c) (trace c).

Definition set_client_queues (v : gmap nat (pyqueue (option (list byte)))) (c : controller) : controller :=
  Build_controller (text_uri c) (audio_uri c) (is_restream_only c) (stream_port c) (command_queue c) (update_queue c) (app_running c) (stream_enabled c) (text_ws_for_commands c) (ffplay_proc c) (ffmpeg_proc c) (http_runner c) (aac_clients c) (loop c) (thread c) (thread_alive c) (procs c) v (trace c).

Definition set_trace (v : list event) (c : controller) : controller :=
  Build_controller (text_uri c) (audio_uri c) (is_restream_only c) (stream_port c) (command_queue c) (update_queue c) (app_running c) (stream_enabled c) (text_ws_for_commands c) (ffplay_proc c) (ffmpeg_proc c) (http_runner c) (aac_clients c) (loop c) (thread c) (thread_alive c) (procs c) (client_queues c) v.

(** [__init__]. [aiohttp_available] is the module flag of that name.
    The references are unset, nothing was done yet, [app_running] is
    set as at import. *)
Definition init_controller (aiohttp_available : bool) (audio_uri text_uri : string)
  (command_queue : option (pyqueue pyval))
  (update_queue : option (pyqueue (string * pyval)))
  (stream_enabled is_restream_only : bool) (stream_port : Z) : controller :=
  {| text_uri := text_uri; audio_uri := audio_uri;
     is_restream_only := is_restream_only; stream_port := stream_port;
     command_queue := command_queue; update_queue := update_queue;
     app_running := true;
     stream_enabled := stream_enabled && aiohttp_available;
     text_ws_for_commands := None; ffplay_proc := None; ffmpeg_proc := None;
     http_runner := false; aac_clients := ∅;
     loop := None; thread := false; thread_alive := false;
     procs := ∅; client_queues := ∅; trace := [] |}.

Definition log (ev : event) (c : controller) : controller :=
  set_trace (trace c ++ [ev]) c.

(** The events that [c'] has after those of [c]. *)
Definition new_events (c c' : controller) : list event :=
  drop (length (trace c)) (trace c').

(** The [try] of [put_update]: [put_nowait], and nothing when the queue
    is full or there is no queue. *)
Definition enqueue_update (uq : option (pyqueue (string * pyval))) (u : string * pyval)
  : option (pyqueue (string * pyval)) :=
  match uq with
  | Some q =>
      match put_nowait_with QueueFull q u with
      | Ok q' => Some q'
      | Raise _ => Some q
      end
  | None => None
  end.

(** [put_update]: the update is dropped when the queue is full. *)
Definition put_update (message_type : string) (data : pyval) (c : controller) : controller :=
  set_update_queue (enqueue_update (update_queue c) (message_type, data)) c.

(** The updates waiting in the update queue, oldest first. *)
Definition updates (c : controller) : list (string * pyval) :=
  match update_queue c with
  | Some q => items q
  | None => []
  end.

(** *** Process handles *)

Definition update_proc (h : nat) (f : process -> process) (c : controller) : controller :=
  set_procs (alter f h (procs c)) c.

Definition close_stdin (p : process) : process :=
  {| proc_name := proc_name p; returncode := returncode p; stdin_closing := true;
     on_terminate := on_terminate p; on_kill := on_kill p |}.

Definition exited (rc : Z) (p : process) : process :=
  {| proc_name := proc_name p; returncode := Some rc; stdin_closing := stdin_closing p;
     on_terminate := on_terminate p; on_kill := on_kill p |}.

(** [_kill_process]: closes stdin, then [terminate()]; [kill()] is called
    only when [terminate()] raised something else than [ProcessLookupError].
    The caller stores the returned [None] in its attribute. *)
Definition _kill_process (proc : option nat) (c : controller) : controller :=
  match proc with
  | None => c
  | Some h =>
      match procs c !! h with
      | None => c
      | Some p =>
          match returncode p with
          | Some _ => c
          | None =>
              let c1 :=
                if stdin_closing p then c
                else update_proc h close_stdin (log (EvStdinClose h) c) in
              let c2 := log (EvTerminate h) c1 in
              match on_terminate p with
              | Ok _ => c2
              | Raise (ProcessLookupError _) => c2
              | Raise _ => log (EvKill h) c2
              end
          end
      end
  end.

Definition _kill_ffplay (c : controller) : controller :=
  set_ffplay_proc None (_kill_process (ffplay_proc c) c).

Definition _kill_ffmpeg (c : controller) : controller :=
  set_ffmpeg_proc None (_kill_process (ffmpeg_proc c) c).

(** ** The command listener: [_handle_gui_commands] *)

Inductive loop_control := Continue | Break.

(** [command.startswith("T")]: only a [str] has the method with a [str]
    argument. *)
Definition py_startswith (command : pyval) (p : string) : result bool :=
  match command with
  | PStr s => Ok (startswith s p)
  | PBytes _ => Raise (TypeError "startswith first arg must be bytes or a tuple of bytes, not str")
  | v => Raise (AttributeError ("'" ++ type_name v ++ "' object has no attribute 'startswith'"))
  end.

Definition ws_is_open (c : controller) : bool :=
  match text_ws_for_commands c with
  | Some ws => match close_code ws with None => true | Some _ => false end
  | None => false
  end.

(** The statements between the [get] and the [task_done] of one iteration,
    for a command that is not [None]. [send_outcome] is what
    [await ws.send(command)] does if it is reached. An exception that
    leaves these statements is caught by the handlers of the loop. *)
Definition forward_command (send_outcome : result unit) (command : pyval)
  (c : controller) : result controller :=
  match text_ws_for_commands c with
  | Some ws =>
      match close_code ws with
      | None =>
          match command with
          | PStr s =>
              if startswith s "T" then
                let c1 := log (EvWsSend (ws_id ws) s) c in
                match send_outcome with
                | Ok _ =>
                    match PyInt.int_of_str (drop_first s) with
                    | Ok target_freq_khz => Ok (put_update "current_freq" (PInt target_freq_khz) c1)
                    | Raise (ValueError _) => Ok c1
                    | Raise e => Raise e
                    end
                | Raise (ConnectionClosed _ _) =>
                    Ok (set_text_ws_for_commands None
                          (put_update "status" (PStr "Text WS closed, cannot send cmd.") c1))
                | Raise CancelledError => Raise CancelledError
                | Raise e =>
                    Ok (put_update "error" (PStr ("Send command failed: " ++ exn_str e)) c1)
                end
              else Ok c
          | _ => Ok c
          end
      | Some _ =>
          match py_startswith command "T" with
          | Ok true => Ok (put_update "status" (PStr "Text WS not connected, cannot tune.") c)
          | Ok false => Ok c
          | Raise e => Raise e
          end
      end
  | None =>
      match py_startswith command "T" with
      | Ok true => Ok (put_update "status" (PStr "Text WS not connected, cannot tune.") c)
      | Ok false => Ok c
      | Raise e => Raise e
      end
  end.

(** The handlers of the loop body: [queue.Empty], [CancelledError], and
    any other [Exception]. *)
Definition command_loop_handlers (r : result controller) (c : controller)
  : controller * loop_control :=
  match r with
  | Ok c' => (c', Continue)
  | Raise QueueEmpty => (log (EvSleep 0.01) c, Continue)
  | Raise CancelledError => (c, Break)
  | Raise e =>
      (log (EvSleep 1) (put_update "error" (PStr ("Cmd handling error: " ++ exn_str e)) c),
       Continue)
  end.

(** One iteration of the [while] loop of [_handle_gui_commands], entered
    with the running flag set. The blocking [get] with its timeout of
    0.5 s returns the oldest command or raises [queue.Empty]. An
    exception leaves the state as the statements before it made it. *)
Definition handle_gui_commands_iteration (send_outcome : result unit)
  (c : controller) : controller * loop_control :=
  match command_queue c with
  | None =>
      command_loop_handlers
        (Raise (AttributeError "'NoneType' object has no attribute 'get'")) c
  | Some q =>
      match get_nowait_with QueueEmpty q with
      | Raise e => command_loop_handlers (Raise e) c
      | Ok (command, q') =>
          let c0 := set_command_queue (Some q') c in
          match command with
          | PNone => if app_running c0 then (c0, Continue) else (c0, Break)
          | _ =>
              match forward_command send_outcome command c0 with
              | Raise e =>
                  (* the state reached before the exception: only a send
                     that was cancelled has changed it *)
                  let c1 :=
                    match e with
                    | CancelledError =>
                        match text_ws_for_commands c0, command with
                        | Some ws, PStr s => log (EvWsSend (ws_id ws) s) c0
                        | _, _ => c0
                        end
                    | _ => c0
                    end in
                  command_loop_handlers (Raise e) c1
              | Ok c1 =>
                  match task_done q' with
                  | Ok q'' => (set_command_queue (Some q'') c1, Continue)
                  | Raise e => command_loop_handlers (Raise e) c1
                  end
              end
          end
      end
  end.

(** The loop: iterations while the flag is set; [outcomes] gives the
    outcome of the send of each iteration. *)
Fixpoint _handle_gui_commands (outcomes : list (result unit)) (c : controller) : controller :=
  match outcomes with
  | [] => c
  | o :: outcomes' =>
      if app_running c then
        match handle_gui_commands_iteration o c with
        | (c', Continue) => _handle_gui_commands outcomes' c'
        | (c', Break) => c'
        end
      else c
  end.

(** ** The metadata receive loop of [_handle_text_websocket] *)

(** [data.get("freq")] *)
Definition py_get (data : pyval) (k : string) : result pyval :=
  match data with
  | PDict d => Ok (dict_get d k)
  | v => Raise (AttributeError ("'" ++ type_name v ++ "' object has no attribute 'get'"))
  end.

(** The body of the [async for]: [decoded] is what [json.loads(message)]
    returns or raises. A dict decoded from JSON has one value per key. *)
Definition process_text_message (decoded : result pyval) (c : controller) : controller :=
  match decoded with
  | Raise (JSONDecodeError _) => put_update "error" (PStr "Invalid JSON received (Text WS).") c
  | Raise e => put_update "error" (PStr ("Processing text data failed: " ++ exn_str e)) c
  | Ok data =>
      let c1 := put_update "data" data c in
      match py_get data "freq" with
      | Raise e => put_update "error" (PStr ("Processing text data failed: " ++ exn_str e)) c1
      | Ok freq =>
          match mhz_to_khz freq with
          | Ok (Some data_freq_khz) => put_update "current_freq" (PInt data_freq_khz) c1
          | Ok None => c1
          | Raise e => put_update "error" (PStr ("Processing text data failed: " ++ exn_str e)) c1
          end
      end
  end.

(** ** Shutdown flag and suspension points *)

(** [self.app_running_event.clear()] *)
Definition clear_running (c : controller) : controller :=
  if app_running c then log EvShutdown (set_app_running false c) else c.

(** While a coroutine is suspended in an [await], another task or the
    interface thread may clear the running flag ([stop()], a signal
    handler, a fatal error of another channel): [shutdown] tells whether
    that happened. *)
Definition interference (shutdown : bool) (c : controller) : controller :=
  if shutdown then clear_running c else c.

(** How a timed sleep ends. *)
Inductive wake :=
| Woke
| WokeAfterShutdown
| WokeCancelled.

(** [isinstance(e, OSError)], for the classes of [exn] other than
    [TimeoutError]. *)
Definition is_OSError (e : exn) : bool :=
  match e with
  | OSError _ | FileNotFoundError _ | ConnectionRefusedError _ | ProcessLookupError _ => true
  | _ => false
  end.

(** ** Reconnection delay of the two channel loops

    [now] and [last_connect_time] are readings of [time.monotonic()], in
    seconds. The result is the argument of [asyncio.sleep], if the loop
    sleeps. *)
Definition reconnect_sleep (now last_connect_time : Q) : option Q :=
  let retry_delay := RECONNECT_DELAY_SECONDS in
  let time_since_last := (now - last_connect_time)%Q in
  if Qlt_le_dec time_since_last retry_delay
  then Some (retry_delay - time_since_last)%Q
  else None.

(** The delay, then the flag check after it. [None]: the sleep was
    cancelled. *)
Definition reconnect_wait (now last_connect_time : Q) (w : wake) (c : controller)
  : option controller :=
  match reconnect_sleep now last_connect_time with
  | Some d =>
      match w with
      | Woke => Some (log (EvSleep d) c)
      | WokeAfterShutdown => Some (clear_running (log (EvSleep d) c))
      | WokeCancelled => None
      end
  | None => Some c
  end.

(** The seconds that [asyncio.sleep] was called with, in a list of
    events. *)
Fixpoint slept (evs : list event) : Q :=
  match evs with
  | [] => 0
  | EvSleep d :: evs' => d + slept evs'
  | _ :: evs' => slept evs'
  end.

(** The second clock reading of an iteration,
    [last_connect_time = time.monotonic()], taken in state [c1]: the
    first reading [now], taken in state [c0], the seconds the loop slept
    between the two, and [lag], the time that passed beside them. With a
    monotonic clock and a sleep that lasts at least as long as asked,
    [lag] is not negative. *)
Definition clock_after_wait (now lag : Q) (c0 c1 : controller) : Q :=
  (now + slept (new_events c0 c1) + lag)%Q.

(** ** The metadata channel: [_handle_text_websocket] *)

Record text_env := {
  te_now : Q;                               (* first clock reading of the iteration *)
  te_sleep : wake;                          (* how the reconnection sleep ends *)
  te_lag : Q;                               (* time passed beside the sleep, up to the second reading *)
  te_connect : result websocket;            (* [websockets.connect] *)
  te_shutdown_in_connect : bool;            (* flag cleared during the connect *)
  te_messages : list (bool * result pyval); (* per message: flag cleared before it; [json.loads] *)
  te_end : option exn;                      (* what ends the [async for], if an exception *)
  te_ws_closed : bool;                      (* [websocket.closed] in the [finally] *)
  te_close : result unit                    (* [await websocket.close()] in the [finally] *)
}.

Definition close_reason_text (code : option Z) (reason : string) : string :=
  match code with
  | Some n => if n =? 0 then "Closed unexpectedly"
              else "Code: " ++ str_of_Z n ++ ", Reason: " ++ reason
  | None => "Closed unexpectedly"
  end.

(** The [except] clauses of the loop body. *)
Definition text_ws_handler (e : exn) (c : controller) : controller * loop_control :=
  match e with
  | CancelledError => (c, Break)
  | ConnectionClosed code reason =>
      (put_update "status" (PStr ("Text WS closed (" ++ close_reason_text code reason ++ ")")) c,
       Continue)
  | InvalidURI _ =>
      (clear_running (put_update "error" (PStr ("Fatal: Invalid Text URI: " ++ text_uri c)) c),
       Break)
  | ConnectionRefusedError _ => (put_update "status" (PStr "Text WS connection refused.") c, Continue)
  | TimeoutError _ => (put_update "status" (PStr "Text WS connection timeout.") c, Continue)
  | _ =>
      if is_OSError e
      then (put_update "error" (PStr ("Text WS OS Error: " ++ exn_str e)) c, Continue)
      else (put_update "error" (PStr ("Text WS Error: " ++ exn_str e)) c, Continue)
  end.

(** The exception that [await websocket.close()] raises in the [finally]
    clause, when it is called and raises. No handler encloses the call:
    the exception leaves the coroutine. *)
Definition close_exception (websocket : option websocket) (ws_closed : bool)
  (close : result unit) : option exn :=
  match websocket, ws_closed, close with
  | Some _, false, Raise e => Some e
  | _, _, _ => None
  end.

(** The [finally] clause of the loop body when [close()] raises: the
    statements after the call are not executed. *)
Definition text_ws_finally_raising (ws : websocket) (c : controller) : controller :=
  log (EvWsClose (ws_id ws)) (set_text_ws_for_commands None c).

(** The [finally] clause of the loop body, when [close()] returns if it
    is called. *)
Definition text_ws_finally (websocket : option websocket) (ws_closed : bool)
  (c : controller) : controller :=
  let c1 := set_text_ws_for_commands None c in
  let c2 :=
    match websocket with
    | Some ws => if ws_closed then c1 else log (EvWsClose (ws_id ws)) c1
    | None => c1
    end in
  if app_running c2
  then log (EvSleep 0.5) (put_update "status" (PStr "Text WS disconnected. Retrying...") c2)
  else c2.

(** The [async for]: the flag is checked before each message is
    processed. The boolean tells whether the loop was left by [break]. *)
Fixpoint text_receive_loop (msgs : list (bool * result pyval)) (c : controller)
  : controller * bool :=
  match msgs with
  | [] => (c, false)
  | (shutdown, decoded) :: rest =>
      let c1 := interference shutdown c in
      if app_running c1 then text_receive_loop rest (process_text_message decoded c1)
      else (c1, true)
  end.

(** One iteration of the [while] loop, entered with the flag set: the
    new state, the new [last_connect_time], and whether the loop goes
    on. When an exception leaves the coroutine (see
    [text_ws_attempt_exception]) the loop is left as well: the result is
    [Break], with the state in which the exception was raised. *)
Definition text_ws_attempt (env : text_env) (last_connect_time : Q) (c : controller)
  : controller * Q * loop_control :=
  let c0 := set_text_ws_for_commands None c in
  match reconnect_wait (te_now env) last_connect_time (te_sleep env) c0 with
  | None =>
      let '(c1, ctl) := text_ws_handler CancelledError c0 in
      (text_ws_finally None false c1, last_connect_time, ctl)
  | Some c1 =>
      if negb (app_running c1) then (text_ws_finally None false c1, last_connect_time, Break)
      else
        let t := clock_after_wait (te_now env) (te_lag env) c0 c1 in
        let c2 := log (EvConnect (text_uri c1) t)
                    (put_update "status" (PStr "Connecting Text WS...") c1) in
        let c3 := interference (te_shutdown_in_connect env) c2 in
        match te_connect env with
        | Raise e =>
            let '(c4, ctl) := text_ws_handler e c3 in
            (text_ws_finally None false c4, t, ctl)
        | Ok ws =>
            let c4 := put_update "status" (PStr "Text WS connected.")
                        (set_text_ws_for_commands (Some ws) c3) in
            let '(c5, broke) := text_receive_loop (te_messages env) c4 in
            let '(c6, ctl) :=
              if broke then (c5, Continue)
              else match te_end env with
                   | Some e => text_ws_handler e c5
                   | None => (c5, Continue)
                   end in
            match close_exception (Some ws) (te_ws_closed env) (te_close env) with
            | Some _ => (text_ws_finally_raising ws c6, t, Break)
            | None => (text_ws_finally (Some ws) (te_ws_closed env) c6, t, ctl)
            end
        end
  end.


(** The whole loop, for the iterations that [envs] describes; after the
    loop the reference is cleared once more. When an exception leaves
    the coroutine the state is the one in which it was raised, where the
    reference is cleared already; [text_task_outcome] tells how the task
    ended. *)
Fixpoint _handle_text_websocket (envs : list text_env) (last_connect_time : Q)
  (c : controller) : controller :=
  if app_running c then
    match envs with
    | [] => c
    | env :: envs' =>
        match text_ws_attempt env last_connect_time c with
        | (c', last', Continue) => _handle_text_websocket envs' last' c'
        | (c', _, Break) => set_text_ws_for_commands None c'
        end
    end
  else set_text_ws_for_commands None c.

(** ** The audio channel: [_play_audio_stream] *)

(** How a part of the loop body ends: it goes on with the next statement,
    raises, leaves the inner loop, goes to the next iteration of the outer
    loop, leaves the outer loop, or returns from the coroutine. *)
Inductive flow :=
| Proceed
| Raised (e : exn)
| NextAttempt
| LeaveLoop
| ReturnTask
| Suspended.

(** [await asyncio.create_subprocess_exec(...)] returned a process object:
    it gets a fresh handle. [p] tells how the new process will answer
    [terminate()] and [kill()]. *)
Definition spawn_process (name : string) (p : process) (c : controller) : nat * controller :=
  let h := fresh (dom (procs c)) in
  let started := {| proc_name := name; returncode := None; stdin_closing := false;
                    on_terminate := on_terminate p; on_kill := on_kill p |} in
  (h, log (EvSpawn h name) (set_procs (<[h := started]> (procs c)) c)).

(** "Start ffplay (Conditionally)" *)
Definition start_ffplay (spawn : result process) (c : controller) : controller * flow :=
  let c0 := set_ffplay_proc None c in
  if is_restream_only c0 then (c0, Proceed)
  else
    let c1 := put_update "status" (PStr "Starting audio player (ffplay)...") c0 in
    let c2 := _kill_ffplay c1 in
    match spawn with
    | Ok p =>
        let '(h, c3) := spawn_process "ffplay" p c2 in
        (set_ffplay_proc (Some h) c3, Proceed)
    | Raise (FileNotFoundError _) =>
        (clear_running
           (put_update "error" (PStr "Fatal: 'ffplay' command not found. Playback disabled.") c2),
         ReturnTask)
    | Raise CancelledError => (c2, Raised CancelledError)
    | Raise e =>
        (log (EvSleep RECONNECT_DELAY_SECONDS)
           (put_update "error" (PStr ("Failed to start ffplay: " ++ exn_str e)) c2),
         NextAttempt)
    end.

(** "Start ffmpeg (if streaming enabled)" *)
Definition start_ffmpeg (spawn : result process) (c : controller) : controller * flow :=
  let c0 := set_ffmpeg_proc None c in
  if stream_enabled c0 then
    let c1 := put_update "status" (PStr "Starting AAC encoder (ffmpeg)...") c0 in
    let c2 := _kill_ffmpeg c1 in
    match spawn with
    | Ok p =>
        let '(h, c3) := spawn_process "ffmpeg" p c2 in
        (set_ffmpeg_proc (Some h) c3, Proceed)
    | Raise (FileNotFoundError _) =>
        (set_stream_enabled false
           (put_update "error" (PStr "'ffmpeg' not found. Cannot stream.") c2),
         Proceed)
    | Raise CancelledError => (c2, Raised CancelledError)
    | Raise e =>
        (set_stream_enabled false
           (put_update "error"
              (PStr ("Failed to start ffmpeg: " ++ exn_str e ++ ". Streaming disabled.")) c2),
         Proceed)
    end
  else (c0, Proceed).

(** [proc.returncode] of the process a reference points to. *)
Definition returncode_of (proc : option nat) (c : controller) : option Z :=
  match proc with
  | Some h => match procs c !! h with Some p => returncode p | None => None end
  | None => None
  end.

(** [fallback_request]: the JSON object with "type" set to "fallback"
    and "data" set to "mp3", as [json.dumps] writes it. *)
Definition fallback_request : string :=
  let q := String (ascii_of_N 34) EmptyString in
  "{" ++ q ++ "type" ++ q ++ ": " ++ q ++ "fallback" ++ q ++ ", "
      ++ q ++ "data" ++ q ++ ": " ++ q ++ "mp3" ++ q ++ "}".

Section AudioLoop.
(** [sys.platform == "win32"] *)
Variable win32 : bool.

(** [is_unexpected_exit]: 0 and -SIGTERM are expected return codes,
    and -SIGKILL too except on win32. *)
Definition is_unexpected_exit (return_code : option Z) : bool :=
  match return_code with
  | None => false
  | Some rc =>
      if rc =? 0 then false
      else negb ((rc =? -15) || (negb win32 && (rc =? -9)))
  end.

(** "Check External Process Status First": the first statements of an
    iteration of the inner loop. [Break] leaves the inner loop. *)
Definition check_process_status (c : controller) : controller * loop_control :=
  let ffplay_rc :=
    if negb (is_restream_only c) then returncode_of (ffplay_proc c) c else None in
  let ffmpeg_rc :=
    if stream_enabled c then returncode_of (ffmpeg_proc c) c else None in
  match ffplay_rc with
  | Some rc =>
      let c1 :=
        if is_unexpected_exit ffplay_rc
        then put_update "error"
               (PStr ("ffplay exited unexpectedly (code " ++ str_of_Z rc ++ ").")) c
        else put_update "status" (PStr "ffplay stopped.") c in
      (set_ffplay_proc None c1, Break)
  | None =>
      match ffmpeg_rc with
      | Some rc =>
          let c1 :=
            if is_unexpected_exit ffmpeg_rc
            then put_update "error"
                   (PStr ("ffmpeg exited unexpectedly (code " ++ str_of_Z rc
                          ++ "). Streaming stopped.")) c
            else put_update "stream_status" (PStr "Stream: Encoder stopped.") c in
          (_kill_ffmpeg (set_ffmpeg_proc None (set_stream_enabled false c1)), Continue)
      | None => (c, Continue)
      end
  end.

(** [proc and proc.stdin and not proc.stdin.is_closing()] *)
Definition writable (proc : option nat) (c : controller) : option nat :=
  match proc with
  | Some h =>
      match procs c !! h with
      | Some p => if stdin_closing p then None else Some h
      | None => None
      end
  | None => None
  end.

(** "Pipe to ffplay (if running)": [w] is the outcome of the write and
    the drain. *)
Definition pipe_to_ffplay (msg : list byte) (w : result unit) (c : controller)
  : controller * flow :=
  if is_restream_only c then (c, Proceed)
  else
    match writable (ffplay_proc c) c with
    | Some h =>
        let c1 := log (EvStdinWrite h msg) c in
        match w with
        | Ok _ => (c1, Proceed)
        | Raise e =>
            if is_OSError e then (log (EvSleep 0.1) c1, NextAttempt)
            else (c1, Raised e)
        end
    | None => (c, Proceed)
    end.

(** "Pipe to ffmpeg (if running)" *)
Definition pipe_to_ffmpeg (msg : list byte) (w : result unit) (c : controller)
  : controller * flow :=
  if stream_enabled c then
    match writable (ffmpeg_proc c) c with
    | Some h =>
        let c1 := log (EvStdinWrite h msg) c in
        match w with
        | Ok _ => (c1, Proceed)
        | Raise e =>
            if is_OSError e then
              (set_ffmpeg_proc None
                 (_kill_ffmpeg
                    (set_stream_enabled false
                       (put_update "error"
                          (PStr ("ffmpeg stdin pipe broken (" ++ exn_str e
                                 ++ "). Stopping stream.")) c1))),
               Proceed)
            else (c1, Raised e)
        end
    | None => (c, Proceed)
    end
  else (c, Proceed).

Record frame_env := {
  fe_shutdown : bool;            (* flag cleared before the loop test *)
  fe_exits : list (nat * Z);     (* processes that exited meanwhile: handle, return code *)
  fe_recv : result pyval;        (* [wait_for(websocket.recv(), ...)] *)
  fe_ping : result unit;         (* [wait_for(websocket.ping(), ...)], after a timeout *)
  fe_write_ffplay : result unit; (* write and drain on the stdin of ffplay *)
  fe_write_ffmpeg : result unit  (* write and drain on the stdin of ffmpeg *)
}.

Definition process_exits (exits : list (nat * Z)) (c : controller) : controller :=
  fold_left (fun c' '(h, rc) => update_proc h (exited rc) c') exits c.

Definition close_reason_audio (code : option Z) : string :=
  match code with
  | Some n => if n =? 0 then "Closed unexpectedly" else "Code: " ++ str_of_Z n
  | None => "Closed unexpectedly"
  end.

(** "Receive Audio Data from WebSocket": the [try] of the inner loop
    with its handlers. [NextAttempt] here is the [continue] of the inner
    loop, [LeaveLoop] its [break]. *)
Definition receive_and_pipe (env : frame_env) (c : controller) : controller * flow :=
  match fe_recv env with
  | Ok (PBytes msg) =>
      match msg with
      | [] => (c, Proceed)
      | _ =>
          match pipe_to_ffplay msg (fe_write_ffplay env) c with
          | (c1, Proceed) =>
              match pipe_to_ffmpeg msg (fe_write_ffmpeg env) c1 with
              | (c2, Raised CancelledError) => (c2, Raised CancelledError)
              | (c2, Raised e) =>
                  (put_update "error" (PStr ("Audio WS Recv Error: " ++ exn_str e)) c2, LeaveLoop)
              | r => r
              end
          | (c1, Raised CancelledError) => (c1, Raised CancelledError)
          | (c1, Raised e) =>
              (put_update "error" (PStr ("Audio WS Recv Error: " ++ exn_str e)) c1, LeaveLoop)
          | r => r
          end
      end
  | Ok _ => (c, Proceed)
  | Raise (TimeoutError _) =>
      let c1 := put_update "status" (PStr "Audio WS recv timeout, pinging...") c in
      match fe_ping env with
      | Ok _ => (c1, Proceed)
      | Raise (TimeoutError _) => (put_update "status" (PStr "Audio WS ping timeout.") c1, LeaveLoop)
      | Raise (ConnectionClosed _ _) =>
          (put_update "status" (PStr "Audio WS closed during ping.") c1, LeaveLoop)
      | Raise CancelledError => (c1, Raised CancelledError)
      | Raise e =>
          (put_update "error" (PStr ("Audio WS ping error: " ++ exn_str e)) c1, LeaveLoop)
      end
  | Raise (ConnectionClosed code _) =>
      (put_update "status" (PStr ("Audio WS closed (" ++ close_reason_audio code ++ ")")) c,
       LeaveLoop)
  | Raise CancelledError => (c, Raised CancelledError)
  | Raise e =>
      (put_update "error" (PStr ("Audio WS Recv Error: " ++ exn_str e)) c, LeaveLoop)
  end.

(** "Main Receive and Pipe Loop": [Proceed] when the loop ended (flag
    cleared or [break]), [Raised] when an exception left it, [Suspended]
    when it still runs after the iterations of [frames]. *)
Fixpoint receive_and_pipe_loop (frames : list frame_env) (c : controller)
  : controller * flow :=
  match frames with
  | [] => (c, Suspended)
  | env :: frames' =>
      let c0 := process_exits (fe_exits env) (interference (fe_shutdown env) c) in
      if app_running c0 then
        match check_process_status c0 with
        | (c1, Break) => (c1, Proceed)
        | (c1, Continue) =>
            match receive_and_pipe env c1 with
            | (c2, Proceed) | (c2, NextAttempt) => receive_and_pipe_loop frames' c2
            | (c2, LeaveLoop) => (c2, Proceed)
            | r => r
            end
        end
      else (c0, Proceed)
  end.

Record audio_env := {
  ae_now : Q;
  ae_sleep : wake;
  ae_lag : Q;                       (* time passed beside the sleep, up to the second reading *)
  ae_connect : result websocket;
  ae_shutdown_in_connect : bool;
  ae_send : result unit;            (* [websocket.send(fallback_request)] *)
  ae_spawn_ffplay : result process;
  ae_spawn_ffmpeg : result process;
  ae_frames : list frame_env;
  ae_ws_closed : bool
}.

(** "Cleanup Processes from Previous Attempt", and the same statements
    of the [finally] clause. *)
Definition kill_media_processes (c : controller) : controller :=
  let c1 := if negb (is_restream_only c) then _kill_ffplay c else c in
  if stream_enabled c1 then _kill_ffmpeg c1 else c1.

(** The [except] clauses of the outer [try]. *)
Definition audio_ws_handler (e : exn) (c : controller) : controller * flow :=
  match e with
  | CancelledError => (c, LeaveLoop)
  | InvalidURI _ =>
      (clear_running (put_update "error" (PStr ("Fatal: Invalid Audio URI: " ++ audio_uri c)) c),
       LeaveLoop)
  | ConnectionRefusedError _ =>
      (put_update "status" (PStr "Audio WS connection refused.") c, NextAttempt)
  | TimeoutError _ => (put_update "status" (PStr "Audio WS connection timeout.") c, NextAttempt)
  | _ =>
      if is_OSError e
      then (put_update "error" (PStr ("Audio WS OS Error (connect): " ++ exn_str e)) c, NextAttempt)
      else (put_update "error" (PStr ("Audio WS Setup Error: " ++ exn_str e)) c, NextAttempt)
  end.

(** The [finally] clause of the outer [try]. *)
Definition audio_ws_finally (websocket : option websocket) (ws_closed : bool)
  (c : controller) : controller :=
  let c1 := kill_media_processes c in
  let c2 :=
    match websocket with
    | Some ws => if ws_closed then c1 else log (EvWsClose (ws_id ws)) c1
    | None => c1
    end in
  if app_running c2
  then log (EvSleep 0.5) (put_update "status" (PStr "Audio stream disconnected. Retrying...") c2)
  else c2.

(** The statements after a successful connect, up to the end of the
    inner loop. *)
Definition audio_session (env : audio_env) (ws : websocket) (c : controller)
  : controller * flow :=
  let c1 := log (EvWsSend (ws_id ws) fallback_request)
              (put_update "status" (PStr "Audio WS connected.") c) in
  match ae_send env with
  | Raise e => (c1, Raised e)
  | Ok _ =>
      match start_ffplay (ae_spawn_ffplay env) c1 with
      | (c2, Proceed) =>
          match start_ffmpeg (ae_spawn_ffmpeg env) c2 with
          | (c3, Proceed) => receive_and_pipe_loop (ae_frames env) c3
          | r => r
          end
      | r => r
      end
  end.

(** One iteration of the outer [while] loop, entered with the flag
    set. The flow of the result: [NextAttempt], [LeaveLoop], [ReturnTask],
    or [Suspended] while the connection is still served. *)
Definition audio_attempt (env : audio_env) (last_connect_time : Q) (c : controller)
  : controller * Q * flow :=
  let c0 := kill_media_processes c in
  match reconnect_wait (ae_now env) last_connect_time (ae_sleep env) c0 with
  | None =>
      let '(c1, fl) := audio_ws_handler CancelledError c0 in
      (audio_ws_finally None false c1, last_connect_time, fl)
  | Some c1 =>
      if negb (app_running c1) then (audio_ws_finally None false c1, last_connect_time, LeaveLoop)
      else
        let t := clock_after_wait (ae_now env) (ae_lag env) c0 c1 in
        let c2 := log (EvConnect (audio_uri c1) t)
                    (put_update "status" (PStr "Connecting Audio WS...") c1) in
        let c3 := interference (ae_shutdown_in_connect env) c2 in
        match ae_connect env with
        | Raise e =>
            let '(c4, fl) := audio_ws_handler e c3 in
            (audio_ws_finally None false c4, t, fl)
        | Ok ws =>
            match audio_session env ws c3 with
            | (c4, Suspended) => (c4, t, Suspended)
            | (c4, Raised e) =>
                let '(c5, fl) := audio_ws_handler e c4 in
                (audio_ws_finally (Some ws) (ae_ws_closed env) c5, t, fl)
            | (c4, Proceed) =>
                (audio_ws_finally (Some ws) (ae_ws_closed env) c4, t, NextAttempt)
            | (c4, fl) =>
                (audio_ws_finally (Some ws) (ae_ws_closed env) c4, t, fl)
            end
        end
  end.

(** "Final Cleanup when the Task Exits" *)
Definition audio_final_cleanup (c : controller) : controller :=
  _kill_ffmpeg (if negb (is_restream_only c) then _kill_ffplay c else c).

Fixpoint _play_audio_stream (envs : list audio_env) (last_connect_time : Q)
  (c : controller) : controller :=
  if app_running c then
    match envs with
    | [] => c
    | env :: envs' =>
        match audio_attempt env last_connect_time c with
        | (c', last', NextAttempt) => _play_audio_stream envs' last' c'
        | (c', _, LeaveLoop) => audio_final_cleanup c'
        | (c', _, _) => c'
        end
    end
  else audio_final_cleanup c.

End AudioLoop.

(** ** The broadcast relay: [_relay_aac_data] and [_handle_stream_request] *)

(** A client queue holds chunks and, at the end, the [None] that tells
    the client the stream is over. *)
Abbreviation client_queue := (pyqueue (option (list byte))).

Definition STREAM_PATH : string := "/stream.aac".

(** The body of [for q in current_clients]: the chunk is put without
    blocking; on [asyncio.QueueFull] the oldest item is taken out, marked
    done, and the chunk is put again. An exception in that handler leaves
    the queue as the statements before it made it. *)
Definition relay_put (chunk : list byte) (q : client_queue) : client_queue :=
  match put_nowait_with AsyncQueueFull q (Some chunk) with
  | Ok q' => q'
  | Raise AsyncQueueFull =>
      match get_nowait_with AsyncQueueEmpty q with
      | Ok (_, q1) =>
          match task_done q1 with
          | Ok q2 =>
              match put_nowait_with AsyncQueueFull q2 (Some chunk) with
              | Ok q3 => q3
              | Raise _ => q2
              end
          | Raise _ => q1
          end
      | Raise _ => q
      end
  | Raise _ => q
  end.

(** "Distribute chunk to connected HTTP clients": the loop runs over a
    copy of the set, taken before the first put. *)
Definition distribute (chunk : list byte) (c : controller) : controller :=
  let current_clients := elements (aac_clients c) in
  set_client_queues
    (foldr (fun i qs => alter (relay_put chunk) i qs) (client_queues c) current_clients) c.

(** One iteration of the relay loop, entered with the flag set and
    streaming enabled; [read] is the outcome of
    [await self.ffmpeg_proc.stdout.read(1024)]. An exception is handled
    by the clauses around the loop, which end the task. *)
Definition relay_iteration (read : result (list byte)) (c : controller)
  : controller * loop_control :=
  match ffmpeg_proc c with
  | None =>
      (if app_running c
       then put_update "error" (PStr "AAC relay failed: ffmpeg process invalid.") c
       else c, Break)
  | Some _ =>
      match read with
      | Ok [] =>
          (if app_running c
           then set_ffmpeg_proc None
                  (set_stream_enabled false
                     (put_update "error" (PStr "ffmpeg exited unexpectedly during relay.") c))
           else c, Break)
      | Ok chunk => (distribute chunk c, Continue)
      | Raise CancelledError => (c, Break)
      | Raise e =>
          (if app_running c
           then put_update "error" (PStr ("AAC relay error: " ++ exn_str e)) c
           else c, Break)
      end
  end.

(** "Relay Cleanup": each client queue is emptied while it is full, then
    receives [None]. *)
Fixpoint make_room (n : nat) (q : client_queue) : result client_queue :=
  match n with
  | O => Ok q
  | S n' =>
      if full q then
        match get_nowait_with AsyncQueueEmpty q with
        | Ok (_, q1) =>
            match task_done q1 with
            | Ok q2 => make_room n' q2
            | Raise e => Raise e
            end
        | Raise e => Raise e
        end
      else Ok q
  end.

Definition signal_eof (q : client_queue) : client_queue :=
  match make_room (length (items q)) q with
  | Ok q1 =>
      match put_nowait_with AsyncQueueFull q1 None with
      | Ok q2 => q2
      | Raise _ => q1
      end
  | Raise _ => q
  end.

Definition relay_cleanup (c : controller) : controller :=
  set_client_queues
    (foldr (fun i qs => alter signal_eof i qs) (client_queues c) (elements (aac_clients c))) c.

(** [_update_client_count] *)
Definition _update_client_count (c : controller) : controller :=
  if stream_enabled c && http_runner c then
    put_update "stream_status"
      (PStr ("Stream: AAC @ :" ++ str_of_Z (stream_port c) ++ STREAM_PATH
             ++ " | Clients: " ++ str_of_Z (Z.of_nat (size (aac_clients c))))) c
  else c.

(** A client connects: a queue of capacity 10 is created for it and
    added to the set. *)
Definition client_connect (c : controller) : nat * controller :=
  let i := fresh (dom (client_queues c)) in
  (i, _update_client_count
        (set_aac_clients ({[i]} ∪ aac_clients c)
           (set_client_queues (<[i := new_queue 10]> (client_queues c)) c))).

(** One iteration of the loop that serves client [i], when its queue has
    an item: a chunk is written to the client and marked done; [None]
    ends the loop. [write] is the outcome of [await writer.write(chunk)]. *)
Definition client_iteration (i : nat) (write : result unit) (c : controller)
  : controller * loop_control :=
  match client_queues c !! i with
  | Some q =>
      match get_nowait_with AsyncQueueEmpty q with
      | Ok (Some chunk, q1) =>
          let c1 := log (EvClientWrite i chunk)
                      (set_client_queues (<[i := q1]> (client_queues c)) c) in
          match write with
          | Ok _ =>
              match task_done q1 with
              | Ok q2 => (set_client_queues (<[i := q2]> (client_queues c1)) c1, Continue)
              | Raise _ => (c1, Break)
              end
          | Raise _ => (c1, Break)
          end
      | Ok (None, q1) => (set_client_queues (<[i := q1]> (client_queues c)) c, Break)
      | Raise _ => (c, Break)   (* nothing for 30 s: [asyncio.TimeoutError] *)
      end
  | None => (c, Break)
  end.

(** "Client Cleanup": the queue leaves the set and is emptied. *)
Fixpoint drain (n : nat) (q : client_queue) : client_queue :=
  match n with
  | O => q
  | S n' =>
      match get_nowait_with AsyncQueueEmpty q with
      | Ok (_, q1) =>
          match task_done q1 with
          | Ok q2 => drain n' q2
          | Raise _ => q1
          end
      | Raise _ => q
      end
  end.

Definition client_disconnect (i : nat) (c : controller) : controller :=
  let c1 := _update_client_count (set_aac_clients (aac_clients c ∖ {[i]}) c) in
  set_client_queues (alter (fun q => drain (length (items q)) q) i (client_queues c1)) c1.

(** ** The supervisor: [_main_async] *)

Inductive task_name := CmdListen | TxtWS | AudWS | AACRelay | StreamSrv.

Definition task_name_str (t : task_name) : string :=
  match t with
  | CmdListen => "CmdListen"
  | TxtWS => "TxtWS"
  | AudWS => "AudWS"
  | AACRelay => "AACRelay"
  | StreamSrv => "StreamSrv"
  end.

Definition task_name_eqb (a b : task_name) : bool :=
  String.eqb (task_name_str a) (task_name_str b).

(** How a task of the [done] set ended. *)
Inductive task_outcome :=
| TaskCancelled
| TaskReturned
| TaskFailed (exc : exn).

(** [type(exc).__name__] *)
Definition exn_type_name (e : exn) : string :=
  match e with
  | ValueError _ => "ValueError"
  | TypeError _ => "TypeError"
  | AttributeError _ => "AttributeError"
  | OverflowError _ => "OverflowError"
  | FileNotFoundError _ => "FileNotFoundError"
  | OSError _ => "OSError"
  | ConnectionClosed _ _ => "ConnectionClosed"
  | InvalidURI _ => "InvalidURI"
  | ConnectionRefusedError _ => "ConnectionRefusedError"
  | TimeoutError _ => "TimeoutError"
  | CancelledError => "CancelledError"
  | JSONDecodeError _ => "JSONDecodeError"
  | ProcessLookupError _ => "ProcessLookupError"
  | QueueFull => "Full"
  | QueueEmpty => "Empty"
  | AsyncQueueFull => "QueueFull"
  | AsyncQueueEmpty => "QueueEmpty"
  | OtherException _ => "Exception"
  end.

(** The fatal errors of the supervisor. *)
Definition is_fatal (name : task_name) (exc : exn) (c : controller) : bool :=
  match exc with
  | InvalidURI _ => negb (task_name_eqb name StreamSrv)
  | FileNotFoundError m =>
      task_name_eqb name AudWS &&
      ((contains "ffplay" m && negb (is_restream_only c)) ||
       (contains "ffmpeg" m && stream_enabled c))
  | _ => false
  end.

(** The body of [for task in done], after [tasks.remove(task)]: the new
    state, the task that is started again if one is, the task that is
    taken out of the set beside the finished one, and whether the [for]
    loop goes on. [relay_pending]: [self.aac_relay_task in pending]. *)
Definition supervise_task (relay_pending : bool) (name : task_name)
  (outcome : task_outcome) (c : controller)
  : controller * option task_name * option task_name * loop_control :=
  match outcome with
  | TaskCancelled => (c, None, None, Continue)
  | TaskReturned => (c, None, None, Continue)
  | TaskFailed exc =>
      if task_name_eqb name StreamSrv && is_OSError exc
         && contains "Address already in use" (exn_str exc) then
        let c1 := put_update "stream_status"
                    (PStr ("Stream Err: Port " ++ str_of_Z (stream_port c) ++ " in use")) c in
        let c2 := put_update "error"
                    (PStr ("Fatal: Port " ++ str_of_Z (stream_port c)
                           ++ " already in use. Streaming disabled.")) c1 in
        (set_stream_enabled false c2, None,
         if relay_pending then Some AACRelay else None, Continue)
      else
        let c1 := put_update "error"
                    (PStr ("Task " ++ task_name_str name ++ " failed: "
                           ++ exn_type_name exc ++ ": " ++ exn_str exc)) c in
        if is_fatal name exc c then
          (clear_running
             (put_update "error"
                (PStr ("Fatal error in " ++ task_name_str name ++ ". Stopping.")) c1),
           None, None, Break)
        else if app_running c1 then
          match name with
          | TxtWS => (c1, Some TxtWS, None, Continue)
          | AudWS => (c1, Some AudWS, None, Continue)
          | AACRelay =>
              if stream_enabled c1 then (c1, Some AACRelay, None, Continue)
              else (c1, None, None, Continue)
          | StreamSrv =>
              (put_update "stream_status" (PStr "Stream: Server Failed")
                 (set_stream_enabled false c1), None, None, Continue)
          | CmdListen => (c1, None, None, Continue)
          end
        else (c1, None, None, Continue)
  end.


(** [tasks.remove(task)] *)
Fixpoint remove_task (name : task_name) (tasks : list task_name) : list task_name :=
  match tasks with
  | [] => []
  | t :: tasks' => if task_name_eqb t name then tasks' else t :: remove_task name tasks'
  end.

Definition add_task (t : option task_name) (tasks : list task_name) : list task_name :=
  match t with
  | Some n => n :: tasks
  | None => tasks
  end.

Definition discard_task (t : option task_name) (tasks : list task_name) : list task_name :=
  match t with
  | Some n => remove_task n tasks
  | None => tasks
  end.

(** [for task in done]: the tasks of the set and the state after it. *)
Fixpoint supervise_done (relay_pending : bool) (done : list (task_name * task_outcome))
  (tasks : list task_name) (c : controller) : list task_name * controller :=
  match done with
  | [] => (tasks, c)
  | (name, outcome) :: done' =>
      let tasks1 := remove_task name tasks in
      match supervise_task relay_pending name outcome c with
      | (c1, restart, discard, Continue) =>
          supervise_done relay_pending done' (add_task restart (discard_task discard tasks1)) c1
      | (c1, restart, discard, Break) => (add_task restart (discard_task discard tasks1), c1)
      end
  end.

(** One iteration of the monitoring loop, entered with the flag set:
    [asyncio.wait] with its timeout of 0.5 s, then the completed tasks. *)
Definition main_async_iteration (shutdown_in_wait relay_pending : bool)
  (done : list (task_name * task_outcome)) (tasks : list task_name) (c : controller)
  : list task_name * controller * loop_control :=
  let c1 := interference shutdown_in_wait c in
  if negb (app_running c1) then (tasks, c1, Break)
  else
    match done with
    | [] => (tasks, c1, Continue)
    | _ =>
        let '(tasks', c2) := supervise_done relay_pending done tasks c1 in
        (tasks', c2, if app_running c2 then Continue else Break)
    end.


(** ** The controller thread and [stop()] *)

(** [start()], and the first statements of [_run_asyncio_loop]: the
    flag is set, the thread runs the new loop. *)
Definition start (c : controller) : controller :=
  if negb (thread c) || negb (thread_alive c) then
    set_loop (Some {| is_running := true; stop_requested := false |})
      (set_thread_alive true (set_thread true (set_app_running true c)))
  else c.

(** The [finally] clause of [_run_streaming_server]: the site and the
    runner are stopped, the attribute is cleared and the last stream
    status is put. *)
Definition stream_server_finally (c : controller) : controller :=
  put_update "stream_status" (PStr "Stream: Stopped") (set_http_runner false c).

(** The tasks of the stream that are still pending are cancelled and
    awaited. The relay signals the end of the stream to the clients. The
    handler of every client that is still connected leaves its loop and
    runs its cleanup, which reports the new count of clients. The server
    task is inside its [try] statement exactly when [http_runner] is
    set: it runs its [finally] clause, which awaits the end of the
    site and of the runner, and with them of the handlers, before it
    clears the attribute and puts "Stream: Stopped". *)
Definition cancel_stream_tasks (c : controller) : controller :=
  let c1 := relay_cleanup c in
  let c2 := fold_left (fun c' i => client_disconnect i c') (elements (aac_clients c1)) c1 in
  if http_runner c2 then stream_server_finally c2 else c2.

(** The [finally] clause of [_run_asyncio_loop], executed once
    [run_forever()] has returned, which it does after [stop()] cleared
    the running flag: the pending tasks are cancelled and awaited (the
    tasks of the stream end as [cancel_stream_tasks] tells; the
    cancelled channel tasks clear their references and terminate their
    processes, and put no update as the flag is cleared), the loop is
    closed, the processes are terminated and the "closed" update is
    put. *)
Definition loop_thread_finally (c : controller) : controller :=
  let c0 := cancel_stream_tasks c in
  let c1 := set_loop None (set_text_ws_for_commands None c0) in
  let c2 := _kill_ffmpeg (_kill_ffplay c1) in
  set_thread_alive false (put_update "closed" PNone c2).

(** The controller thread is given time to run: [run_forever()] returns
    only when [loop.stop()] was called. *)
Definition controller_thread_step (c : controller) : controller :=
  if thread_alive c then
    match loop c with
    | Some l => if stop_requested l then loop_thread_finally c else c
    | None => c
    end
  else c.

(** [stop()]. [joined] tells whether the controller thread ends within
    the 7 seconds of the [join]. *)
Definition stop (joined : bool) (c : controller) : controller :=
  let c1 :=
    if app_running c then
      let ca := clear_running c in
      let cb :=
        match command_queue ca with
        | Some q =>
            match put_nowait_with QueueFull q PNone with
            | Ok q' => set_command_queue (Some q') ca
            | Raise _ => ca
            end
        | None => ca
        end in
      let cc :=
        match loop cb with
        | Some l =>
            if is_running l
            then set_loop (Some {| is_running := true; stop_requested := true |}) cb
            else cb
        | None => cb
        end in
      if thread cc && thread_alive cc then
        if joined then controller_thread_step cc else cc
      else cc
    else c in
  set_thread false (_kill_ffmpeg (_kill_ffplay c1)).

(** ** Observations used in the statements *)

(** The frames passed to [send], with the connection they were passed to. *)
Definition sent_frames (tr : list event) : list (nat * string) :=
  omap (fun ev => match ev with EvWsSend w p => Some (w, p) | _ => None end) tr.

(** The clock readings at which connections were started. *)
Definition connect_times (tr : list event) : list Q :=
  omap (fun ev => match ev with EvConnect _ t => Some t | _ => None end) tr.

(** The processes started. *)
Definition spawned (tr : list event) : list nat :=
  omap (fun ev => match ev with EvSpawn h _ => Some h | _ => None end) tr.

(** The data written to the stdin of process [h]. *)
Definition written_to (h : nat) (tr : list event) : list (list byte) :=
  omap (fun ev => match ev with
                  | EvStdinWrite h' d => if Nat.eqb h h' then Some d else None
                  | _ => None
                  end) tr.

(** The processes that were sent SIGKILL. *)
Definition killed (tr : list event) : list nat :=
  omap (fun ev => match ev with EvKill h => Some h | _ => None end) tr.

(** The processes that were sent SIGTERM. *)
Definition terminated (tr : list event) : list nat :=
  omap (fun ev => match ev with EvTerminate h => Some h | _ => None end) tr.

(** The chunks written to client [i]. *)
Definition delivered_to (i : nat) (tr : list event) : list (list byte) :=
  omap (fun ev => match ev with
                  | EvClientWrite i' d => if Nat.eqb i i' then Some d else None
                  | _ => None
                  end) tr.

(** The updates of a given type in a list of updates. *)
Definition updates_of_type (ty : string) (us : list (string * pyval)) : list pyval :=
  omap (fun u => if String.eqb (fst u) ty then Some (snd u) else None) us.

(** No process is started after the running flag was cleared. *)
Definition no_spawn_after_shutdown (tr : list event) : Prop :=
  forall i j h name,
    tr !! i = Some EvShutdown -> tr !! j = Some (EvSpawn h name) -> (j < i)%nat.

(** A process that is running: it has no return code. *)
Definition alive (h : nat) (c : controller) : Prop :=
  exists p, procs c !! h = Some p /\ returncode p = None.

(** The last [n] elements of a list. *)
Definition lastn {A : Type} (n : nat) (l : list A) : list A :=
  drop (length l - n) l.

(** A client queue as [_handle_stream_request] creates it and the relay
    and the client use it: capacity 10, never more items than that, and
    every item still counted as unfinished. *)
Definition sink_ok (q : client_queue) : Prop :=
  maxsize q = 10 /\ qsize q <= 10 /\ qsize q <= unfinished_tasks q.

(** The producer and the clients of the relay, as a sequence of steps:
    the relay distributes a chunk, or the task of client [i] takes the
    next item of its queue and writes it. *)
Inductive stream_step :=
| Produce (chunk : list byte)
| Consume (i : nat).

Definition run_stream_step (a : stream_step) (c : controller) : controller :=
  match a with
  | Produce chunk => distribute chunk c
  | Consume i => fst (client_iteration i (Ok tt) c)
  end.

Definition run_stream (steps : list stream_step) (c : controller) : controller :=
  fold_left (fun c' a => run_stream_step a c') steps c.

Definition produced (steps : list stream_step) : list (list byte) :=
  omap (fun a => match a with Produce chunk => Some chunk | Consume _ => None end) steps.

(** Client [i] never takes an item. *)
Definition never_drained (i : nat) (steps : list stream_step) : Prop :=
  Forall (fun a => a <> Consume i) steps.

(** The queue of client [i] is not full whenever a chunk is distributed. *)
Fixpoint keeps_up (i : nat) (steps : list stream_step) (c : controller) : Prop :=
  match steps with
  | [] => True
  | a :: steps' =>
      match a with
      | Produce _ =>
          match client_queues c !! i with
          | Some q => full q = false
          | None => False
          end
      | Consume _ => True
      end /\ keeps_up i steps' (run_stream_step a c)
  end.





(** Facts of the rounding: see [PyFloatFacts]. A finite result has at
    most 53 bits and an exponent of at most [bound]. *)
Definition rounded_ok (bound : Z) (x : spec_float) : Prop :=
  match x with
  | S754_finite _ m e => Zpos (digits2_pos m) <= PyFloat.prec /\ e <= bound
  | S754_zero _ => True
  | S754_infinity _ => PyFloat.emax - PyFloat.prec < bound
  | S754_nan => False
  end.

Definition mantissa_ok (x : spec_float) : Prop :=
  match x with
  | S754_finite _ m _ => Zpos (digits2_pos m) <= 53
  | _ => True
  end.

(** The test of the band in [mhz_to_khz]. *)
Definition in_band (x : spec_float) : bool :=
  PyFloat.leb MIN_FREQ_MHZ x && PyFloat.leb x MAX_FREQ_MHZ.

Definition not_digit (c : ascii) : Prop := PyFloat.is_digit c = false.

(** A string without a decimal digit. *)
Definition no_digit (s : string) : Prop := Forall not_digit (list_ascii_of_string s).

(** [t'] is [t] followed by events that all satisfy [P]. *)
Definition extends_with (P : event -> Prop) (t t' : list event) : Prop :=
  exists evs, t' = t ++ evs /\ Forall P evs.

Definition is_connect (ev : event) : bool :=
  match ev with EvConnect _ _ => true | _ => false end.

Definition is_spawn (ev : event) : bool :=
  match ev with EvSpawn _ _ => true | _ => false end.

(** An event that starts no connection. *)
Definition no_connect (ev : event) : Prop := is_connect ev = false.

(** An event that starts no connection and no process. *)
Definition housekeeping (ev : event) : Prop := is_connect ev = false /\ is_spawn ev = false.

(** ** Operations of one run of the controller

    The steps of the tasks of the controller thread, the calls of
    [stop()] by the interface, and what the interface does to the shared
    flag and the command queue while the controller runs. [start()]
    begins a run and is not among them. *)
Inductive controller_op :=
| OpCommands (send : result unit)
| OpTextAttempt (env : text_env) (last : Q)
| OpAudioAttempt (win32 : bool) (env : audio_env) (last : Q)
| OpSupervise (shutdown_in_wait relay_pending : bool)
    (done : list (task_name * task_outcome)) (tasks : list task_name)
| OpRelay (read : result (list byte))
| OpRelayCleanup
| OpClientConnect
| OpClient (i : nat) (write : result unit)
| OpClientDisconnect (i : nat)
| OpStop (joined : bool)
| OpThreadStep
| OpShutdownRequest
| OpEnqueue (command : pyval).

(** [self.command_queue.put(command)] by the interface. *)
Definition enqueue_command (command : pyval) (c : controller) : controller :=
  match command_queue c with
  | Some q =>
      match put_nowait_with QueueFull q command with
      | Ok q' => set_command_queue (Some q') c
      | Raise _ => c
      end
  | None => c
  end.

Definition run_op (o : controller_op) (c : controller) : controller :=
  match o with
  | OpCommands send => fst (handle_gui_commands_iteration send c)
  | OpTextAttempt env last => fst (fst (text_ws_attempt env last c))
  | OpAudioAttempt win32 env last => fst (fst (audio_attempt win32 env last c))
  | OpSupervise sh rp done tasks => snd (fst (main_async_iteration sh rp done tasks c))
  | OpRelay read => fst (relay_iteration read c)
  | OpRelayCleanup => relay_cleanup c
  | OpClientConnect => snd (client_connect c)
  | OpClient i w => fst (client_iteration i w c)
  | OpClientDisconnect i => client_disconnect i c
  | OpStop joined => stop joined c
  | OpThreadStep => controller_thread_step c
  | OpShutdownRequest => clear_running c
  | OpEnqueue command => enqueue_command command c
  end.

Definition run_ops (ops : list controller_op) (c : controller) : controller :=
  fold_left (fun c' o => run_op o c') ops c.


(** ** Observations on processes and their pipes *)

(** An event that is not a SIGKILL. *)
Definition not_kill (ev : event) : Prop :=
  match ev with EvKill _ => False | _ => True end.

(** [terminate()] of the process returns, or finds the process gone. *)
Definition sigterm_accepted (p : process) : Prop :=
  match on_terminate p with
  | Ok _ => True
  | Raise (ProcessLookupError _) => True
  | Raise _ => False
  end.

(** An event that is not a write to the stdin of process [h]. *)
Definition not_write_to (h : nat) (ev : event) : Prop :=
  match ev with EvStdinWrite h' _ => h' <> h | _ => True end.

(** The stdin of process [h] has been closed. *)
Definition stdin_closed (h : nat) (c : controller) : Prop :=
  exists p, procs c !! h = Some p /\ stdin_closing p = true.

(** Every process answers [terminate()] in that way. *)
Definition all_sigterm_accepted (c : controller) : Prop :=
  forall h p, procs c !! h = Some p -> sigterm_accepted p.

(** From [c] to [c'] nothing was written to process [h], and its stdin
    is closed in [c']. *)
Definition keeps_closed (h : nat) (c c' : controller) : Prop :=
  extends_with (not_write_to h) (trace c) (trace c') /\ stdin_closed h c'.

(** ** Further loops and observations *)

(** The update queue has no bound, as the interfaces create it. *)
Definition unbounded_updates (c : controller) : Prop :=
  exists q, update_queue c = Some q /\ maxsize q <= 0.

(** The values that [json.loads] returned for a sequence of messages. *)
Definition decoded_records (msgs : list (bool * result pyval)) : list pyval :=
  omap (fun m => match snd m with Ok v => Some v | Raise _ => None end) msgs.

(** The loop of [_handle_stream_request] that serves client [i], for the
    iterations that [writes] describes. The boolean tells whether the
    loop has ended. *)
Fixpoint client_loop (i : nat) (writes : list (result unit)) (c : controller)
  : controller * bool :=
  match writes with
  | [] => (c, false)
  | w :: writes' =>
      if app_running c then
        match client_iteration i w c with
        | (c', Continue) => client_loop i writes' c'
        | (c', Break) => (c', true)
        end
      else (c, true)
  end.

(** The chunks among the items of a client queue. *)
Definition chunks_of (l : list (option (list byte))) : list (list byte) :=
  omap (fun x => x) l.

(** ** [khz_to_mhz_str] *)

(** [a / b] for an [int] [a] and a positive [int] [b]: the binary64
    number nearest to the quotient, ties to even; [OverflowError] when the
    quotient is too large for a float. *)
Definition int_true_divide (a : Z) (b : positive) : result spec_float :=
  let divide (neg : bool) (p : positive) :=
    match SFdiv PyFloat.prec PyFloat.emax (S754_finite neg p 0) (S754_finite false b 0) with
    | S754_infinity _ => Raise (OverflowError "integer division result too large for a float")
    | x => Ok x
    end in
  match a with
  | Z0 => Ok (S754_zero false)
  | Zpos p => divide false p
  | Zneg p => divide true p
  end.

(** The integer nearest to [n / d], ties to even, for [d > 0]. *)
Definition round_half_even_div (n d : Z) : Z :=
  let q := n / d in
  let r := n mod d in
  if 2 * r <? d then q
  else if d <? 2 * r then q + 1
  else if Z.even q then q else q + 1.

(** Three decimal digits, with leading zeros. *)
Definition pad3 (r : Z) : string :=
  if r <? 10 then "00" ++ str_of_Z r
  else if r <? 100 then "0" ++ str_of_Z r
  else str_of_Z r.

(** [format(x, ".3f")]: the decimal with three digits after the point
    that is nearest to the exact value of [x], ties to even. *)
Definition format_3f (x : spec_float) : string :=
  match x with
  | S754_nan => "nan"
  | S754_infinity s => if s then "-inf" else "inf"
  | S754_zero s => (if s then "-" else EmptyString) ++ "0.000"
  | S754_finite s m e =>
      let n := if 0 <=? e then Zpos m * 2 ^ e * 1000
               else round_half_even_div (Zpos m * 1000) (2 ^ (- e)) in
      (if s then "-" else EmptyString) ++ str_of_Z (n / 1000) ++ "." ++ pad3 (n mod 1000)
  end.

(** [khz_to_mhz_str]: a [bool] is an [int] too. *)
Definition khz_to_mhz_str (khz_int : pyval) : result string :=
  let format (k : Z) :=
    if k <=? 0 then Ok "N/A"
    else match int_true_divide k 1000 with
         | Ok x => Ok (format_3f x)
         | Raise e => Raise e
         end in
  match khz_int with
  | PInt k => format k
  | PBool b => format (if b then 1 else 0)
  | _ => Ok "N/A"
  end.

(** The decimal writing of [k] thousandths, for [k >= 0]. *)
Definition thousandths (k : Z) : string :=
  str_of_Z (k / 1000) ++ "." ++ pad3 (k mod 1000).

(** ** The tuning controls of the interface (class [RadioApp])

    The attributes that the tuning methods read and write;
    [asyncio_controller] tells whether the attribute refers to a
    controller, which is then the [controller] that the methods receive.
    The command queue of the interface is the one of the controller. *)
Record radio_app := {
  connection_state : string;
  current_freq_khz : Z;
  status_var : string;
  manual_freq_mhz_var : string;
  asyncio_controller : bool
}.

(** [set_status]: the message is cut to 150 characters. *)
Definition set_status (message : string) (g : radio_app) : radio_app :=
  {| connection_state := connection_state g;
     current_freq_khz := current_freq_khz g;
     status_var := "Status: " ++ substring 0 150 message;
     manual_freq_mhz_var := manual_freq_mhz_var g;
     asyncio_controller := asyncio_controller g |}.

Definition set_manual_freq_mhz_var (v : string) (g : radio_app) : radio_app :=
  {| connection_state := connection_state g;
     current_freq_khz := current_freq_khz g;
     status_var := status_var g;
     manual_freq_mhz_var := v;
     asyncio_controller := asyncio_controller g |}.

(** [AsyncioController.is_running] *)
Definition controller_is_running (c : controller) : bool :=
  app_running c && thread c && thread_alive c.

(** [send_command] *)
Definition send_command (command : string) (g : radio_app) (c : controller)
  : radio_app * controller :=
  if String.eqb (connection_state g) "connected" && asyncio_controller g
     && controller_is_running c
  then (g, enqueue_command (PStr command) c)
  else if negb (String.eqb (connection_state g) "connected")
  then (set_status "Cannot send command: Not connected." g, c)
  else (g, c).

(** [tune_up]: one step up, not beyond [int(MAX_FREQ_MHZ * 1000)]. *)
Definition tune_up (g : radio_app) (c : controller) : result (radio_app * controller) :=
  if negb (String.eqb (connection_state g) "connected") || (current_freq_khz g <=? 0)
  then Ok (g, c)
  else
    match PyFloat.to_int (PyFloat.mul MAX_FREQ_MHZ (PyFloat.of_int 1000)) with
    | Raise e => Raise e
    | Ok max_khz =>
        let target_khz := Z.min (current_freq_khz g + FREQ_STEP_KHZ) max_khz in
        if negb (target_khz =? current_freq_khz g) then
          match khz_to_mhz_str (PInt target_khz) with
          | Raise e => Raise e
          | Ok freq_display_str =>
              Ok (send_command ("T" ++ str_of_Z target_khz)
                    (set_status ("Tuning up to " ++ freq_display_str ++ " MHz...") g) c)
          end
        else Ok (g, c)
    end.

(** [tune_down]: one step down, not below [int(MIN_FREQ_MHZ * 1000)]. *)
Definition tune_down (g : radio_app) (c : controller) : result (radio_app * controller) :=
  if negb (String.eqb (connection_state g) "connected") || (current_freq_khz g <=? 0)
  then Ok (g, c)
  else
    match PyFloat.to_int (PyFloat.mul MIN_FREQ_MHZ (PyFloat.of_int 1000)) with
    | Raise e => Raise e
    | Ok min_khz =>
        let target_khz := Z.max (current_freq_khz g - FREQ_STEP_KHZ) min_khz in
        if negb (target_khz =? current_freq_khz g) then
          match khz_to_mhz_str (PInt target_khz) with
          | Raise e => Raise e
          | Ok freq_display_str =>
              Ok (send_command ("T" ++ str_of_Z target_khz)
                    (set_status ("Tuning down to " ++ freq_display_str ++ " MHz...") g) c)
          end
        else Ok (g, c)
    end.

(** [str.isspace] for one character of 0..255. *)
Definition Py_UNICODE_ISSPACE (c : ascii) : bool :=
  PyFloat.Py_ISSPACE c
  || ((28 <=? PyFloat.code c) && (PyFloat.code c <=? 31))%N
  || PyFloat.Py_UNICODE_ISSPACE_high c.

Fixpoint lstrip_spaces (l : list ascii) : list ascii :=
  match l with
  | c :: t => if Py_UNICODE_ISSPACE c then lstrip_spaces t else l
  | [] => []
  end.

(** [s.strip()] *)
Definition py_strip (s : string) : string :=
  string_of_list_ascii
    (rev (lstrip_spaces (rev (lstrip_spaces (list_ascii_of_string s))))).

(** [manual_tune]: the entry is parsed by [mhz_to_khz]. The text of the
    band in the error message is [MIN_FREQ_MHZ] and [MAX_FREQ_MHZ] as
    [str] writes them. *)
Definition manual_tune (g : radio_app) (c : controller) : result (radio_app * controller) :=
  if negb (String.eqb (connection_state g) "connected")
  then Ok (set_status "Cannot tune: Not connected." g, c)
  else
    let freq_mhz_str := py_strip (manual_freq_mhz_var g) in
    match freq_mhz_str with
    | EmptyString => Ok (set_status "Manual Tune Error: Frequency cannot be empty." g, c)
    | _ =>
        match mhz_to_khz (PStr freq_mhz_str) with
        | Raise e => Raise e
        | Ok None =>
            Ok (set_status ("Manual Tune Error: Invalid frequency '" ++ freq_mhz_str
                            ++ "'. Use 87.5-108.0 MHz.") g, c)
        | Ok (Some target_khz) =>
            match khz_to_mhz_str (PInt target_khz) with
            | Raise e => Raise e
            | Ok freq_display_str =>
                if negb (target_khz =? current_freq_khz g) then
                  let '(g1, c1) :=
                    send_command ("T" ++ str_of_Z target_khz)
                      (set_status ("Tuning manually to " ++ freq_display_str ++ " MHz...") g)
                      c in
                  Ok (set_manual_freq_mhz_var EmptyString g1, c1)
                else
                  Ok (set_manual_freq_mhz_var EmptyString
                        (set_status ("Already tuned to " ++ freq_display_str ++ " MHz.") g), c)
            end
        end
    end.

(** What the interface has put on the command queue since [c]. *)
Definition new_commands (c c' : controller) : list pyval :=
  match command_queue c, command_queue c' with
  | Some q, Some q' => drop (length (items q)) (items q')
  | _, _ => []
  end.

(** * Properties *)

(** ** Binary64 rounding: size of the mantissa, range of the exponent *)

Module PyFloatFacts.
Import PyFloat.

Lemma digits2_pos_size (p : positive) : digits2_pos p = Pos.size p.
Proof. induction p; simpl; congruence. Qed.

Lemma Zdigits2_log2 (m : Z) : 0 < m -> Zdigits2 m = Z.log2 m + 1.
Proof.
  destruct m as [|p|p]; try lia. intros _. simpl.
  rewrite digits2_pos_size. destruct p; simpl; lia.
Qed.

Lemma Zdigits2_nonneg (m : Z) : 0 <= Zdigits2 m.
Proof. destruct m; simpl; lia. Qed.

Lemma Zdigits2_mono (a b : Z) : 0 <= a <= b -> Zdigits2 a <= Zdigits2 b.
Proof.
  intros [Ha Hab]. destruct (Z.eq_dec a 0) as [->|Hne].
  - apply Zdigits2_nonneg.
  - rewrite !Zdigits2_log2 by lia.
    pose proof (Z.log2_le_mono a b Hab). lia.
Qed.

Lemma Zdigits2_succ (a : Z) : 0 <= a -> Zdigits2 (a + 1) <= Zdigits2 a + 1.
Proof.
  intros Ha. destruct (Z.eq_dec a 0) as [->|Hne]; [simpl; lia|].
  rewrite !Zdigits2_log2 by lia.
  assert (Z.log2 (a + 1) <= Z.log2 (2 * a)) by (apply Z.log2_le_mono; lia).
  rewrite Z.log2_double in H by lia. lia.
Qed.

Lemma Zdigits2_mul (a b : Z) :
  0 < a -> 0 < b -> Zdigits2 (a * b) <= Zdigits2 a + Zdigits2 b.
Proof.
  intros Ha Hb. rewrite !Zdigits2_log2 by nia.
  pose proof (Z.log2_mul_above a b ltac:(lia) ltac:(lia)). lia.
Qed.

(** [shr_1] halves a mantissa that is not negative. *)
Lemma shr_1_m (r : shr_record) : 0 <= shr_m r -> shr_m (shr_1 r) = shr_m r / 2.
Proof.
  destruct r as [m r s]. simpl. intros Hm.
  destruct m as [|p|p]; try lia; [reflexivity|].
  destruct p as [p|p|]; simpl shr_m.
  - rewrite Pos2Z.inj_xI. apply Z.div_unique with 1; lia.
  - rewrite Pos2Z.inj_xO. apply Z.div_unique with 0; lia.
  - reflexivity.
Qed.

Lemma iter_shr_1_m (p : positive) (r : shr_record) :
  0 <= shr_m r -> shr_m (SpecFloat.iter_pos shr_1 p r) = shr_m r / 2 ^ Zpos p.
Proof.
  revert r. induction p as [p IH|p IH|]; intros r Hr.
  - change (SpecFloat.iter_pos shr_1 p~1 r)
      with (SpecFloat.iter_pos shr_1 p (SpecFloat.iter_pos shr_1 p (shr_1 r))).
    assert (H1 : 0 <= shr_m (shr_1 r)) by (rewrite shr_1_m by lia; apply Z.div_pos; lia).
    assert (H2 : 0 <= shr_m (SpecFloat.iter_pos shr_1 p (shr_1 r)))
      by (rewrite IH by lia; apply Z.div_pos; lia).
    rewrite (IH _ H2), (IH _ H1), shr_1_m by lia.
    rewrite !Z.div_div by lia. f_equal.
    replace (Zpos p~1) with (1 + Zpos p + Zpos p) by lia.
    rewrite !Z.pow_add_r by lia. lia.
  - change (SpecFloat.iter_pos shr_1 p~0 r)
      with (SpecFloat.iter_pos shr_1 p (SpecFloat.iter_pos shr_1 p r)).
    assert (H2 : 0 <= shr_m (SpecFloat.iter_pos shr_1 p r))
      by (rewrite IH by lia; apply Z.div_pos; lia).
    rewrite (IH _ H2), (IH _ Hr). rewrite Z.div_div by lia. f_equal.
    replace (Zpos p~0) with (Zpos p + Zpos p) by lia.
    rewrite Z.pow_add_r by lia. reflexivity.
  - change (SpecFloat.iter_pos shr_1 1 r) with (shr_1 r).
    rewrite shr_1_m by lia. reflexivity.
Qed.

(** [shr]: the mantissa is divided by [2^n], the exponent grows by [n]. *)
Lemma shr_spec (r : shr_record) (e n : Z) :
  0 <= shr_m r ->
  shr_m (fst (shr r e n)) = shr_m r / 2 ^ Z.max 0 n /\
  snd (shr r e n) = e + Z.max 0 n.
Proof.
  intros Hr. destruct n as [|p|p]; simpl.
  - rewrite Z.div_1_r. lia.
  - rewrite iter_shr_1_m by lia. rewrite Z.max_r by lia. lia.
  - rewrite Z.div_1_r. lia.
Qed.

Lemma shr_m_of_loc (m : Z) (l : location) : shr_m (shr_record_of_loc m l) = m.
Proof. destruct l as [|[]]; reflexivity. Qed.

Lemma shr_fexp_spec (m e : Z) (l : location) :
  0 <= m ->
  let n := Z.max 0 (fexp prec emax (Zdigits2 m + e) - e) in
  shr_m (fst (shr_fexp prec emax m e l)) = m / 2 ^ n /\
  snd (shr_fexp prec emax m e l) = e + n.
Proof.
  intros Hm n. unfold shr_fexp.
  pose proof (shr_spec (shr_record_of_loc m l) e (fexp prec emax (Zdigits2 m + e) - e)) as H.
  rewrite shr_m_of_loc in H. apply H. exact Hm.
Qed.

Lemma round_nearest_even_bounds (m : Z) (l : location) :
  m <= round_nearest_even m l <= m + 1.
Proof. destruct l as [|[]]; simpl; try lia. destruct (Z.even m); lia. Qed.

Lemma Zdigits2_div_pow2 (m n : Z) :
  0 <= n -> 0 < m / 2 ^ n -> Zdigits2 (m / 2 ^ n) = Zdigits2 m - n.
Proof.
  intros Hn Hq.
  assert (Hm : 0 < m).
  { destruct (Z_lt_le_dec 0 m) as [|Hle]; [assumption|].
    assert (m / 2 ^ n <= 0) by (apply Z.div_le_upper_bound; [lia|nia]). lia. }
  rewrite !Zdigits2_log2 by lia.
  rewrite <- Z.shiftr_div_pow2 in * by lia.
  rewrite Z.log2_shiftr by lia.
  assert (n <= Z.log2 m).
  { destruct (Z_lt_le_dec (Z.log2 m) n) as [Hlt|]; [|lia].
    rewrite Z.shiftr_eq_0 in Hq by lia. lia. }
  lia.
Qed.

Lemma fexp_eq (k : Z) : fexp prec emax k = Z.max (k - 53) (-1074).
Proof. reflexivity. Qed.

Lemma binary_round_aux_ok (s : bool) (mx ex : Z) (lx : location) :
  0 <= mx ->
  rounded_ok (Z.max (Z.max ex (Zdigits2 mx + ex - 52)) (-1074))
             (binary_round_aux prec emax s mx ex lx).
Proof.
  intros Hmx. unfold binary_round_aux.
  pose proof (shr_fexp_spec mx ex lx Hmx) as H1. cbv zeta in H1.
  destruct (shr_fexp prec emax mx ex lx) as [mrs' e'] eqn:E1.
  simpl fst in H1. simpl snd in H1. destruct H1 as [Hm' He'].
  set (m1 := round_nearest_even (shr_m mrs') (loc_of_shr_record mrs')).
  assert (Hm'0 : 0 <= shr_m mrs') by (rewrite Hm'; apply Z.div_pos; lia).
  pose proof (round_nearest_even_bounds (shr_m mrs') (loc_of_shr_record mrs')) as Hr.
  fold m1 in Hr.
  assert (Hm1 : 0 <= m1) by lia.
  pose proof (shr_fexp_spec m1 e' loc_Exact Hm1) as H2. cbv zeta in H2.
  destruct (shr_fexp prec emax m1 e' loc_Exact) as [mrs'' e''] eqn:E2.
  simpl fst in H2. simpl snd in H2. destruct H2 as [Hm'' He''].
  rewrite fexp_eq in Hm', He', Hm'', He''.
  pose proof (Zdigits2_nonneg mx) as Hdx.
  (* digits of the first quotient *)
  assert (Hd' : Zdigits2 (shr_m mrs') + e' <= Z.max (Zdigits2 mx + ex) e').
  { rewrite Hm'. destruct (Z_lt_le_dec 0 (mx / 2 ^ Z.max 0 (Z.max (Zdigits2 mx + ex - 53) (-1074) - ex))) as [Hpos|Hz].
    - rewrite Zdigits2_div_pow2 by lia. lia.
    - assert (Hq : mx / 2 ^ Z.max 0 (Z.max (Zdigits2 mx + ex - 53) (-1074) - ex) = 0).
      { pose proof (Z.div_pos mx (2 ^ Z.max 0 (Z.max (Zdigits2 mx + ex - 53) (-1074) - ex))). lia. }
      rewrite Hq. simpl. lia. }
  assert (Hd1 : Zdigits2 m1 <= Zdigits2 (shr_m mrs') + 1).
  { etransitivity; [apply Zdigits2_mono with (b := shr_m mrs' + 1); lia|].
    apply Zdigits2_succ. lia. }
  assert (He''b : e'' <= Z.max (Z.max ex (Zdigits2 mx + ex - 52)) (-1074)) by lia.
  destruct (shr_m mrs'') as [|m|m] eqn:Em.
  - exact I.
  - destruct (Z.leb_spec e'' (emax - prec)) as [Hle|Hgt].
    + split; [|exact He''b].
      change (Zpos (digits2_pos m)) with (Zdigits2 (Zpos m)). rewrite Hm''.
      rewrite Zdigits2_div_pow2 by lia. unfold prec. lia.
    + unfold rounded_ok. lia.
  - pose proof (Z.div_pos m1 (2 ^ Z.max 0 (Z.max (Zdigits2 m1 + e' - 53) (-1074) - e'))). lia.
Qed.

End PyFloatFacts.

(** ** The frequency parser *)

Module FreqFacts.
Import PyFloat PyFloatFacts.

Lemma rounded_mantissa_ok (b : Z) (x : spec_float) : rounded_ok b x -> mantissa_ok x.
Proof. destruct x; simpl; tauto. Qed.

Lemma binary_round_mantissa_ok (s : bool) (m : positive) (e : Z) :
  mantissa_ok (binary_round prec emax s m e).
Proof.
  unfold binary_round.
  destruct (shl_align m e (fexp prec emax (Zpos (digits2_pos m) + e))) as [mz ez].
  eapply rounded_mantissa_ok. apply binary_round_aux_ok. lia.
Qed.

Lemma of_decimal_mantissa_ok (neg : bool) (m e : Z) : mantissa_ok (of_decimal neg m e).
Proof.
  unfold of_decimal. destruct m as [|p|p]; try exact I.
  destruct (Z.leb_spec 0 e).
  - apply binary_round_mantissa_ok.
  - unfold SFdiv_core_binary.
    set (e' := Z.min _ _). set (m' := match 0 - 0 - e' with 0 => _ | Zpos _ => _ | Zneg _ => _ end).
    assert (Hm' : 0 <= m').
    { unfold m'. destruct (0 - 0 - e'); try lia. apply Z.shiftl_nonneg. lia. }
    assert (Hd : 0 < 10 ^ (- e)) by (apply Z.pow_pos_nonneg; lia).
    pose proof (Z.div_pos m' (10 ^ (- e)) Hm' Hd) as Hq.
    unfold Z.div in Hq. destruct (Z.div_eucl m' (10 ^ (- e))) as [q r]. simpl in Hq.
    eapply rounded_mantissa_ok. apply binary_round_aux_ok. exact Hq.
Qed.

Lemma dg_strtod_mantissa_ok (l r : list ascii) (x : spec_float) :
  dg_strtod l = Some (x, r) -> mantissa_ok x.
Proof.
  unfold dg_strtod. destruct (parse_sign l) as [neg l1].
  destruct (take_digits l1 0 0) as [[ip ni] l2].
  destruct (match l2 with
            | [] => (ip, 0, l2)
            | c :: t => if Ascii.eqb c "." then take_digits t ip 0 else (ip, 0, l2)
            end) as [[fp nf] l3].
  destruct (ni + nf =? 0); [discriminate|].
  destruct (parse_exponent l3) as [ex l4].
  intros [= <- _]. apply of_decimal_mantissa_ok.
Qed.

Lemma parse_inf_or_nan_value (l r : list ascii) (x : spec_float) :
  parse_inf_or_nan l = Some (x, r) -> x = S754_nan \/ exists s, x = S754_infinity s.
Proof.
  unfold parse_inf_or_nan. destruct (parse_sign l) as [neg s].
  destruct (case_insensitive_match s _) as [r1|].
  - destruct (case_insensitive_match r1 _); intros [= <- _]; eauto.
  - destruct (case_insensitive_match s _); [|discriminate]. intros [= <- _]; eauto.
Qed.

Lemma ascii_strtod_mantissa_ok (l r : list ascii) (x : spec_float) :
  ascii_strtod l = Some (x, r) -> mantissa_ok x.
Proof.
  unfold ascii_strtod. destruct (dg_strtod l) as [[y r']|] eqn:E.
  - intros [= <- _]. eapply dg_strtod_mantissa_ok; eassumption.
  - intros H. destruct (parse_inf_or_nan_value _ _ _ H) as [->|[s ->]]; exact I.
Qed.

Lemma inner_mantissa_ok (l : list ascii) (x : spec_float) :
  float_from_string_inner l = Ok x -> mantissa_ok x.
Proof.
  unfold float_from_string_inner. destruct (lstrip l) as [|c t]; [discriminate|].
  destruct (ascii_strtod (rstrip (c :: t))) as [[y [|? ?]]|] eqn:E; try discriminate.
  intros [= <-]. eapply ascii_strtod_mantissa_ok; eassumption.
Qed.

Lemma float_of_str_mantissa_ok (s : string) (x : spec_float) :
  float_of_str s = Ok x -> mantissa_ok x.
Proof.
  unfold float_of_str.
  destruct (has_nul _); [discriminate|].
  destruct (has_underscore _).
  - destruct (strip_underscores _ _); [|discriminate]. apply inner_mantissa_ok.
  - apply inner_mantissa_ok.
Qed.

(** [float(s)] raises nothing but [ValueError]. *)
Lemma inner_raises (l : list ascii) (e : exn) :
  float_from_string_inner l = Raise e -> e = could_not_convert.
Proof.
  unfold float_from_string_inner. destruct (lstrip l) as [|c t]; [congruence|].
  destruct (ascii_strtod _) as [[y [|? ?]]|]; congruence.
Qed.

Lemma float_of_str_raises (s : string) (e : exn) :
  float_of_str s = Raise e -> e = could_not_convert.
Proof.
  unfold float_of_str.
  destruct (has_nul _); [congruence|].
  destruct (has_underscore _).
  - destruct (strip_underscores _ _); [apply inner_raises|congruence].
  - apply inner_raises.
Qed.

(** The band: both bounds are binary64 numbers. *)
Lemma MIN_FREQ_MHZ_value : MIN_FREQ_MHZ = S754_finite false 6157265115545600 (-46).
Proof. vm_compute. reflexivity. Qed.

Lemma MAX_FREQ_MHZ_value : MAX_FREQ_MHZ = S754_finite false 7599824371187712 (-46).
Proof. vm_compute. reflexivity. Qed.

Lemma of_int_1000 : of_int 1000 = S754_finite false 8796093022208000 (-43).
Proof. vm_compute. reflexivity. Qed.

Lemma in_band_shape (x : spec_float) :
  in_band x = true -> exists m e, x = S754_finite false m e /\ e <= -46.
Proof.
  unfold in_band. rewrite MIN_FREQ_MHZ_value, MAX_FREQ_MHZ_value.
  destruct x as [s|s| |s m e]; try destruct s; try discriminate.
  unfold leb, SFleb, SFcompare. intros H. apply andb_prop in H as [_ H].
  exists m, e. split; [reflexivity|].
  destruct (Z.compare_spec e (-46)); try lia; discriminate.
Qed.

(** In the band the product with 1000 is finite: [int()] returns. *)
Lemma mul_1000_to_int (m : positive) (e : Z) :
  Zpos (digits2_pos m) <= 53 -> e <= -46 ->
  exists k, to_int (mul (S754_finite false m e) (of_int 1000)) = Ok k.
Proof.
  intros Hm He. rewrite of_int_1000. unfold mul, SFmul.
  pose proof (binary_round_aux_ok (xorb false false) (Zpos (m * 8796093022208000))
                (e + -43) loc_Exact ltac:(lia)) as H.
  assert (Hd : Zdigits2 (Zpos (m * 8796093022208000)) <= 53 + 53).
  { rewrite Pos2Z.inj_mul.
    etransitivity; [apply Zdigits2_mul; lia|].
    change (Zdigits2 (Zpos m)) with (Zpos (digits2_pos m)).
    change (Zdigits2 8796093022208000) with 53. lia. }
  destruct (binary_round_aux prec emax (xorb false false) _ _ loc_Exact) as [s|s| |s m' e'];
    unfold rounded_ok in H; unfold to_int; eauto.
  - unfold emax, prec in H. lia.
  - contradiction.
Qed.

Lemma mhz_to_khz_try_raises (s : string) (e : exn) :
  mhz_to_khz_try s = Raise e -> e = could_not_convert.
Proof.
  unfold mhz_to_khz_try.
  destruct (float_of_str (replace_comma s)) as [x|e'] eqn:E.
  - fold (in_band x). destruct (in_band x) eqn:B; [|discriminate].
    destruct (in_band_shape x B) as (m & ex & -> & Hex).
    pose proof (float_of_str_mantissa_ok _ _ E) as Hm. simpl in Hm.
    destruct (mul_1000_to_int m ex Hm Hex) as [k ->]. discriminate.
  - intros [= <-]. eapply float_of_str_raises; eassumption.
Qed.

(** [mhz_to_khz] returns on every argument. *)
Lemma mhz_to_khz_total (v : pyval) : exists r, mhz_to_khz v = Ok r.
Proof.
  destruct v; simpl; eauto.
  destruct (mhz_to_khz_try s) as [r|e] eqn:E; eauto.
  rewrite (mhz_to_khz_try_raises _ _ E). simpl. eauto.
Qed.

(** A string that [float()] refuses is mapped to [None]. *)
Lemma mhz_to_khz_refused (s : string) (e : exn) :
  float_of_str (replace_comma s) = Raise e -> mhz_to_khz (PStr s) = Ok None.
Proof.
  intros H. simpl. unfold mhz_to_khz_try. rewrite H.
  rewrite (float_of_str_raises _ _ H). reflexivity.
Qed.

(** *** Strings without a digit *)

Lemma replace_comma_no_digit (s : string) : no_digit s -> no_digit (replace_comma s).
Proof.
  unfold no_digit. induction s as [|c s IH]; simpl; [auto|].
  intros H. inversion H; subst. constructor; [|auto].
  destruct (Ascii.eqb c ","); [reflexivity|assumption].
Qed.

Lemma transform_chars_no_digit (l : list ascii) :
  Forall not_digit l -> Forall not_digit (transform_chars l).
Proof.
  induction 1 as [|c l Hc Hl IH]; simpl; [constructor|].
  destruct (code c <? 127)%N; [constructor; assumption|].
  destruct (Py_UNICODE_ISSPACE_high c); repeat constructor. assumption.
Qed.

Lemma Transform_no_digit (l : list ascii) :
  Forall not_digit l -> Forall not_digit (TransformDecimalAndSpaceToASCII l).
Proof.
  intros H. unfold TransformDecimalAndSpaceToASCII.
  destruct (forallb _ l); [assumption|apply transform_chars_no_digit; assumption].
Qed.

Lemma strip_underscores_no_digit (l l' : list ascii) (prev : ascii) :
  strip_underscores prev l = Some l' -> Forall not_digit l -> Forall not_digit l'.
Proof.
  revert prev l'. induction l as [|c l IH]; intros prev l'; simpl.
  - destruct (Ascii.eqb prev "_"); intros [= <-] _; constructor.
  - intros H Hf. inversion Hf; subst.
    destruct (Ascii.eqb c "_").
    + destruct (is_digit prev); [eauto|discriminate].
    + destruct (Ascii.eqb prev "_" && negb (is_digit c)); [discriminate|].
      destruct (strip_underscores c l) as [t|] eqn:E; [|discriminate].
      injection H as <-. constructor; eauto.
Qed.

Lemma lstrip_no_digit (l : list ascii) : Forall not_digit l -> Forall not_digit (lstrip l).
Proof.
  induction 1 as [|c l Hc Hl IH]; simpl; [constructor|].
  destruct (Py_ISSPACE c); [assumption|constructor; assumption].
Qed.

Lemma rstrip_no_digit (l : list ascii) : Forall not_digit l -> Forall not_digit (rstrip l).
Proof.
  induction 1 as [|c l Hc Hl IH]; simpl; [constructor|].
  destruct (rstrip l); [destruct (Py_ISSPACE c); repeat constructor; assumption|].
  constructor; assumption.
Qed.

Lemma take_digits_no_digit (l : list ascii) (acc n : Z) :
  Forall not_digit l -> take_digits l acc n = (acc, n, l).
Proof. destruct 1 as [|c l Hc Hl]; simpl; [reflexivity|]. rewrite Hc. reflexivity. Qed.

Lemma parse_sign_no_digit (l : list ascii) :
  Forall not_digit l -> Forall not_digit (snd (parse_sign l)).
Proof.
  destruct 1 as [|c l Hc Hl]; simpl; [constructor|].
  destruct (Ascii.eqb c "-"); [assumption|].
  destruct (Ascii.eqb c "+"); [assumption|constructor; assumption].
Qed.

(** Without a digit [_Py_dg_strtod] converts nothing. *)
Lemma dg_strtod_no_digit (l : list ascii) : Forall not_digit l -> dg_strtod l = None.
Proof.
  intros H. unfold dg_strtod.
  pose proof (parse_sign_no_digit l H) as H1.
  destruct (parse_sign l) as [neg l1]. simpl in H1.
  rewrite (take_digits_no_digit l1 0 0 H1).
  destruct H1 as [|c t Hc Ht]; [reflexivity|].
  destruct (Ascii.eqb c ".").
  - rewrite (take_digits_no_digit t 0 0 Ht). reflexivity.
  - reflexivity.
Qed.

Lemma inner_no_digit (l : list ascii) (x : spec_float) :
  Forall not_digit l -> float_from_string_inner l = Ok x ->
  x = S754_nan \/ exists s, x = S754_infinity s.
Proof.
  intros H. unfold float_from_string_inner.
  pose proof (lstrip_no_digit l H) as H1.
  destruct (lstrip l) as [|c t]; [discriminate|].
  pose proof (rstrip_no_digit _ H1) as H2.
  unfold ascii_strtod. rewrite (dg_strtod_no_digit _ H2).
  destruct (parse_inf_or_nan _) as [[y [|? ?]]|] eqn:E; try discriminate.
  intros [= <-]. eapply parse_inf_or_nan_value; eassumption.
Qed.

Lemma float_of_str_no_digit (s : string) (x : spec_float) :
  no_digit s -> float_of_str s = Ok x -> x = S754_nan \/ exists b, x = S754_infinity b.
Proof.
  unfold no_digit, float_of_str. intros H.
  pose proof (Transform_no_digit _ H) as H1.
  destruct (has_nul _); [discriminate|].
  destruct (has_underscore _).
  - destruct (strip_underscores _ _) as [l'|] eqn:E; [|discriminate].
    apply inner_no_digit. eapply strip_underscores_no_digit; eassumption.
  - apply inner_no_digit; assumption.
Qed.

Lemma mhz_to_khz_no_digit (s : string) : no_digit s -> mhz_to_khz (PStr s) = Ok None.
Proof.
  intros H. simpl. unfold mhz_to_khz_try.
  destruct (float_of_str (replace_comma s)) as [x|e] eqn:E.
  - destruct (float_of_str_no_digit _ _ (replace_comma_no_digit _ H) E) as [->|[b ->]].
    + reflexivity.
    + destruct b; reflexivity.
  - rewrite (float_of_str_raises _ _ E). reflexivity.
Qed.

End FreqFacts.

(** ** Frequency parsing (C2) *)

Import FreqFacts.

(** C2. The frequency parser maps "97.3" and "97,3" to 97300 kHz,
    returns [None] for "86.9" and "108.1", which lie outside the band,
    and returns [None] for every string that is not a number: every
    string that [float()] refuses after the comma was replaced, and every
    string without a digit (the spellings of infinity and NaN, which
    [float()] accepts, are outside the band). *)
Theorem mhz_to_khz_examples_and_rejection :
  mhz_to_khz (PStr "97.3") = Ok (Some 97300) /\
  mhz_to_khz (PStr "97,3") = Ok (Some 97300) /\
  mhz_to_khz (PStr "86.9") = Ok None /\
  mhz_to_khz (PStr "108.1") = Ok None /\
  (forall s e, PyFloat.float_of_str (replace_comma s) = Raise e ->
               mhz_to_khz (PStr s) = Ok None) /\
  (forall s, no_digit s -> mhz_to_khz (PStr s) = Ok None).
Proof.
  split; [vm_compute; reflexivity|].
  split; [vm_compute; reflexivity|].
  split; [vm_compute; reflexivity|].
  split; [vm_compute; reflexivity|].
  split.
  - exact mhz_to_khz_refused.
  - exact mhz_to_khz_no_digit.
Qed.

Lemma mhz_to_khz_rejects_words :
  mhz_to_khz (PStr "ninety-seven") = Ok None /\ mhz_to_khz (PStr "97.3 MHz") = Ok None.
Proof.
  destruct mhz_to_khz_examples_and_rejection as (_ & _ & _ & _ & Href & Hnd).
  split.
  - apply Hnd. unfold no_digit. repeat constructor.
  - apply (Href "97.3 MHz" PyFloat.could_not_convert). vm_compute. reflexivity.
Defined.

(** ** Inputs that are no strings (C10) *)

(** C10. The frequency parser returns on every argument, it never
    raises; on an argument that is not a string ([None] of a missing
    "freq" key, a JSON number) it returns [None]; so a decoded record
    whose "freq" is missing or is no string produces the "data" update
    and nothing else: no "current_freq" update. *)
Theorem mhz_to_khz_total_and_non_string :
  (forall v, exists r, mhz_to_khz v = Ok r) /\
  (forall v, (forall s, v <> PStr s) -> mhz_to_khz v = Ok None) /\
  (forall d c, (forall s, dict_get d "freq" <> PStr s) ->
     process_text_message (Ok (PDict d)) c = put_update "data" (PDict d) c).
Proof.
  split; [exact mhz_to_khz_total|]. split.
  - intros v Hv. destruct v; try reflexivity. exfalso. eapply Hv. reflexivity.
  - intros d c Hd. unfold process_text_message. simpl py_get. cbv iota.
    destruct (dict_get d "freq") eqn:E; try reflexivity.
    exfalso. eapply Hd. reflexivity.
Qed.

Lemma record_without_frequency :
  let c := init_controller true "ws://h:80/audio" "ws://h:80/text"
             (Some (new_queue 0)) (Some (new_queue 0)) false false 8080 in
  updates (process_text_message (Ok (PDict [("ps", PStr "RADIO1")])) c)
    = [("data", PDict [("ps", PStr "RADIO1")])] /\
  updates (process_text_message (Ok (PDict [("freq", PInt 97300)])) c)
    = [("data", PDict [("freq", PInt 97300)])].
Proof.
  destruct mhz_to_khz_total_and_non_string as (_ & _ & H).
  split.
  - rewrite H; [reflexivity|]. intros s. vm_compute. discriminate.
  - rewrite H; [reflexivity|]. intros s. vm_compute. discriminate.
Defined.

(** ** Forwarding of tune commands (C1) *)

(** Projections of a state built by setters, [put_update] and [log]. *)
Ltac proj_simpl :=
  cbn [text_uri audio_uri is_restream_only stream_port command_queue update_queue
       app_running stream_enabled text_ws_for_commands ffplay_proc ffmpeg_proc
       http_runner aac_clients loop thread thread_alive procs client_queues trace
       set_command_queue set_update_queue set_app_running set_stream_enabled
       set_text_ws_for_commands set_ffplay_proc set_ffmpeg_proc set_http_runner
       set_aac_clients set_loop set_thread set_thread_alive set_procs
       set_client_queues set_trace put_update log fst snd] in *.

Lemma updates_put_update_unbounded (ty : string) (d : pyval) (c : controller)
  (q : pyqueue (string * pyval)) :
  update_queue c = Some q -> maxsize q <= 0 ->
  updates (put_update ty d c) = updates c ++ [(ty, d)].
Proof.
  intros Hq Hm. unfold updates. proj_simpl. rewrite Hq.
  unfold enqueue_update, put_nowait_with, full.
  destruct (Z.ltb_spec 0 (maxsize q)); [lia|]. reflexivity.
Qed.

Lemma sent_frames_app (a b : list event) : sent_frames (a ++ b) = sent_frames a ++ sent_frames b.
Proof. apply omap_app. Qed.

Lemma int_of_str_raises (s : string) (e : exn) :
  PyInt.int_of_str s = Raise e -> e = PyInt.invalid_literal.
Proof.
  unfold PyInt.int_of_str.
  repeat match goal with
         | |- context [match ?x with _ => _ end] => destruct x
         end; congruence.
Qed.

(** C1. For a tune command taken from the command queue, [send] is
    called on the metadata connection if and only if the controller
    holds a connection whose close code is unset. The command leaves the
    queue and is not put back. Without such a connection the only effect
    is the status update "Text WS not connected, cannot tune."; when the
    send finds the connection closed, the status update is "Text WS
    closed, cannot send cmd." and the reference is dropped. [q] counts
    the command as unfinished, as [put] left it. *)
Theorem tune_command_forwarded_iff_open
  (c : controller) (q : pyqueue pyval) (s : string) (rest : list pyval)
  (send_outcome : result unit) :
  command_queue c = Some q ->
  items q = PStr s :: rest ->
  startswith s "T" = true ->
  0 < unfinished_tasks q ->
  let c' := fst (handle_gui_commands_iteration send_outcome c) in
  sent_frames (trace c') =
    sent_frames (trace c) ++
      match text_ws_for_commands c with
      | Some ws => if ws_is_open c then [(ws_id ws, s)] else []
      | None => []
      end /\
  option_map items (command_queue c') = Some rest /\
  (ws_is_open c = false ->
     update_queue c' =
       update_queue (put_update "status" (PStr "Text WS not connected, cannot tune.") c) /\
     trace c' = trace c /\
     text_ws_for_commands c' = text_ws_for_commands c) /\
  (ws_is_open c = true ->
     forall code reason, send_outcome = Raise (ConnectionClosed code reason) ->
       update_queue c' =
         update_queue (put_update "status" (PStr "Text WS closed, cannot send cmd.") c) /\
       text_ws_for_commands c' = None).
Proof.
  intros Hq Hitems HT Hunf. cbv zeta.
  unfold handle_gui_commands_iteration. rewrite Hq.
  unfold get_nowait_with. rewrite Hitems. cbv iota beta.
  unfold task_done. cbn [unfinished_tasks maxsize items].
  destruct (Z.leb_spec (unfinished_tasks q) 0) as [|_]; [lia|].
  unfold forward_command, ws_is_open. proj_simpl.
  destruct (text_ws_for_commands c) as [ws|] eqn:Ews.
  - destruct (close_code ws) as [cc|] eqn:Ecc.
    + (* the connection is closed *)
      cbn [py_startswith]. rewrite HT. proj_simpl. cbn [option_map items].
      rewrite app_nil_r, Ews. repeat split; discriminate.
    + (* the connection is open *)
      rewrite HT.
      destruct send_outcome as [[]|e].
      * destruct (PyInt.int_of_str (drop_first s)) as [k|e] eqn:Ek.
        -- proj_simpl. cbn [option_map items]. rewrite sent_frames_app.
           repeat split; discriminate.
        -- rewrite (int_of_str_raises _ _ Ek). unfold PyInt.invalid_literal.
           proj_simpl. cbn [option_map items]. rewrite sent_frames_app.
           repeat split; discriminate.
      * destruct e; unfold command_loop_handlers; proj_simpl; cbn [option_map items];
          rewrite ?sent_frames_app, ?Ews; proj_simpl;
          (split; [reflexivity|]); (split; [reflexivity|]);
          (split; [discriminate|]); intros _ code' reason' [=]; subst.
        split; reflexivity.
  - cbn [py_startswith]. rewrite HT. proj_simpl. cbn [option_map items].
    rewrite app_nil_r, Ews. repeat split; discriminate.
Qed.

Lemma tune_command_witness :
  let c := init_controller true "ws://h:80/audio" "ws://h:80/text"
             (Some {| maxsize := 0; items := [PStr "T97500"]; unfinished_tasks := 1 |})
             (Some (new_queue 0)) false false 8080 in
  let c' := fst (handle_gui_commands_iteration (Ok tt) c) in
  sent_frames (trace c') = [] /\
  updates c' = [("status", PStr "Text WS not connected, cannot tune.")].
Proof.
  cbv zeta.
  pose proof (tune_command_forwarded_iff_open
    (init_controller true "ws://h:80/audio" "ws://h:80/text"
       (Some {| maxsize := 0; items := [PStr "T97500"]; unfinished_tasks := 1 |})
       (Some (new_queue 0)) false false 8080)
    {| maxsize := 0; items := [PStr "T97500"]; unfinished_tasks := 1 |}
    "T97500" [] (Ok tt) eq_refl eq_refl eq_refl ltac:(simpl; lia)) as (H1 & _ & H3 & _).
  split.
  - exact H1.
  - unfold updates. destruct (H3 eq_refl) as (-> & _). reflexivity.
Defined.

(** ** The broadcast relay (C3) *)

Lemma lastn_short {A : Type} (n : nat) (l : list A) : (length l <= n)%nat -> lastn n l = l.
Proof. intros H. unfold lastn. replace (length l - n)%nat with 0%nat by lia. reflexivity. Qed.

Lemma lastn_app_lastn {A : Type} (n : nat) (a b : list A) :
  lastn n (lastn n a ++ b) = lastn n (a ++ b).
Proof.
  unfold lastn. destruct (le_lt_dec (length a) n) as [Hle|Hlt].
  - replace (length a - n)%nat with 0%nat by lia. reflexivity.
  - rewrite !length_app, length_drop.
    replace (length a - (length a - n) + length b - n)%nat with (length b) by lia.
    replace (length a + length b - n)%nat with ((length a - n) + length b)%nat by lia.
    rewrite <- drop_drop. rewrite (drop_app_le a b) by lia. reflexivity.
Qed.

(** A put into a client queue that respects its bound: the queue keeps
    its newest ten items. *)
Lemma relay_put_sink_ok (chunk : list byte) (q : client_queue) :
  sink_ok q ->
  sink_ok (relay_put chunk q) /\
  items (relay_put chunk q) = lastn 10 (items q ++ [Some chunk]) /\
  (full q = false -> items (relay_put chunk q) = items q ++ [Some chunk]) /\
  (full q = true -> items (relay_put chunk q) = tail (items q) ++ [Some chunk]).
Proof.
  intros (Hmax & Hsize & Hunf). unfold qsize in *.
  unfold relay_put, put_nowait_with, full, qsize. rewrite Hmax.
  change (0 <? 10) with true. cbn [andb].
  destruct (Z.leb_spec 10 (Z.of_nat (length (items q)))) as [Hfull|Hfree].
  - (* full: the oldest item leaves *)
    unfold get_nowait_with. destruct (items q) as [|x rest] eqn:Eit; [simpl in Hfull; lia|].
    cbn [length] in *. unfold task_done. cbn [unfinished_tasks items maxsize].
    destruct (Z.leb_spec (unfinished_tasks q) 0); [lia|].
    unfold full, qsize. cbn [unfinished_tasks items maxsize]. rewrite Hmax.
    change (0 <? 10) with true. cbn [andb].
    destruct (Z.leb_spec 10 (Z.of_nat (length rest))); [lia|].
    cbn [items maxsize unfinished_tasks].
    split; [|split; [|split]].
    + unfold sink_ok, qsize. cbn [items maxsize unfinished_tasks].
      rewrite length_app. simpl. lia.
    + unfold lastn. rewrite length_app. cbn [length app].
      replace (S (length rest) + 1 - 10)%nat with 1%nat by lia. reflexivity.
    + discriminate.
    + reflexivity.
  - cbn [items maxsize unfinished_tasks].
    split; [|split; [|split]].
    + unfold sink_ok, qsize. cbn [items maxsize unfinished_tasks].
      rewrite length_app. simpl. lia.
    + symmetry. apply lastn_short. rewrite length_app. simpl. lia.
    + reflexivity.
    + discriminate.
Qed.

(** A put into a queue that is not full appends the chunk. *)
Lemma relay_put_not_full (chunk : list byte) (q : client_queue) :
  full q = false -> items (relay_put chunk q) = items q ++ [Some chunk].
Proof. intros H. unfold relay_put, put_nowait_with. rewrite H. reflexivity. Qed.

(** The chunk is dropped when the queue is still full after the oldest
    item was taken out. *)
Lemma relay_put_still_full (chunk : list byte) (q q1 q2 : client_queue) (x : option (list byte)) :
  full q = true ->
  get_nowait_with AsyncQueueEmpty q = Ok (x, q1) ->
  task_done q1 = Ok q2 ->
  full q2 = true ->
  relay_put chunk q = q2.
Proof.
  intros Hf Hg Ht Hf2. unfold relay_put, put_nowait_with. rewrite Hf, Hg, Ht, Hf2. reflexivity.
Qed.

Lemma foldr_alter_lookup {V : Type} (f : V -> V) (l : list nat) (m : gmap nat V) (i : nat) :
  NoDup l ->
  foldr (fun k qs => alter f k qs) m l !! i
  = if decide (i ∈ l) then f <$> m !! i else m !! i.
Proof.
  induction 1 as [|a l Ha Hl IH]; simpl.
  - reflexivity.
  - rewrite lookup_alter. destruct (decide (a = i)) as [->|Hne].
    + rewrite IH. destruct (decide (i ∈ l)); [contradiction|].
      destruct (decide (i ∈ i :: l)) as [|Hn]; [reflexivity|].
      exfalso. apply Hn. left.
    + rewrite IH. destruct (decide (i ∈ l)) as [Hin|Hnin].
      * destruct (decide (i ∈ a :: l)) as [|Hn]; [reflexivity|].
        exfalso. apply Hn. right. assumption.
      * destruct (decide (i ∈ a :: l)) as [Hin'|]; [|reflexivity].
        exfalso. apply elem_of_cons in Hin' as [->|]; contradiction.
Qed.

(** [distribute] puts the chunk into the queue of every client of the
    set, and into no other queue. *)
Lemma distribute_lookup (chunk : list byte) (c : controller) (i : nat) :
  client_queues (distribute chunk c) !! i
  = if decide (i ∈ aac_clients c) then relay_put chunk <$> client_queues c !! i
    else client_queues c !! i.
Proof.
  unfold distribute. proj_simpl.
  rewrite foldr_alter_lookup by apply NoDup_elements.
  destruct (decide (i ∈ elements (aac_clients c))) as [Hin|Hnin];
    destruct (decide (i ∈ aac_clients c)) as [Hin'|Hnin']; try reflexivity.
  - apply elem_of_elements in Hin. contradiction.
  - exfalso. apply Hnin. apply elem_of_elements. assumption.
Qed.

Lemma client_iteration_other (i j : nat) (w : result unit) (c : controller) :
  i <> j ->
  client_queues (fst (client_iteration i w c)) !! j = client_queues c !! j.
Proof.
  intros Hne. unfold client_iteration.
  destruct (client_queues c !! i) as [q|]; [|reflexivity].
  destruct (get_nowait_with _ q) as [[[ch|] q1]|e]; [| |reflexivity].
  - destruct w as [[]|e].
    + destruct (task_done q1); proj_simpl; rewrite ?lookup_insert_ne by assumption; reflexivity.
    + proj_simpl. rewrite lookup_insert_ne by assumption. reflexivity.
  - proj_simpl. rewrite lookup_insert_ne by assumption. reflexivity.
Qed.

Lemma client_iteration_clients (i : nat) (w : result unit) (c : controller) :
  aac_clients (fst (client_iteration i w c)) = aac_clients c.
Proof.
  unfold client_iteration.
  destruct (client_queues c !! i) as [q|]; [|reflexivity].
  destruct (get_nowait_with _ q) as [[[ch|] q1]|e]; [| |reflexivity]; [|reflexivity].
  destruct w as [[]|e]; [destruct (task_done q1)|]; reflexivity.
Qed.

Lemma run_stream_cons (a : stream_step) (steps : list stream_step) (c : controller) :
  run_stream (a :: steps) c = run_stream steps (run_stream_step a c).
Proof. reflexivity. Qed.

(** A sink that is never drained keeps its newest ten items. *)
Lemma never_drained_keeps_newest (i : nat) (steps : list stream_step) :
  forall (c : controller) (q : client_queue),
    i ∈ aac_clients c -> client_queues c !! i = Some q -> sink_ok q ->
    never_drained i steps ->
    exists q', client_queues (run_stream steps c) !! i = Some q' /\
               items q' = lastn 10 (items q ++ map Some (produced steps)).
Proof.
  induction steps as [|a steps IH]; intros c q Hin Hq Hok Hnd.
  - exists q. split; [assumption|]. simpl. rewrite app_nil_r.
    symmetry. apply lastn_short. destruct Hok as (_ & H & _). unfold qsize in H. lia.
  - inversion Hnd as [|? ? Ha Hnd']; subst. destruct a as [chunk|j].
    + destruct (relay_put_sink_ok chunk q Hok) as (Hok' & Hit & _).
      destruct (IH (distribute chunk c) (relay_put chunk q)) as (q' & Hq' & Hit'); auto.
      * rewrite distribute_lookup. destruct (decide (i ∈ aac_clients c)); [|contradiction].
        rewrite Hq. reflexivity.
      * exists q'. split; [exact Hq'|]. rewrite Hit', Hit.
        rewrite lastn_app_lastn. cbn [produced omap map]. rewrite <- app_assoc. reflexivity.
    + assert (j <> i) by congruence.
      destruct (IH (fst (client_iteration j (Ok tt) c)) q) as (q' & Hq' & Hit'); auto.
      * rewrite client_iteration_clients. assumption.
      * rewrite client_iteration_other by assumption. assumption.
      * exists q'. split; [exact Hq'|]. exact Hit'.
Qed.

Lemma delivered_to_app (i : nat) (a b : list event) :
  delivered_to i (a ++ b) = delivered_to i a ++ delivered_to i b.
Proof. apply omap_app. Qed.

Lemma distribute_trace (chunk : list byte) (c : controller) : trace (distribute chunk c) = trace c.
Proof. reflexivity. Qed.

Lemma distribute_clients (chunk : list byte) (c : controller) :
  aac_clients (distribute chunk c) = aac_clients c.
Proof. reflexivity. Qed.

(** A sink whose queue is never full when a chunk arrives receives
    every chunk, in order: what was written to the client followed by
    what waits in the queue is what was produced. *)
Lemma keeps_up_receives_all (j : nat) (steps : list stream_step) :
  forall (c : controller) (q : client_queue) (pending : list (list byte)),
    j ∈ aac_clients c -> client_queues c !! j = Some q ->
    items q = map Some pending ->
    keeps_up j steps c ->
    exists q' pending',
      client_queues (run_stream steps c) !! j = Some q' /\
      items q' = map Some pending' /\
      exists tr, trace (run_stream steps c) = trace c ++ tr /\
                 delivered_to j tr ++ pending' = pending ++ produced steps.
Proof.
  induction steps as [|a steps IH]; intros c q pending Hin Hq Hit Hk.
  - exists q, pending. split; [assumption|]. split; [assumption|].
    exists []. rewrite !app_nil_r. split; reflexivity.
  - destruct Hk as [Ha Hk]. destruct a as [chunk|i].
    + rewrite Hq in Ha.
      destruct (IH (distribute chunk c) (relay_put chunk q) (pending ++ [chunk]))
        as (q' & p' & Hq' & Hit' & tr & Htr & Hd); auto.
      * rewrite distribute_lookup. destruct (decide (j ∈ aac_clients c)); [|contradiction].
        rewrite Hq. reflexivity.
      * rewrite relay_put_not_full by assumption. rewrite Hit, map_app. reflexivity.
      * exists q', p'. split; [exact Hq'|]. split; [exact Hit'|].
        exists tr. split; [exact Htr|]. rewrite Hd. cbn [produced omap].
        rewrite <- app_assoc. reflexivity.
    + destruct (decide (i = j)) as [->|Hne].
      * (* the client takes its next item *)
        rewrite run_stream_cons. cbn [run_stream_step] in *.
        unfold client_iteration in *. rewrite Hq in *.
        unfold get_nowait_with in *. rewrite Hit in *.
        destruct pending as [|ch pending]; cbn [map] in *.
        -- destruct (IH c q []) as (q' & p' & Hq' & Hit' & tr & Htr & Hd); auto.
           exists q', p'. split; [exact Hq'|]. split; [exact Hit'|].
           exists tr. split; [exact Htr|]. exact Hd.
        -- set (q1 := {| maxsize := maxsize q; items := map Some pending;
                         unfinished_tasks := unfinished_tasks q |}) in *.
           destruct (task_done q1) as [q2|e] eqn:Etd; proj_simpl.
           ++ assert (Hit2 : items q2 = map Some pending).
              { unfold task_done in Etd. destruct (unfinished_tasks q1 <=? 0); [discriminate|].
                injection Etd as <-. reflexivity. }
              match type of Hk with keeps_up _ _ ?c1 =>
                destruct (IH c1 q2 pending) as (q' & p' & Hq' & Hit' & tr & Htr & Hd); auto
              end.
              { proj_simpl. rewrite lookup_insert_eq. reflexivity. }
              exists q', p'. split; [exact Hq'|]. split; [exact Hit'|].
              exists (EvClientWrite j ch :: tr). split.
              { rewrite Htr. proj_simpl. rewrite <- app_assoc. reflexivity. }
              change (delivered_to j (EvClientWrite j ch :: tr))
                with (from_option (fun d => d :: delivered_to j tr) (delivered_to j tr)
                        (if Nat.eqb j j then Some ch else None)).
              rewrite Nat.eqb_refl. cbn [from_option]. cbn [produced omap].
              fold (produced steps). rewrite <- app_comm_cons, Hd. reflexivity.
           ++ match type of Hk with keeps_up _ _ ?c1 =>
                destruct (IH c1 q1 pending) as (q' & p' & Hq' & Hit' & tr & Htr & Hd); auto
              end.
              { proj_simpl. rewrite lookup_insert_eq. reflexivity. }
              exists q', p'. split; [exact Hq'|]. split; [exact Hit'|].
              exists (EvClientWrite j ch :: tr). split.
              { rewrite Htr. proj_simpl. rewrite <- app_assoc. reflexivity. }
              change (delivered_to j (EvClientWrite j ch :: tr))
                with (from_option (fun d => d :: delivered_to j tr) (delivered_to j tr)
                        (if Nat.eqb j j then Some ch else None)).
              rewrite Nat.eqb_refl. cbn [from_option]. cbn [produced omap].
              fold (produced steps). rewrite <- app_comm_cons, Hd. reflexivity.
      * (* another client takes an item *)
        rewrite run_stream_cons. cbn [run_stream_step] in *.
        destruct (IH (fst (client_iteration i (Ok tt) c)) q pending)
          as (q' & p' & Hq' & Hit' & tr & Htr & Hd); auto.
        -- rewrite client_iteration_clients. assumption.
        -- rewrite client_iteration_other by assumption. assumption.
        -- exists q', p'. split; [exact Hq'|]. split; [exact Hit'|].
           assert (Hw : exists ev, trace (fst (client_iteration i (Ok tt) c)) = trace c ++ ev
                                   /\ delivered_to j ev = []).
           { unfold client_iteration. destruct (client_queues c !! i) as [qi|];
               [|exists []; rewrite app_nil_r; split; reflexivity].
             destruct (get_nowait_with _ qi) as [[[ch|] q1]|e];
               [| exists []; rewrite app_nil_r; split; reflexivity
                | exists []; rewrite app_nil_r; split; reflexivity].
             exists [EvClientWrite i ch]. split.
             - destruct (task_done q1); reflexivity.
             - cbn. destruct (Nat.eqb_spec j i); [congruence|reflexivity]. }
           destruct Hw as (ev & Hev & Hdev).
           exists (ev ++ tr). split.
           ++ rewrite Htr, Hev, <- app_assoc. reflexivity.
           ++ rewrite delivered_to_app, Hdev. exact Hd.
Qed.

(** C3. For every chunk the relay distributes and every client queue of
    the set at that moment: a queue that is not full receives the chunk
    at its end; a full queue (capacity 10) loses its oldest item and then
    receives the chunk; if it were still full after that, the chunk would
    be dropped for that queue and no other. So a sink that is never
    drained holds exactly the newest ten chunks, while a sink whose queue
    is not full when the chunks arrive receives every chunk, in order. *)
Theorem relay_drops_oldest_for_slow_sink_only :
  (forall chunk q, sink_ok q ->
     sink_ok (relay_put chunk q) /\
     (full q = false -> items (relay_put chunk q) = items q ++ [Some chunk]) /\
     (full q = true -> items (relay_put chunk q) = tail (items q) ++ [Some chunk])) /\
  (forall chunk q q1 q2 x,
     full q = true -> get_nowait_with AsyncQueueEmpty q = Ok (x, q1) ->
     task_done q1 = Ok q2 -> full q2 = true -> relay_put chunk q = q2) /\
  (forall chunk c i,
     client_queues (distribute chunk c) !! i
     = if decide (i ∈ aac_clients c) then relay_put chunk <$> client_queues c !! i
       else client_queues c !! i) /\
  (forall steps c i q,
     i ∈ aac_clients c -> client_queues c !! i = Some q -> sink_ok q ->
     never_drained i steps ->
     exists q', client_queues (run_stream steps c) !! i = Some q' /\
                items q' = lastn 10 (items q ++ map Some (produced steps))) /\
  (forall steps c j,
     j ∈ aac_clients c -> client_queues c !! j = Some (new_queue 10) ->
     keeps_up j steps c ->
     exists q' pending,
       client_queues (run_stream steps c) !! j = Some q' /\
       items q' = map Some pending /\
       delivered_to j (new_events c (run_stream steps c)) ++ pending = produced steps).
Proof.
  split; [|split; [|split; [|split]]].
  - intros chunk q Hok. destruct (relay_put_sink_ok chunk q Hok) as (H1 & _ & H2 & H3). auto.
  - intros. eapply relay_put_still_full; eassumption.
  - exact distribute_lookup.
  - intros. eapply never_drained_keeps_newest; eassumption.
  - intros steps c j Hin Hq Hk.
    destruct (keeps_up_receives_all j steps c (new_queue 10) [] Hin Hq eq_refl Hk)
      as (q' & p' & Hq' & Hit' & tr & Htr & Hd).
    exists q', p'. split; [exact Hq'|]. split; [exact Hit'|].
    unfold new_events. rewrite Htr, drop_app_length. exact Hd.
Qed.

(** Three clients; the first never reads, the two others read after
    every chunk; twelve chunks are produced. *)
Lemma three_sinks_one_stalled :
  let c0 := init_controller true "ws://h:80/audio" "ws://h:80/text"
              (Some (new_queue 0)) (Some (new_queue 0)) true true 8080 in
  let c3 := snd (client_connect (snd (client_connect (snd (client_connect c0))))) in
  let chunk (n : nat) : list byte := [Byte.x00; nth n [Byte.x00; Byte.x01; Byte.x02; Byte.x03; Byte.x04; Byte.x05; Byte.x06; Byte.x07; Byte.x08; Byte.x09; Byte.x0a; Byte.x0b] Byte.xff] in
  let steps := flat_map (fun n => [Produce (chunk n); Consume 1%nat; Consume 2%nat]) (seq 0 12) in
  (exists q0, client_queues (run_stream steps c3) !! 0%nat = Some q0 /\
              items q0 = map (fun n => Some (chunk n)) (seq 2 10)) /\
  (exists q1 pending,
      client_queues (run_stream steps c3) !! 1%nat = Some q1 /\
      items q1 = map Some pending /\
      delivered_to 1 (new_events c3 (run_stream steps c3)) ++ pending = map chunk (seq 0 12)).
Proof.
  cbv zeta.
  destruct relay_drops_oldest_for_slow_sink_only as (_ & _ & _ & Hstalled & Hothers).
  split.
  - match goal with |- context [run_stream ?steps ?c3] =>
      destruct (Hstalled steps c3 0%nat (new_queue 10)) as (q0 & Hq0 & Hit0)
    end.
    + vm_compute. reflexivity.
    + vm_compute. reflexivity.
    + unfold sink_ok. vm_compute. repeat split; discriminate.
    + unfold never_drained. vm_compute. repeat constructor; discriminate.
    + exists q0. split; [exact Hq0|]. rewrite Hit0. vm_compute. reflexivity.
  - match goal with |- context [run_stream ?steps ?c3] =>
      destruct (Hothers steps c3 1%nat) as (q1 & p & Hq1 & Hit1 & Hd)
    end.
    + vm_compute. reflexivity.
    + vm_compute. reflexivity.
    + vm_compute. repeat split.
    + exists q1, p. split; [exact Hq1|]. split; [exact Hit1|]. rewrite Hd.
      vm_compute. reflexivity.
Defined.

(** ** Reconnection interval (C4) *)

Lemma ext_refl (P : event -> Prop) (t : list event) : extends_with P t t.
Proof. exists []. rewrite app_nil_r. split; [reflexivity|constructor]. Qed.

Lemma ext_trans (P : event -> Prop) (t1 t2 t3 : list event) :
  extends_with P t1 t2 -> extends_with P t2 t3 -> extends_with P t1 t3.
Proof.
  intros (e1 & -> & H1) (e2 & -> & H2). exists (e1 ++ e2).
  rewrite app_assoc. split; [reflexivity|]. apply Forall_app. split; assumption.
Qed.

Lemma ext_snoc (P : event -> Prop) (t t' : list event) (ev : event) :
  extends_with P t t' -> P ev -> extends_with P t (t' ++ [ev]).
Proof.
  intros H Hev. eapply ext_trans; [exact H|]. exists [ev]. split; [reflexivity|].
  constructor; [assumption|constructor].
Qed.



(** Closes a goal [extends_with P (trace c) (trace c')] where [c'] is
    built from [c] by setters, updates and logged events. *)
Ltac ext_log :=
  proj_simpl;
  repeat first
    [ apply ext_refl
    | apply ext_snoc; [|first [reflexivity | split; reflexivity]] ].

Lemma clear_running_ext (c : controller) :
  extends_with housekeeping (trace c) (trace (clear_running c)).
Proof. unfold clear_running. destruct (app_running c); ext_log. Qed.


Lemma kill_process_ext (proc : option nat) (c : controller) :
  extends_with housekeeping (trace c) (trace (_kill_process proc c)).
Proof.
  unfold _kill_process. destruct proc as [h|]; [|apply ext_refl].
  destruct (procs c !! h) as [p|]; [|apply ext_refl].
  destruct (returncode p); [apply ext_refl|].
  destruct (stdin_closing p); destruct (on_terminate p) as [|[]];
    unfold update_proc; ext_log.
Qed.

Lemma kill_ffplay_ext (c : controller) :
  extends_with housekeeping (trace c) (trace (_kill_ffplay c)).
Proof. unfold _kill_ffplay. proj_simpl. apply kill_process_ext. Qed.

Lemma kill_ffmpeg_ext (c : controller) :
  extends_with housekeeping (trace c) (trace (_kill_ffmpeg c)).
Proof. unfold _kill_ffmpeg. proj_simpl. apply kill_process_ext. Qed.

Lemma kill_media_processes_ext (c : controller) :
  extends_with housekeeping (trace c) (trace (kill_media_processes c)).
Proof.
  unfold kill_media_processes.
  destruct (negb (is_restream_only c)).
  - destruct (stream_enabled (_kill_ffplay c)).
    + eapply ext_trans; [apply kill_ffplay_ext|apply kill_ffmpeg_ext].
    + apply kill_ffplay_ext.
  - destruct (stream_enabled c); [apply kill_ffmpeg_ext|apply ext_refl].
Qed.

Lemma reconnect_wait_ext (now last : Q) (w : wake) (c c' : controller) :
  reconnect_wait now last w c = Some c' ->
  extends_with housekeeping (trace c) (trace c').
Proof.
  unfold reconnect_wait. destruct (reconnect_sleep now last) as [d|].
  - destruct w; intros [= <-].
    + ext_log.
    + eapply ext_trans; [|apply clear_running_ext]. ext_log.
  - intros [= <-]. apply ext_refl.
Qed.


Lemma text_ws_finally_ext (ws : option websocket) (closed : bool) (c : controller) :
  extends_with housekeeping (trace c) (trace (text_ws_finally ws closed c)).
Proof.
  unfold text_ws_finally. destruct ws as [ws|]; [destruct closed|];
    match goal with |- context [if app_running ?x then _ else _] => destruct (app_running x) end;
    ext_log.
Qed.


Lemma process_text_message_trace (d : result pyval) (c : controller) :
  trace (process_text_message d c) = trace c.
Proof.
  unfold process_text_message. destruct d as [v|[]]; try reflexivity.
  destruct (py_get v "freq") as [f|]; [|reflexivity].
  destruct (mhz_to_khz f) as [[k|]|]; reflexivity.
Qed.


Lemma new_events_app (c c' : controller) (evs : list event) :
  trace c' = trace c ++ evs -> new_events c c' = evs.
Proof. intros H. unfold new_events. rewrite H. apply drop_app_length. Qed.





(** *** The delay before a connection *)











(** *** The audio loop *)

Lemma spawn_process_ext (name : string) (p : process) (c : controller) :
  extends_with no_connect (trace c) (trace (snd (spawn_process name p c))).
Proof. unfold spawn_process. cbn [snd]. ext_log. Qed.




Lemma update_proc_trace (h : nat) (f : process -> process) (c : controller) :
  trace (update_proc h f c) = trace c.
Proof. reflexivity. Qed.









Lemma audio_ws_finally_ext (ws : option websocket) (closed : bool) (c : controller) :
  extends_with housekeeping (trace c) (trace (audio_ws_finally ws closed c)).
Proof.
  unfold audio_ws_finally.
  pose proof (kill_media_processes_ext c) as Hk.
  destruct ws as [ws|]; [destruct closed|];
    match goal with |- context [if app_running ?x then _ else _] => destruct (app_running x) end;
    proj_simpl; repeat (apply ext_snoc; [|split; reflexivity]); exact Hk.
Qed.







Lemma audio_final_cleanup_ext (c : controller) :
  extends_with housekeeping (trace c) (trace (audio_final_cleanup c)).
Proof.
  unfold audio_final_cleanup. destruct (negb (is_restream_only c)).
  - eapply ext_trans; [apply kill_ffplay_ext|apply kill_ffmpeg_ext].
  - apply kill_ffmpeg_ext.
Qed.

Lemma play_audio_stream_cons (win32 : bool) (env : audio_env) (envs : list audio_env)
  (last : Q) (c : controller) :
  _play_audio_stream win32 (env :: envs) last c =
  if app_running c then
    match audio_attempt win32 env last c with
    | (c', last', NextAttempt) => _play_audio_stream win32 envs last' c'
    | (c', _, LeaveLoop) => audio_final_cleanup c'
    | (c', _, _) => c'
    end
  else audio_final_cleanup c.
Proof. reflexivity. Qed.

Lemma play_audio_stream_nil (win32 : bool) (last : Q) (c : controller) :
  _play_audio_stream win32 [] last c = if app_running c then c else audio_final_cleanup c.
Proof. reflexivity. Qed.








(** ** Shutdown after a malformed URI (C5) *)

Lemma controller_eta (c : controller) : set_trace (trace c) (set_procs (procs c) c) = c.
Proof. destruct c. reflexivity. Qed.

(** [_kill_process] changes nothing but the processes and the trace. *)
Lemma kill_process_frame (proc : option nat) (c : controller) :
  exists ps tr, _kill_process proc c = set_trace tr (set_procs ps c).
Proof.
  unfold _kill_process.
  destruct proc as [h|]; [|exists (procs c), (trace c); symmetry; apply controller_eta].
  destruct (procs c !! h) as [p|]; [|exists (procs c), (trace c); symmetry; apply controller_eta].
  destruct (returncode p); [exists (procs c), (trace c); symmetry; apply controller_eta|].
  destruct (stdin_closing p); destruct (on_terminate p) as [|[]];
    unfold update_proc, log; proj_simpl; eexists _, _; reflexivity.
Qed.

(** Replaces every [_kill_process p c] by a state that differs from [c]
    in the processes and the trace. *)
Ltac kill_frame :=
  repeat match goal with
         | |- context [_kill_process ?p ?x] =>
             let ps := fresh "ps" in let tr := fresh "tr" in let E := fresh "E" in
             destruct (kill_process_frame p x) as (ps & tr & E); rewrite E; clear E
         end.

(** Once the flag is cleared, [stop()] does not ask the loop to stop:
    it only terminates the processes and forgets the thread. *)
Lemma stop_after_shutdown (joined : bool) (c : controller) :
  app_running c = false ->
  app_running (stop joined c) = false /\
  loop (stop joined c) = loop c /\
  thread_alive (stop joined c) = thread_alive c /\
  update_queue (stop joined c) = update_queue c.
Proof.
  intros H. unfold stop. rewrite H. unfold _kill_ffmpeg, _kill_ffplay.
  kill_frame. proj_simpl. auto.
Qed.

(** The controller thread stays in [run_forever()] as long as nobody
    asked the loop to stop. *)
Lemma thread_step_idle (c : controller) (l : event_loop) :
  loop c = Some l -> stop_requested l = false -> controller_thread_step c = c.
Proof.
  intros Hl Hs. unfold controller_thread_step. rewrite Hl, Hs.
  destruct (thread_alive c); reflexivity.
Qed.

Lemma run_ops_cons (o : controller_op) (ops : list controller_op) (c : controller) :
  run_ops (o :: ops) c = run_ops ops (run_op o c).
Proof. reflexivity. Qed.

Lemma stops_after_shutdown (joins : list bool) :
  forall (c : controller) (l : event_loop),
    app_running c = false -> loop c = Some l -> stop_requested l = false ->
    let c' := run_ops (flat_map (fun j => [OpStop j; OpThreadStep]) joins) c in
    thread_alive c' = thread_alive c /\ update_queue c' = update_queue c.
Proof.
  induction joins as [|j joins IH]; intros c l Hr Hl Hs; cbv zeta.
  - split; reflexivity.
  - change (flat_map (fun j => [OpStop j; OpThreadStep]) (j :: joins))
      with (OpStop j :: OpThreadStep :: flat_map (fun j => [OpStop j; OpThreadStep]) joins).
    rewrite !run_ops_cons. cbn [run_op].
    destruct (stop_after_shutdown j c Hr) as (Hr' & Hl' & Ha' & Hu').
    assert (Hl2 : loop (stop j c) = Some l) by (rewrite Hl'; exact Hl).
    rewrite (thread_step_idle (stop j c) l Hl2 Hs).
    destruct (IH (stop j c) l Hr' Hl2 Hs) as [H1 H2].
    cbv zeta in H1, H2. rewrite H1, H2, Ha', Hu'. split; reflexivity.
Qed.
(** C5, evaluated: the metadata URI is malformed. The channel reports the
    fatal error, clears the flag and leaves its loop after that single
    attempt; but [stop()] then finds the flag cleared and does not stop
    the event loop, so the thread never reaches the statement that puts
    "closed": whatever number of times [stop()] is called afterwards, no
    "closed" update is emitted, where the claim says one is. *)
Theorem closed_not_emitted_after_invalid_uri :
  let c0 := start (init_controller true "ws://h:80/audio" "h:80/text"
                     (Some (new_queue 0)) (Some (new_queue 0)) false false 8080) in
  let env := {| te_now := 100; te_sleep := Woke; te_lag := 0;
                te_connect := Raise (InvalidURI "h:80/text is not a valid URI");
                te_shutdown_in_connect := false; te_messages := []; te_end := None;
                te_ws_closed := true; te_close := Ok tt |} in
  let c1 := _handle_text_websocket [env; env] 0 c0 in
  app_running c1 = false /\
  connect_times (trace c1) = [100%Q] /\
  updates c1 = [("status", PStr "Connecting Text WS...");
                ("error", PStr "Fatal: Invalid Text URI: h:80/text")] /\
  forall joins : list bool,
    let c2 := run_ops (flat_map (fun j => [OpStop j; OpThreadStep]) joins)
                      (controller_thread_step c1) in
    thread_alive c2 = true /\ updates_of_type "closed" (updates c2) = [].
Proof.
  cbv zeta.
  split; [vm_compute; reflexivity|]. split; [vm_compute; reflexivity|].
  split; [vm_compute; reflexivity|].
  intros joins.
  match goal with |- context [controller_thread_step ?c1] =>
    assert (Hstep : controller_thread_step c1 = c1) by (vm_compute; reflexivity);
    rewrite Hstep;
    destruct (stops_after_shutdown joins c1 {| is_running := true; stop_requested := false |})
      as [Ha Hu]; [vm_compute; reflexivity..|]
  end.
  cbv zeta in Ha, Hu. rewrite Ha. unfold updates. rewrite Hu. split; vm_compute; reflexivity.
Qed.

(** When the interface calls [stop()] while the flag is set, the loop is
    stopped and "closed" is put once. *)
Lemma closed_emitted_once_after_stop :
  let c0 := start (init_controller true "ws://h:80/audio" "ws://h:80/text"
                     (Some (new_queue 0)) (Some (new_queue 0)) false false 8080) in
  updates_of_type "closed" (updates (stop true c0)) = [PNone] /\
  updates_of_type "closed" (updates (run_ops [OpStop true; OpThreadStep; OpStop true] c0))
    = [PNone].
Proof. split; vm_compute; reflexivity. Qed.


(** ** Exit of a media process (C6) *)

(** C6, as stated, fails when both processes are seen to have exited in
    the same iteration: the ffplay branch breaks first, the handle of
    ffmpeg is kept and streaming stays enabled. *)
Lemma ffmpeg_exit_not_handled_when_ffplay_exited :
  ~ (forall (win32 : bool) (c : controller) (rc : Z),
       stream_enabled c = true ->
       returncode_of (ffmpeg_proc c) c = Some rc ->
       ffmpeg_proc (fst (check_process_status win32 c)) = None /\
       stream_enabled (fst (check_process_status win32 c)) = false /\
       snd (check_process_status win32 c) = Continue).
Proof.
  intros H.
  pose (dead := fun name : string =>
          {| proc_name := name; returncode := Some 1; stdin_closing := false;
             on_terminate := Ok tt; on_kill := Ok tt |}).
  pose (c := set_procs (<[0%nat := dead "ffplay"]> (<[1%nat := dead "ffmpeg"]> ∅))
               (set_ffplay_proc (Some 0%nat) (set_ffmpeg_proc (Some 1%nat)
                  (start (init_controller true "ws://h:80/audio" "ws://h:80/text"
                            (Some (new_queue 0)) (Some (new_queue 0)) true false 8080))))).
  assert (E1 : stream_enabled c = true) by (vm_compute; reflexivity).
  assert (E2 : returncode_of (ffmpeg_proc c) c = Some 1) by (vm_compute; reflexivity).
  destruct (H false c 1 E1 E2) as (_ & _ & H3).
  assert (E3 : snd (check_process_status false c) = Break) by (vm_compute; reflexivity).
  rewrite E3 in H3. discriminate.
Qed.

(** C6, amended. In the first statements of an iteration of the inner
    loop: when ffplay is seen to have exited, its handle is cleared and
    the inner loop is left, which leads to a new attempt; when ffmpeg is
    seen to have exited and ffplay is not, the handle of ffmpeg is
    cleared, streaming is disabled for the session, the running flag is
    untouched and the iteration goes on with receiving audio. *)
Theorem process_exit_handling (win32 : bool) (c : controller) :
  (forall rc,
     is_restream_only c = false ->
     returncode_of (ffplay_proc c) c = Some rc ->
     ffplay_proc (fst (check_process_status win32 c)) = None /\
     snd (check_process_status win32 c) = Break /\
     forall env frames, app_running c = true -> fe_shutdown env = false -> fe_exits env = [] ->
       snd (receive_and_pipe_loop win32 (env :: frames) c) = Proceed) /\
  (forall rc,
     stream_enabled c = true ->
     returncode_of (ffmpeg_proc c) c = Some rc ->
     (is_restream_only c = true \/ returncode_of (ffplay_proc c) c = None) ->
     ffmpeg_proc (fst (check_process_status win32 c)) = None /\
     stream_enabled (fst (check_process_status win32 c)) = false /\
     app_running (fst (check_process_status win32 c)) = app_running c /\
     ffplay_proc (fst (check_process_status win32 c)) = ffplay_proc c /\
     snd (check_process_status win32 c) = Continue).
Proof.
  split.
  - intros rc Hr Hrc.
    assert (Hc : ffplay_proc (fst (check_process_status win32 c)) = None /\
                 snd (check_process_status win32 c) = Break).
    { unfold check_process_status. rewrite Hr. cbn [negb]. rewrite Hrc.
      destruct (is_unexpected_exit _ _); split; reflexivity. }
    destruct Hc as [H1 H2]. split; [exact H1|]. split; [exact H2|].
    intros env frames Hrun Hsh Hex. cbn [receive_and_pipe_loop].
    rewrite Hsh, Hex. cbn [interference process_exits fold_left]. rewrite Hrun.
    destruct (check_process_status win32 c) as [c1 ctl]. cbn [snd] in H2. subst ctl.
    reflexivity.
  - intros rc Hs Hrc Hplay. unfold check_process_status.
    assert (Hp : (if negb (is_restream_only c) then returncode_of (ffplay_proc c) c else None)
                 = None).
    { destruct Hplay as [->| ->]; [reflexivity|]. destruct (negb _); reflexivity. }
    rewrite Hp, Hs, Hrc. unfold _kill_ffmpeg.
    destruct (is_unexpected_exit _ _); cbn [fst snd]; kill_frame; proj_simpl; auto.
Qed.

Lemma process_exit_handling_example :
  let exited_with (name : string) (rc : option Z) :=
    {| proc_name := name; returncode := rc; stdin_closing := false;
       on_terminate := Ok tt; on_kill := Ok tt |} in
  let c := set_procs (<[0%nat := exited_with "ffplay" None]>
                        (<[1%nat := exited_with "ffmpeg" (Some 1)]> ∅))
             (set_ffplay_proc (Some 0%nat) (set_ffmpeg_proc (Some 1%nat)
                (start (init_controller true "ws://h:80/audio" "ws://h:80/text"
                          (Some (new_queue 0)) (Some (new_queue 0)) true false 8080)))) in
  ffmpeg_proc (fst (check_process_status false c)) = None /\
  stream_enabled (fst (check_process_status false c)) = false /\
  snd (check_process_status false c) = Continue.
Proof.
  cbv zeta.
  match goal with |- context [check_process_status false ?c] =>
    assert (E1 : stream_enabled c = true) by (vm_compute; reflexivity);
    assert (E2 : returncode_of (ffmpeg_proc c) c = Some 1) by (vm_compute; reflexivity);
    assert (E3 : returncode_of (ffplay_proc c) c = None) by (vm_compute; reflexivity);
    destruct (proj2 (process_exit_handling false c) 1 E1 E2 (or_intror E3))
      as (H1 & H2 & _ & _ & H5)
  end.
  auto.
Defined.

(** ** The running flag is only ever cleared (C9) *)

Lemma app_running_kill_process (proc : option nat) (c : controller) :
  app_running (_kill_process proc c) = app_running c.
Proof. destruct (kill_process_frame proc c) as (ps & tr & E). rewrite E. reflexivity. Qed.

Lemma app_running_kill_ffplay (c : controller) : app_running (_kill_ffplay c) = app_running c.
Proof. unfold _kill_ffplay. proj_simpl. apply app_running_kill_process. Qed.

Lemma app_running_kill_ffmpeg (c : controller) : app_running (_kill_ffmpeg c) = app_running c.
Proof. unfold _kill_ffmpeg. proj_simpl. apply app_running_kill_process. Qed.

Lemma app_running_clear_running (c : controller) : app_running (clear_running c) = false.
Proof. unfold clear_running. destruct (app_running c) eqn:E; [reflexivity|exact E]. Qed.

Lemma app_running_interference (b : bool) (c : controller) :
  app_running c = false -> app_running (interference b c) = false.
Proof. intros H. destruct b; [apply app_running_clear_running|exact H]. Qed.

Lemma app_running_kill_media_processes (c : controller) :
  app_running (kill_media_processes c) = app_running c.
Proof.
  unfold kill_media_processes.
  destruct (negb (is_restream_only c)); destruct (stream_enabled _);
    rewrite ?app_running_kill_ffmpeg, ?app_running_kill_ffplay; reflexivity.
Qed.

Lemma app_running_process_exits (exits : list (nat * Z)) (c : controller) :
  app_running (process_exits exits c) = app_running c.
Proof.
  revert c. induction exits as [|[h rc] exits IH]; intros c; [reflexivity|].
  unfold process_exits in *. cbn [fold_left]. rewrite IH. reflexivity.
Qed.

(** Rewrites the flag of a state built by the termination routines and
    [clear_running], and splits the tests in the way. *)
Ltac flag_step :=
  first
    [ rewrite app_running_kill_ffplay
    | rewrite app_running_kill_ffmpeg
    | rewrite app_running_kill_process
    | rewrite app_running_clear_running
    | rewrite app_running_kill_media_processes
    | rewrite app_running_process_exits
    | match goal with
      | |- context [match ?x with _ => _ end] => destruct x eqn:?
      end ];
  proj_simpl.

Ltac flag_auto := proj_simpl; repeat flag_step; try assumption; try reflexivity; try congruence.

Lemma app_running_forward_command (send : result unit) (command : pyval)
  (c c' : controller) :
  forward_command send command c = Ok c' -> app_running c' = app_running c.
Proof.
  unfold forward_command, py_startswith.
  repeat match goal with
         | |- context [match ?x with _ => _ end] => destruct x
         end; intros [= <-]; reflexivity.
Qed.

Lemma app_running_command_loop_handlers (e : exn) (c : controller) :
  app_running (fst (command_loop_handlers (Raise e) c)) = app_running c.
Proof. destruct e; reflexivity. Qed.

Lemma flag_down_commands (send : result unit) (c : controller) :
  app_running c = false -> app_running (fst (handle_gui_commands_iteration send c)) = false.
Proof.
  intros H. unfold handle_gui_commands_iteration.
  destruct (command_queue c) as [q|]; [|rewrite app_running_command_loop_handlers; exact H].
  destruct (get_nowait_with QueueEmpty q) as [[command q']|e];
    [|rewrite app_running_command_loop_handlers; exact H].
  assert (H0 : app_running (set_command_queue (Some q') c) = false) by exact H.
  destruct (forward_command send command (set_command_queue (Some q') c)) as [c1|e] eqn:E.
  - apply app_running_forward_command in E. rewrite H0 in E.
    destruct command; try (destruct (task_done q');
      [exact E|rewrite app_running_command_loop_handlers; exact E]).
    proj_simpl. rewrite H. exact H.
  - destruct command; try (rewrite app_running_command_loop_handlers;
      destruct e; try exact H0;
      destruct (text_ws_for_commands (set_command_queue (Some q') c)); exact H0).
    proj_simpl. rewrite H. exact H.
Qed.

Lemma flag_down_process_text_message (d : result pyval) (c : controller) :
  app_running (process_text_message d c) = app_running c.
Proof. unfold process_text_message. flag_auto. Qed.

Lemma flag_down_text_receive_loop (msgs : list (bool * result pyval)) (c : controller) :
  app_running c = false -> app_running (fst (text_receive_loop msgs c)) = false.
Proof.
  revert c. induction msgs as [|[b d] msgs IH]; intros c H; [exact H|].
  cbn [text_receive_loop]. rewrite (app_running_interference b c H). 
  cbn [fst]. apply app_running_interference, H.
Qed.

Lemma flag_down_reconnect_wait (now last : Q) (w : wake) (c c' : controller) :
  app_running c = false -> reconnect_wait now last w c = Some c' -> app_running c' = false.
Proof.
  intros H. unfold reconnect_wait.
  destruct (reconnect_sleep now last); [destruct w|]; intros [= <-];
    rewrite ?app_running_clear_running; auto.
Qed.

Lemma flag_down_text_ws_handler (e : exn) (c : controller) :
  app_running c = false -> app_running (fst (text_ws_handler e c)) = false.
Proof. intros H. unfold text_ws_handler. destruct e; flag_auto. Qed.

Lemma app_running_text_ws_finally (ws : option websocket) (closed : bool) (c : controller) :
  app_running (text_ws_finally ws closed c) = app_running c.
Proof.
  unfold text_ws_finally. destruct ws as [ws|]; [destruct closed|]; proj_simpl;
    destruct (app_running c) eqn:E; proj_simpl; congruence.
Qed.

Lemma flag_down_text_ws_attempt (env : text_env) (last : Q) (c : controller) :
  app_running c = false -> app_running (fst (fst (text_ws_attempt env last c))) = false.
Proof.
  intros H. unfold text_ws_attempt.
  destruct (reconnect_wait _ _ _ _) as [c1|] eqn:E.
  - apply flag_down_reconnect_wait in E; [|exact H]. rewrite E. cbn [negb fst].
    rewrite app_running_text_ws_finally. exact E.
  - cbn [text_ws_handler fst]. rewrite app_running_text_ws_finally. exact H.
Qed.

Lemma app_running_audio_ws_finally (ws : option websocket) (closed : bool) (c : controller) :
  app_running (audio_ws_finally ws closed c) = app_running c.
Proof.
  unfold audio_ws_finally.
  pose proof (app_running_kill_media_processes c) as Hk.
  destruct ws as [ws|]; [destruct closed|]; proj_simpl;
    destruct (app_running (kill_media_processes c)) eqn:E; proj_simpl; congruence.
Qed.

Lemma flag_down_audio_attempt (win32 : bool) (env : audio_env) (last : Q) (c : controller) :
  app_running c = false -> app_running (fst (fst (audio_attempt win32 env last c))) = false.
Proof.
  intros H. unfold audio_attempt.
  assert (H0 : app_running (kill_media_processes c) = false)
    by (rewrite app_running_kill_media_processes; exact H).
  destruct (reconnect_wait _ _ _ _) as [c1|] eqn:E.
  - apply flag_down_reconnect_wait in E; [|exact H0]. rewrite E. cbn [negb fst].
    rewrite app_running_audio_ws_finally. exact E.
  - cbn [audio_ws_handler fst]. rewrite app_running_audio_ws_finally. exact H0.
Qed.

Lemma interference_after_shutdown (b : bool) (c : controller) :
  app_running c = false -> interference b c = c.
Proof. intros H. unfold interference, clear_running. rewrite H. destruct b; reflexivity. Qed.

(** With the flag cleared, an iteration of the monitoring loop only
    leaves the loop. *)
Lemma main_async_iteration_after_shutdown (sh rp : bool)
  (done : list (task_name * task_outcome)) (tasks : list task_name) (c : controller) :
  app_running c = false -> main_async_iteration sh rp done tasks c = (tasks, c, Break).
Proof.
  intros H. unfold main_async_iteration.
  rewrite (interference_after_shutdown sh c H), H. reflexivity.
Qed.

(** With the flag cleared, the body of [for task in done] starts no task. *)
Lemma supervise_task_after_shutdown (rp : bool) (name : task_name) (outcome : task_outcome)
  (c : controller) :
  app_running c = false ->
  snd (fst (fst (supervise_task rp name outcome c))) = None /\
  app_running (fst (fst (fst (supervise_task rp name outcome c)))) = false.
Proof.
  intros H. unfold supervise_task. destruct outcome as [| |exc]; [split; auto..|].
  destruct (_ && _ && _); [split; [reflexivity|exact H]|].
  destruct (is_fatal name exc c);
    [split; [reflexivity|apply app_running_clear_running]|].
  proj_simpl. rewrite H. split; [reflexivity|exact H].
Qed.

Lemma app_running_update_client_count (c : controller) :
  app_running (_update_client_count c) = app_running c.
Proof. unfold _update_client_count. destruct (_ && _); reflexivity. Qed.

Lemma app_running_relay_iteration (read : result (list byte)) (c : controller) :
  app_running (fst (relay_iteration read c)) = app_running c.
Proof.
  unfold relay_iteration, distribute.
  destruct (ffmpeg_proc c); [destruct read as [[|b l]|[]]|]; proj_simpl;
    destruct (app_running c) eqn:E; proj_simpl; congruence.
Qed.

Lemma app_running_client_iteration (i : nat) (w : result unit) (c : controller) :
  app_running (fst (client_iteration i w c)) = app_running c.
Proof.
  unfold client_iteration.
  destruct (client_queues c !! i) as [q|]; [|reflexivity].
  destruct (get_nowait_with AsyncQueueEmpty q) as [[[chunk|] q1]|]; [|reflexivity..].
  proj_simpl. destruct w; [destruct (task_done q1)|]; reflexivity.
Qed.

Lemma app_running_client_disconnect (i : nat) (c : controller) :
  app_running (client_disconnect i c) = app_running c.
Proof. unfold client_disconnect. proj_simpl. rewrite app_running_update_client_count. reflexivity. Qed.

Lemma app_running_client_connect (c : controller) :
  app_running (snd (client_connect c)) = app_running c.
Proof. unfold client_connect. cbn [snd]. rewrite app_running_update_client_count. reflexivity. Qed.

(** What the end of the tasks of the stream leaves as it is: all but
    the clients, their queues, the runner and the update queue. *)
Lemma client_disconnect_frame (i : nat) (c : controller) :
  let c' := client_disconnect i c in
  app_running c' = app_running c /\ trace c' = trace c /\ procs c' = procs c /\
  ffplay_proc c' = ffplay_proc c /\ ffmpeg_proc c' = ffmpeg_proc c /\
  loop c' = loop c /\ thread c' = thread c /\ thread_alive c' = thread_alive c /\
  command_queue c' = command_queue c.
Proof.
  cbv zeta. unfold client_disconnect, _update_client_count. cbv zeta. proj_simpl.
  destruct (_ && _); proj_simpl; repeat split; reflexivity.
Qed.

Lemma cancel_stream_tasks_frame (c : controller) :
  let c' := cancel_stream_tasks c in
  app_running c' = app_running c /\ trace c' = trace c /\ procs c' = procs c /\
  ffplay_proc c' = ffplay_proc c /\ ffmpeg_proc c' = ffmpeg_proc c /\
  loop c' = loop c /\ thread c' = thread c /\ thread_alive c' = thread_alive c /\
  command_queue c' = command_queue c.
Proof.
  cbv zeta. unfold cancel_stream_tasks. cbv zeta.
  generalize (elements (aac_clients (relay_cleanup c))).
  change (app_running c) with (app_running (relay_cleanup c)).
  change (trace c) with (trace (relay_cleanup c)).
  change (procs c) with (procs (relay_cleanup c)).
  change (ffplay_proc c) with (ffplay_proc (relay_cleanup c)).
  change (ffmpeg_proc c) with (ffmpeg_proc (relay_cleanup c)).
  change (loop c) with (loop (relay_cleanup c)).
  change (thread c) with (thread (relay_cleanup c)).
  change (thread_alive c) with (thread_alive (relay_cleanup c)).
  change (command_queue c) with (command_queue (relay_cleanup c)).
  generalize (relay_cleanup c). clear c.
  intros c l. revert c. induction l as [|i l IH]; intros c; cbn [fold_left].
  - destruct (http_runner c); unfold stream_server_finally; proj_simpl;
      repeat split; reflexivity.
  - destruct (client_disconnect_frame i c) as (H1 & H2 & H3 & H4 & H5 & H6 & H7 & H8 & H9).
    cbv zeta in H1, H2, H3, H4, H5, H6, H7, H8, H9.
    rewrite <- H1, <- H2, <- H3, <- H4, <- H5, <- H6, <- H7, <- H8, <- H9. apply IH.
Qed.

Lemma app_running_loop_thread_finally (c : controller) :
  app_running (loop_thread_finally c) = app_running c.
Proof.
  unfold loop_thread_finally. cbv zeta.
  transitivity (app_running (_kill_ffmpeg (_kill_ffplay
                  (set_loop None (set_text_ws_for_commands None (cancel_stream_tasks c))))));
    [destruct (_kill_ffmpeg _); reflexivity|].
  rewrite app_running_kill_ffmpeg, app_running_kill_ffplay.
  exact (proj1 (cancel_stream_tasks_frame c)).
Qed.

Lemma app_running_controller_thread_step (c : controller) :
  app_running (controller_thread_step c) = app_running c.
Proof.
  unfold controller_thread_step.
  destruct (thread_alive c); [|reflexivity].
  destruct (loop c) as [l|]; [|reflexivity].
  destruct (stop_requested l); [apply app_running_loop_thread_finally|reflexivity].
Qed.

Lemma app_running_enqueue_command (command : pyval) (c : controller) :
  app_running (enqueue_command command c) = app_running c.
Proof.
  unfold enqueue_command. destruct (command_queue c) as [q|]; [|reflexivity].
  destruct (put_nowait_with QueueFull q command); reflexivity.
Qed.

(** No operation of a run sets the flag. *)
Lemma flag_down_run_op (o : controller_op) (c : controller) :
  app_running c = false -> app_running (run_op o c) = false.
Proof.
  intros H. destruct o; cbn [run_op].
  - apply flag_down_commands, H.
  - apply flag_down_text_ws_attempt, H.
  - apply flag_down_audio_attempt, H.
  - rewrite (main_async_iteration_after_shutdown _ _ _ _ c H). exact H.
  - rewrite app_running_relay_iteration. exact H.
  - exact H.
  - rewrite app_running_client_connect. exact H.
  - rewrite app_running_client_iteration. exact H.
  - rewrite app_running_client_disconnect. exact H.
  - exact (proj1 (stop_after_shutdown joined c H)).
  - rewrite app_running_controller_thread_step. exact H.
  - apply app_running_clear_running.
  - rewrite app_running_enqueue_command. exact H.
Qed.

Lemma flag_down_run_ops (ops : list controller_op) (c : controller) :
  app_running c = false -> app_running (run_ops ops c) = false.
Proof.
  revert c. induction ops as [|o ops IH]; intros c H; [exact H|].
  rewrite run_ops_cons. apply IH, flag_down_run_op, H.
Qed.

(** The state after the reconnection delay when the flag was cleared
    before or during it. *)
Lemma reconnect_wait_shutdown (now last : Q) (w : wake) (c c' : controller) :
  app_running c = false \/ (w = WokeAfterShutdown /\ reconnect_sleep now last <> None) ->
  reconnect_wait now last w c = Some c' -> app_running c' = false.
Proof.
  intros [H|[-> Hs]]; [apply flag_down_reconnect_wait, H|].
  unfold reconnect_wait. destruct (reconnect_sleep now last); [|congruence].
  intros [= <-]. apply app_running_clear_running.
Qed.

(** An iteration of the metadata loop that finds the flag cleared after
    its delay leaves the loop, and connects nothing. *)
Lemma text_ws_attempt_after_shutdown (env : text_env) (last : Q) (c : controller) :
  app_running c = false \/
    (te_sleep env = WokeAfterShutdown /\ reconnect_sleep (te_now env) last <> None) ->
  snd (text_ws_attempt env last c) = Break /\
  extends_with housekeeping (trace c) (trace (fst (fst (text_ws_attempt env last c)))).
Proof.
  intros H. unfold text_ws_attempt.
  assert (H' : app_running (set_text_ws_for_commands None c) = false \/
               (te_sleep env = WokeAfterShutdown /\ reconnect_sleep (te_now env) last <> None)).
  { destruct H as [H|H]; [left; exact H|right; exact H]. }
  destruct (reconnect_wait _ _ _ _) as [c1|] eqn:E.
  - rewrite (reconnect_wait_shutdown _ _ _ _ _ H' E). cbn [negb fst snd].
    split; [reflexivity|].
    eapply ext_trans; [|apply text_ws_finally_ext].
    apply reconnect_wait_ext in E. exact E.
  - cbn [text_ws_handler fst snd]. split; [reflexivity|].
    pose proof (text_ws_finally_ext None false (set_text_ws_for_commands None c)) as Hf.
    exact Hf.
Qed.

(** The same for the audio loop: no connection and no process is
    started, the processes of the attempt before are terminated. *)
Lemma audio_attempt_after_shutdown (win32 : bool) (env : audio_env) (last : Q)
  (c : controller) :
  app_running c = false \/
    (ae_sleep env = WokeAfterShutdown /\ reconnect_sleep (ae_now env) last <> None) ->
  snd (audio_attempt win32 env last c) = LeaveLoop /\
  extends_with housekeeping (trace c) (trace (fst (fst (audio_attempt win32 env last c)))).
Proof.
  intros H. unfold audio_attempt.
  assert (H' : app_running (kill_media_processes c) = false \/
               (ae_sleep env = WokeAfterShutdown /\ reconnect_sleep (ae_now env) last <> None)).
  { destruct H as [H|H]; [left; rewrite app_running_kill_media_processes; exact H|right; exact H]. }
  destruct (reconnect_wait _ _ _ _) as [c1|] eqn:E.
  - rewrite (reconnect_wait_shutdown _ _ _ _ _ H' E). cbn [negb fst snd].
    split; [reflexivity|].
    eapply ext_trans; [apply kill_media_processes_ext|].
    eapply ext_trans; [|apply audio_ws_finally_ext].
    apply reconnect_wait_ext in E. exact E.
  - cbn [audio_ws_handler fst snd]. split; [reflexivity|].
    eapply ext_trans; [apply kill_media_processes_ext|apply audio_ws_finally_ext].
Qed.

(** C9, as stated, fails: the flag is cleared while the audio channel
    waits for its connection; the connection succeeds and the channel
    goes on to start ffplay, after the shutdown. *)
Lemma process_spawned_after_shutdown :
  let c := start (init_controller true "ws://h:80/audio" "ws://h:80/text"
                    (Some (new_queue 0)) (Some (new_queue 0)) false false 8080) in
  let p := {| proc_name := "ffplay"; returncode := None; stdin_closing := false;
              on_terminate := Ok tt; on_kill := Ok tt |} in
  let env := {| ae_now := 100; ae_sleep := Woke; ae_lag := 0;
                ae_connect := Ok {| ws_id := 0; close_code := None |};
                ae_shutdown_in_connect := true; ae_send := Ok tt;
                ae_spawn_ffplay := Ok p; ae_spawn_ffmpeg := Ok p;
                ae_frames := [{| fe_shutdown := false; fe_exits := [];
                                 fe_recv := Ok (PBytes []); fe_ping := Ok tt;
                                 fe_write_ffplay := Ok tt; fe_write_ffmpeg := Ok tt |}];
                ae_ws_closed := false |} in
  app_running c = true /\
  ~ no_spawn_after_shutdown (trace (_play_audio_stream false [env] 0 c)).
Proof.
  cbv zeta. split; [reflexivity|].
  match goal with |- ~ no_spawn_after_shutdown (trace ?x) =>
    assert (E : trace x =
      [EvConnect "ws://h:80/audio" 100; EvShutdown; EvWsSend 0 fallback_request;
       EvSpawn 0 "ffplay"; EvStdinClose 0; EvTerminate 0; EvWsClose 0])
      by (vm_compute; reflexivity);
    rewrite E
  end.
  intros H. specialize (H 1%nat 3%nat 0%nat "ffplay" eq_refl eq_refl). lia.
Qed.

(** C9, amended. Once the flag is cleared, no operation of the run sets
    it again; the supervisor starts no task: its monitoring loop only
    leaves; a channel loop that tests the flag exits without connecting
    and without starting a process, at its loop test and after a
    reconnection delay during which the flag was cleared. Nothing is
    said of an attempt that is already connecting when the flag is
    cleared. *)
Theorem shutdown_is_one_way (c : controller) :
  app_running c = false ->
  (forall ops, app_running (run_ops ops c) = false) /\
  (forall rp name outcome, snd (fst (fst (supervise_task rp name outcome c))) = None) /\
  (forall sh rp done tasks, main_async_iteration sh rp done tasks c = (tasks, c, Break)) /\
  (forall envs last, _handle_text_websocket envs last c = set_text_ws_for_commands None c) /\
  (forall win32 envs last,
     _play_audio_stream win32 envs last c = audio_final_cleanup c /\
     extends_with housekeeping (trace c) (trace (_play_audio_stream win32 envs last c))) /\
  (forall c0 env last,
     te_sleep env = WokeAfterShutdown ->
     reconnect_sleep (te_now env) last <> None ->
     snd (text_ws_attempt env last c0) = Break /\
     extends_with housekeeping (trace c0) (trace (fst (fst (text_ws_attempt env last c0))))) /\
  (forall win32 c0 env last,
     ae_sleep env = WokeAfterShutdown ->
     reconnect_sleep (ae_now env) last <> None ->
     snd (audio_attempt win32 env last c0) = LeaveLoop /\
     extends_with housekeeping (trace c0)
       (trace (fst (fst (audio_attempt win32 env last c0))))).
Proof.
  intros H.
  split; [intros ops; apply flag_down_run_ops, H|].
  split; [intros rp name outcome; apply supervise_task_after_shutdown, H|].
  split; [intros; apply main_async_iteration_after_shutdown, H|].
  split; [intros envs last; destruct envs; cbn [_handle_text_websocket]; rewrite H; reflexivity|].
  split.
  { intros win32 envs last.
    assert (E : _play_audio_stream win32 envs last c = audio_final_cleanup c)
      by (destruct envs; cbn [_play_audio_stream]; rewrite H; reflexivity).
    rewrite E. split; [reflexivity|apply audio_final_cleanup_ext]. }
  split.
  - intros c0 env last Hs Hd. apply text_ws_attempt_after_shutdown. right. split; assumption.
  - intros win32 c0 env last Hs Hd. apply audio_attempt_after_shutdown.
    right. split; assumption.
Qed.

Lemma shutdown_is_one_way_example :
  let c0 := start (init_controller true "ws://h:80/audio" "ws://h:80/text"
                     (Some (new_queue 0)) (Some (new_queue 0)) true false 8080) in
  let c := stop true c0 in
  let env := {| te_now := 101; te_sleep := WokeAfterShutdown; te_lag := 0;
                te_connect := Ok {| ws_id := 0; close_code := None |};
                te_shutdown_in_connect := false; te_messages := []; te_end := None;
                te_ws_closed := false; te_close := Ok tt |} in
  app_running c = false /\
  app_running (run_ops [OpTextAttempt env 100;
                        OpSupervise false false [(TxtWS, TaskFailed (OSError "reset"))] [TxtWS];
                        OpThreadStep] c) = false /\
  snd (fst (fst (supervise_task false TxtWS (TaskFailed (OSError "reset")) c))) = None /\
  snd (text_ws_attempt env 100 c0) = Break.
Proof.
  cbv zeta.
  match goal with |- app_running ?c = false /\ _ =>
    assert (H : app_running c = false) by (vm_compute; reflexivity);
    destruct (shutdown_is_one_way c H) as (H1 & H2 & _ & _ & _ & H6 & _)
  end.
  split; [exact H|]. split; [apply H1|]. split; [apply H2|].
  apply H6; [reflexivity|vm_compute; discriminate].
Defined.

(** ** A missing executable (C7) *)

(** C7, as stated, fails: in restream-only mode with streaming enabled,
    when ffmpeg is not found the audio channel puts an error update and
    no stream-status update. *)
Lemma ffmpeg_missing_no_stream_status :
  let c := start (init_controller true "ws://h:80/audio" "ws://h:80/text"
                    (Some (new_queue 0)) (Some (new_queue 0)) true true 8080) in
  let p := {| proc_name := "ffmpeg"; returncode := None; stdin_closing := false;
              on_terminate := Ok tt; on_kill := Ok tt |} in
  let env := {| ae_now := 100; ae_sleep := Woke; ae_lag := 0;
                ae_connect := Ok {| ws_id := 0; close_code := None |};
                ae_shutdown_in_connect := false; ae_send := Ok tt;
                ae_spawn_ffplay := Ok p;
                ae_spawn_ffmpeg :=
                  Raise (FileNotFoundError "[Errno 2] No such file or directory: 'ffmpeg'");
                ae_frames := [{| fe_shutdown := false; fe_exits := [];
                                 fe_recv := Ok (PBytes ["x"%byte]); fe_ping := Ok tt;
                                 fe_write_ffplay := Ok tt; fe_write_ffmpeg := Ok tt |}];
                ae_ws_closed := false |} in
  let c' := fst (fst (audio_attempt false env 0 c)) in
  is_restream_only c = true /\ stream_enabled c = true /\
  updates_of_type "error" (updates c') = [PStr "'ffmpeg' not found. Cannot stream."] /\
  ~ (updates_of_type "stream_status" (updates c') <> [] /\
     updates_of_type "error" (updates c') <> []).
Proof.
  cbv zeta. split; [reflexivity|]. split; [reflexivity|].
  split; [vm_compute; reflexivity|].
  intros [H _]. apply H. vm_compute. reflexivity.
Qed.

(** C7, amended. When ffmpeg is not found while streaming is enabled,
    the audio channel puts the status update of the start and the error
    update "'ffmpeg' not found. Cannot stream." (no stream-status
    update), disables streaming, leaves the running flag as it is and
    goes on: in restream-only mode the session continues with the
    receive loop. When ffplay is not found outside restream-only mode,
    the channel puts a fatal error update, clears the running flag and
    returns. *)
Theorem missing_executable_handling (win32 : bool) (c : controller) (m : string) :
  (stream_enabled c = true ->
   let r := start_ffmpeg (Raise (FileNotFoundError m)) c in
   snd r = Proceed /\
   stream_enabled (fst r) = false /\
   app_running (fst r) = app_running c /\
   trace (fst r) = trace c /\
   update_queue (fst r) =
     enqueue_update
       (enqueue_update (update_queue c) ("status", PStr "Starting AAC encoder (ffmpeg)..."))
       ("error", PStr "'ffmpeg' not found. Cannot stream.")) /\
  (stream_enabled c = true -> is_restream_only c = true ->
   forall env ws,
     ae_send env = Ok tt -> ae_spawn_ffmpeg env = Raise (FileNotFoundError m) ->
     exists c3,
       audio_session win32 env ws c = receive_and_pipe_loop win32 (ae_frames env) c3 /\
       stream_enabled c3 = false /\ app_running c3 = app_running c /\
       trace c3 = trace c ++ [EvWsSend (ws_id ws) fallback_request]) /\
  (is_restream_only c = false ->
   let r := start_ffplay (Raise (FileNotFoundError m)) c in
   snd r = ReturnTask /\
   app_running (fst r) = false /\
   update_queue (fst r) =
     enqueue_update
       (enqueue_update (update_queue c) ("status", PStr "Starting audio player (ffplay)..."))
       ("error", PStr "Fatal: 'ffplay' command not found. Playback disabled.")).
Proof.
  split; [|split].
  - intros Hs. cbv zeta. unfold start_ffmpeg. cbv zeta.
    change (stream_enabled (set_ffmpeg_proc None c)) with (stream_enabled c). rewrite Hs.
    unfold _kill_ffmpeg. cbn [snd fst]. repeat split.
  - intros Hs Hr env ws Hsend Hspawn. unfold audio_session. rewrite Hsend, Hspawn.
    unfold start_ffplay. cbv zeta.
    change (is_restream_only (set_ffplay_proc None _)) with (is_restream_only c). rewrite Hr.
    unfold start_ffmpeg. cbv zeta.
    change (stream_enabled (set_ffmpeg_proc None _)) with (stream_enabled c). rewrite Hs.
    unfold _kill_ffmpeg. eexists. split; [reflexivity|]. repeat split.
  - intros Hr. cbv zeta. unfold start_ffplay. cbv zeta.
    change (is_restream_only (set_ffplay_proc None c)) with (is_restream_only c). rewrite Hr.
    unfold _kill_ffplay. cbn [snd fst]. split; [reflexivity|].
    split; [apply app_running_clear_running|].
    unfold clear_running. cbn [_kill_process ffplay_proc set_ffplay_proc put_update
      set_update_queue app_running].
    destruct (app_running c); reflexivity.
Qed.

Lemma missing_executable_example :
  let c := start (init_controller true "ws://h:80/audio" "ws://h:80/text"
                    (Some (new_queue 0)) (Some (new_queue 0)) true true 8080) in
  let c' := start (init_controller true "ws://h:80/audio" "ws://h:80/text"
                     (Some (new_queue 0)) (Some (new_queue 0)) false false 8080) in
  (stream_enabled (fst (start_ffmpeg (Raise (FileNotFoundError "ffmpeg")) c)) = false /\
   app_running (fst (start_ffmpeg (Raise (FileNotFoundError "ffmpeg")) c)) = true) /\
  (snd (start_ffplay (Raise (FileNotFoundError "ffplay")) c') = ReturnTask /\
   app_running (fst (start_ffplay (Raise (FileNotFoundError "ffplay")) c')) = false).
Proof.
  cbv zeta. split.
  - match goal with |- stream_enabled (fst (start_ffmpeg _ ?c)) = _ /\ _ =>
      destruct (proj1 (missing_executable_handling false c "ffmpeg") eq_refl)
        as (_ & H2 & H3 & _)
    end.
    split; [exact H2|exact H3].
  - match goal with |- snd (start_ffplay _ ?c) = _ /\ _ =>
      destruct (proj2 (proj2 (missing_executable_handling false c "ffplay")) eq_refl)
        as (H1 & H2 & _)
    end.
    split; [exact H1|exact H2].
Defined.

(** ** Termination of the media processes (C8) *)

(** C8, evaluated: ffplay runs and does not exit when it receives
    SIGTERM. [stop()] closes its stdin and sends SIGTERM, through the
    cleanup of the controller thread when the join succeeds and by
    itself when the join times out; it never sends SIGKILL, and the
    process is still running when [stop()] has returned. A second call
    of [stop()] finds the reference cleared and does nothing to the
    process. *)
Theorem stop_never_force_kills :
  let p := {| proc_name := "ffplay"; returncode := None; stdin_closing := false;
              on_terminate := Ok tt; on_kill := Ok tt |} in
  let c := set_procs (<[0%nat := p]> ∅)
             (set_ffplay_proc (Some 0%nat)
                (start (init_controller true "ws://h:80/audio" "ws://h:80/text"
                          (Some (new_queue 0)) (Some (new_queue 0)) false false 8080))) in
  forall joined again : bool,
    let c' := stop joined c in
    trace c' = [EvShutdown; EvStdinClose 0; EvTerminate 0] /\
    killed (trace c') = [] /\
    alive 0 c' /\
    ffplay_proc c' = None /\
    new_events c' (stop again c') = [] /\
    alive 0 (stop again c').
Proof.
  cbv zeta. intros joined again.
  split; [destruct joined; vm_compute; reflexivity|].
  split; [destruct joined; vm_compute; reflexivity|].
  split; [destruct joined; eexists; split; vm_compute; reflexivity|].
  split; [destruct joined; vm_compute; reflexivity|].
  split; [destruct joined, again; vm_compute; reflexivity|].
  destruct joined, again; eexists; split; vm_compute; reflexivity.
Qed.

(** * Further properties of the controller *)

(** ** [stop()] and the end of the controller thread *)

Lemma kill_process_None (c : controller) : _kill_process None c = c.
Proof. reflexivity. Qed.

Lemma stop_clears (joined : bool) (c : controller) :
  app_running (stop joined c) = false /\ ffplay_proc (stop joined c) = None /\
  ffmpeg_proc (stop joined c) = None /\ thread (stop joined c) = false.
Proof.
  split; [|split; [|split; [reflexivity|]]];
    [|unfold stop, _kill_ffmpeg, _kill_ffplay; kill_frame; reflexivity..].
  destruct (app_running c) eqn:H; [|exact (proj1 (stop_after_shutdown joined c H))].
  unfold stop. rewrite H.
  transitivity (app_running (_kill_ffmpeg (_kill_ffplay
    (let ca := clear_running c in
     let cb := match command_queue ca with
               | Some q => match put_nowait_with QueueFull q PNone with
                           | Ok q' => set_command_queue (Some q') ca
                           | Raise _ => ca
                           end
               | None => ca
               end in
     let cc := match loop cb with
               | Some l => if is_running l
                           then set_loop (Some {| is_running := true; stop_requested := true |}) cb
                           else cb
               | None => cb
               end in
     if thread cc && thread_alive cc
     then (if joined then controller_thread_step cc else cc) else cc))));
    [destruct (_kill_ffmpeg _); reflexivity|].
  rewrite app_running_kill_ffmpeg, app_running_kill_ffplay. cbv zeta.
  assert (Hc : forall x, app_running x = false ->
     app_running (match loop x with
                  | Some l => if is_running l
                              then set_loop (Some {| is_running := true; stop_requested := true |}) x
                              else x
                  | None => x
                  end) = false).
  { intros x Hx. destruct (loop x) as [l|]; [destruct (is_running l)|]; exact Hx. }
  assert (Hb : app_running (match command_queue (clear_running c) with
               | Some q => match put_nowait_with QueueFull q PNone with
                           | Ok q' => set_command_queue (Some q') (clear_running c)
                           | Raise _ => clear_running c
                           end
               | None => clear_running c
               end) = false).
  { destruct (command_queue (clear_running c)) as [q|];
      [destruct (put_nowait_with QueueFull q PNone)|]; apply app_running_clear_running. }
  specialize (Hc _ Hb).
  match goal with |- app_running (if ?b then _ else ?x) = false => destruct b end;
    [destruct joined; [rewrite app_running_controller_thread_step|]|]; exact Hc.
Qed.

(** A state whose process references and thread reference are already
    cleared is left as it is by the last statements of [stop()]. *)
Lemma clear_references_idle (c : controller) :
  ffplay_proc c = None -> ffmpeg_proc c = None -> thread c = false ->
  set_thread false (_kill_ffmpeg (_kill_ffplay c)) = c.
Proof.
  intros H1 H2 H3. unfold _kill_ffmpeg, _kill_ffplay. rewrite H1. rewrite kill_process_None.
  change (ffmpeg_proc (set_ffplay_proc None c)) with (ffmpeg_proc c). rewrite H2.
  rewrite kill_process_None. destruct c. cbn in *. subst. reflexivity.
Qed.

(** A second call of [stop()] changes nothing: no signal, no update,
    no request to the loop. *)
Theorem stop_idempotent (joined again : bool) (c : controller) :
  stop again (stop joined c) = stop joined c.
Proof.
  destruct (stop_clears joined c) as (Hr & Hp & Hm & Ht).
  unfold stop at 1. rewrite Hr. apply clear_references_idle; assumption.
Qed.









(** ** SIGKILL is a fallback of a failed [terminate()] *)

Lemma killed_quiet (evs : list event) : Forall not_kill evs -> killed evs = [].
Proof.
  induction 1 as [|ev evs Hev _ IH]; [reflexivity|].
  destruct ev; try exact IH. destruct Hev.
Qed.

Lemma lookup_update_proc (h j : nat) (f : process -> process) (c : controller) :
  procs (update_proc h f c) !! j = if decide (h = j) then f <$> procs c !! h else procs c !! j.
Proof. unfold update_proc. proj_simpl. apply lookup_alter. Qed.

(** [_kill_process] sends SIGKILL only to a process whose [terminate()]
    raised; it changes no process but by closing its stdin. *)
Lemma kill_process_no_sigkill (proc : option nat) (c : controller) :
  all_sigterm_accepted c ->
  extends_with not_kill (trace c) (trace (_kill_process proc c)) /\
  all_sigterm_accepted (_kill_process proc c).
Proof.
  intros Hall. unfold _kill_process.
  destruct proc as [h|]; [|split; [apply ext_refl|exact Hall]].
  destruct (procs c !! h) as [p|] eqn:Ep; [|split; [apply ext_refl|exact Hall]].
  destruct (returncode p); [split; [apply ext_refl|exact Hall]|].
  pose proof (Hall h p Ep) as Hp. unfold sigterm_accepted in Hp.
  assert (Hclose : forall j pj,
            procs (update_proc h close_stdin (log (EvStdinClose h) c)) !! j = Some pj ->
            sigterm_accepted pj).
  { intros j pj. rewrite lookup_update_proc. proj_simpl.
    destruct (decide (h = j)) as [<-|]; [|apply Hall].
    rewrite Ep. intros [= <-]. exact Hp. }
  destruct (stdin_closing p); destruct (on_terminate p) as [u|[]]; try destruct Hp;
    (split; [unfold update_proc; proj_simpl;
             repeat first [apply ext_refl | apply ext_snoc; [|exact I]]
            |proj_simpl; first [exact Hall | exact Hclose]]).
Qed.

Lemma kill_ffplay_no_sigkill (c : controller) :
  all_sigterm_accepted c ->
  extends_with not_kill (trace c) (trace (_kill_ffplay c)) /\
  all_sigterm_accepted (_kill_ffplay c).
Proof. intros H. exact (kill_process_no_sigkill (ffplay_proc c) c H). Qed.

Lemma kill_ffmpeg_no_sigkill (c : controller) :
  all_sigterm_accepted c ->
  extends_with not_kill (trace c) (trace (_kill_ffmpeg c)) /\
  all_sigterm_accepted (_kill_ffmpeg c).
Proof. intros H. exact (kill_process_no_sigkill (ffmpeg_proc c) c H). Qed.

Lemma stop_tail_no_sigkill (c : controller) :
  all_sigterm_accepted c ->
  extends_with not_kill (trace c) (trace (set_thread false (_kill_ffmpeg (_kill_ffplay c)))) /\
  all_sigterm_accepted (set_thread false (_kill_ffmpeg (_kill_ffplay c))).
Proof.
  intros H. destruct (kill_ffplay_no_sigkill c H) as [E1 H1].
  destruct (kill_ffmpeg_no_sigkill _ H1) as [E2 H2].
  split; [exact (ext_trans _ _ _ _ E1 E2)|exact H2].
Qed.

Lemma loop_thread_finally_no_sigkill (c : controller) :
  all_sigterm_accepted c ->
  extends_with not_kill (trace c) (trace (loop_thread_finally c)) /\
  all_sigterm_accepted (loop_thread_finally c).
Proof.
  intros H. unfold loop_thread_finally. cbv zeta.
  destruct (cancel_stream_tasks_frame c) as (_ & Ht & Hp & _). cbv zeta in Ht, Hp.
  set (c1 := set_loop None (set_text_ws_for_commands None (cancel_stream_tasks c))).
  assert (H0 : all_sigterm_accepted c1).
  { intros h p. change (procs c1) with (procs (cancel_stream_tasks c)). rewrite Hp. apply H. }
  rewrite <- Ht. change (trace (cancel_stream_tasks c)) with (trace c1). clearbody c1.
  destruct (kill_ffplay_no_sigkill c1 H0) as [E1 H1].
  destruct (kill_ffmpeg_no_sigkill _ H1) as [E2 H2].
  split; [exact (ext_trans _ _ _ _ E1 E2)|exact H2].
Qed.

Lemma controller_thread_step_no_sigkill (c : controller) :
  all_sigterm_accepted c ->
  extends_with not_kill (trace c) (trace (controller_thread_step c)) /\
  all_sigterm_accepted (controller_thread_step c).
Proof.
  intros H. unfold controller_thread_step.
  destruct (thread_alive c); [|split; [apply ext_refl|exact H]].
  destruct (loop c) as [l|]; [|split; [apply ext_refl|exact H]].
  destruct (stop_requested l); [|split; [apply ext_refl|exact H]].
  apply loop_thread_finally_no_sigkill, H.
Qed.

(** [stop()] sends SIGKILL to no process, as long as [terminate()]
    returns or finds the process gone: whatever state the processes are
    in, and whether the thread ends in time or not. *)
Theorem stop_sends_sigkill_only_after_failed_terminate (joined : bool) (c : controller) :
  all_sigterm_accepted c -> killed (new_events c (stop joined c)) = [].
Proof.
  intros H.
  assert (E : extends_with not_kill (trace c) (trace (stop joined c))).
  { unfold stop.
    set (c1 := if app_running c then _ else c).
    assert (H1 : extends_with not_kill (trace c) (trace c1) /\ all_sigterm_accepted c1).
    { unfold c1. destruct (app_running c) eqn:Hr; [|split; [apply ext_refl|exact H]].
      cbv zeta. unfold clear_running. rewrite Hr.
      set (ca := log EvShutdown (set_app_running false c)).
      assert (Ha : extends_with not_kill (trace c) (trace ca) /\ all_sigterm_accepted ca).
      { split; [|exact H]. unfold ca. proj_simpl. apply ext_snoc; [apply ext_refl|exact I]. }
      clearbody ca.
      set (cb := match command_queue ca with
                 | Some q => match put_nowait_with QueueFull q PNone with
                             | Ok q' => set_command_queue (Some q') ca
                             | Raise _ => ca
                             end
                 | None => ca
                 end).
      assert (Hb : extends_with not_kill (trace c) (trace cb) /\ all_sigterm_accepted cb).
      { unfold cb. destruct (command_queue ca) as [q|];
          [destruct (put_nowait_with QueueFull q PNone)|]; exact Ha. }
      clearbody cb.
      set (cc := match loop cb with
                 | Some l => if is_running l
                             then set_loop (Some {| is_running := true; stop_requested := true |}) cb
                             else cb
                 | None => cb
                 end).
      assert (Hc : extends_with not_kill (trace c) (trace cc) /\ all_sigterm_accepted cc).
      { unfold cc. destruct (loop cb) as [l|]; [destruct (is_running l)|]; exact Hb. }
      clearbody cc.
      destruct (thread cc && thread_alive cc); [|exact Hc].
      destruct joined; [|exact Hc].
      destruct Hc as [Ec Hc]. destruct (controller_thread_step_no_sigkill cc Hc) as [Es Hs].
      split; [exact (ext_trans _ _ _ _ Ec Es)|exact Hs]. }
    clearbody c1. destruct H1 as [E1 H1].
    destruct (stop_tail_no_sigkill c1 H1) as [E2 _].
    exact (ext_trans _ _ _ _ E1 E2). }
  destruct E as (evs & Et & Hev). rewrite (new_events_app _ _ _ Et).
  apply killed_quiet, Hev.
Qed.

Lemma stop_sends_no_sigkill_example :
  let p := {| proc_name := "ffplay"; returncode := None; stdin_closing := false;
              on_terminate := Ok tt; on_kill := Ok tt |} in
  let c := set_procs (<[0%nat := p]> ∅)
             (set_ffplay_proc (Some 0%nat)
                (start (init_controller true "ws://h:80/audio" "ws://h:80/text"
                          (Some (new_queue 0)) (Some (new_queue 0)) false false 8080))) in
  killed (new_events c (stop false c)) = [].
Proof.
  cbv zeta. apply stop_sends_sigkill_only_after_failed_terminate.
  intros h p. proj_simpl. rewrite lookup_insert.
  destruct (decide (0%nat = h)); [intros [= <-]; exact I|].
  rewrite lookup_empty. discriminate.
Defined.

(** ** No write to a process after its stdin was closed *)

Section ClosedPipe.
Variable h : nat.

Lemma kc_refl (c : controller) : stdin_closed h c -> keeps_closed h c c.
Proof. intros H. split; [apply ext_refl|exact H]. Qed.

Lemma kc_trans (a b c : controller) :
  keeps_closed h a b -> keeps_closed h b c -> keeps_closed h a c.
Proof. intros [E1 _] [E2 H2]. split; [exact (ext_trans _ _ _ _ E1 E2)|exact H2]. Qed.

Lemma kc_frame (a b c : controller) :
  trace c = trace b -> procs c = procs b -> keeps_closed h a b -> keeps_closed h a c.
Proof.
  intros Ht Hp [E (p & Hl & Hc)]. split; [rewrite Ht; exact E|].
  exists p. rewrite Hp. split; assumption.
Qed.

Lemma kc_log (a b : controller) (ev : event) :
  not_write_to h ev -> keeps_closed h a b -> keeps_closed h a (log ev b).
Proof.
  intros Hev [E Hc]. split; [|exact Hc].
  unfold log. proj_simpl. apply ext_snoc; assumption.
Qed.

Lemma kc_update_proc (a b : controller) (h' : nat) (f : process -> process) :
  (forall p, stdin_closing p = true -> stdin_closing (f p) = true) ->
  keeps_closed h a b -> keeps_closed h a (update_proc h' f b).
Proof.
  intros Hf [E (p & Hl & Hc)]. split; [exact E|].
  unfold stdin_closed. rewrite lookup_update_proc.
  destruct (decide (h' = h)) as [->|]; [|exists p; split; assumption].
  rewrite Hl. exists (f p). split; [reflexivity|apply Hf, Hc].
Qed.

Lemma kc_kill_process (proc : option nat) (c : controller) :
  stdin_closed h c -> keeps_closed h c (_kill_process proc c).
Proof.
  intros H. pose proof (kc_refl c H) as H0. unfold _kill_process.
  destruct proc as [h'|]; [|exact H0].
  destruct (procs c !! h') as [p|]; [|exact H0].
  destruct (returncode p); [exact H0|].
  assert (H1 : keeps_closed h c
                 (if stdin_closing p then c
                  else update_proc h' close_stdin (log (EvStdinClose h') c))).
  { destruct (stdin_closing p); [exact H0|].
    apply kc_update_proc; [reflexivity|]. apply kc_log; [exact I|exact H0]. }
  cbv zeta.
  set (c1 := if stdin_closing p then c else _) in *. clearbody c1.
  assert (H2 : keeps_closed h c (log (EvTerminate h') c1)) by (apply kc_log; [exact I|exact H1]).
  destruct (on_terminate p) as [|[]]; try exact H2; (apply kc_log; [exact I|exact H2]).
Qed.

Lemma kc_kill_ffplay (c : controller) : stdin_closed h c -> keeps_closed h c (_kill_ffplay c).
Proof.
  intros H. unfold _kill_ffplay.
  eapply kc_frame; [| |exact (kc_kill_process (ffplay_proc c) c H)]; reflexivity.
Qed.

Lemma kc_kill_ffmpeg (c : controller) : stdin_closed h c -> keeps_closed h c (_kill_ffmpeg c).
Proof.
  intros H. unfold _kill_ffmpeg.
  eapply kc_frame; [| |exact (kc_kill_process (ffmpeg_proc c) c H)]; reflexivity.
Qed.

Lemma kc_closed (a b : controller) : keeps_closed h a b -> stdin_closed h b.
Proof. intros [_ H]. exact H. Qed.

Lemma kc_kill_media_processes (c : controller) :
  stdin_closed h c -> keeps_closed h c (kill_media_processes c).
Proof.
  intros H. unfold kill_media_processes. cbv zeta.
  assert (H1 : keeps_closed h c (if negb (is_restream_only c) then _kill_ffplay c else c))
    by (destruct (negb _); [apply kc_kill_ffplay, H|apply kc_refl, H]).
  set (c1 := if negb (is_restream_only c) then _ else _) in *. clearbody c1.
  destruct (stream_enabled c1); [|exact H1].
  eapply kc_trans; [exact H1|]. apply kc_kill_ffmpeg. exact (kc_closed _ _ H1).
Qed.

Lemma kc_audio_final_cleanup (c : controller) :
  stdin_closed h c -> keeps_closed h c (audio_final_cleanup c).
Proof.
  intros H. unfold audio_final_cleanup.
  assert (H1 : keeps_closed h c (if negb (is_restream_only c) then _kill_ffplay c else c))
    by (destruct (negb _); [apply kc_kill_ffplay, H|apply kc_refl, H]).
  set (c1 := if negb (is_restream_only c) then _ else _) in *. clearbody c1.
  eapply kc_trans; [exact H1|]. apply kc_kill_ffmpeg. exact (kc_closed _ _ H1).
Qed.

Lemma kc_put_update (a b : controller) (ty : string) (d : pyval) :
  keeps_closed h a b -> keeps_closed h a (put_update ty d b).
Proof. apply kc_frame; reflexivity. Qed.

Lemma kc_clear_running (c : controller) :
  stdin_closed h c -> keeps_closed h c (clear_running c).
Proof.
  intros H. unfold clear_running. destruct (app_running c); [|apply kc_refl, H].
  apply kc_log; [exact I|]. eapply kc_frame; [| |apply kc_refl, H]; reflexivity.
Qed.

Lemma kc_interference (b : bool) (c : controller) :
  stdin_closed h c -> keeps_closed h c (interference b c).
Proof. intros H. destruct b; [apply kc_clear_running, H|apply kc_refl, H]. Qed.

Lemma kc_reconnect_wait (now last : Q) (w : wake) (c c' : controller) :
  stdin_closed h c -> reconnect_wait now last w c = Some c' -> keeps_closed h c c'.
Proof.
  intros H. unfold reconnect_wait. destruct (reconnect_sleep now last) as [d|].
  - destruct w; intros [= <-].
    + apply kc_log; [exact I|apply kc_refl, H].
    + assert (H1 : keeps_closed h c (log (EvSleep d) c))
        by (apply kc_log; [exact I|apply kc_refl, H]).
      eapply kc_trans; [exact H1|]. apply kc_clear_running. exact (kc_closed _ _ H1).
  - intros [= <-]. apply kc_refl, H.
Qed.

(** A new process gets a handle that no process has: the closed pipe
    is another one. *)
Lemma kc_spawn_process (name : string) (p : process) (c : controller) :
  stdin_closed h c -> keeps_closed h c (snd (spawn_process name p c)).
Proof.
  intros (p0 & Hl & Hc). unfold spawn_process. cbn [snd].
  apply kc_log; [exact I|]. split; [apply ext_refl|].
  unfold stdin_closed. proj_simpl. exists p0. split; [|exact Hc].
  rewrite lookup_insert_ne; [exact Hl|].
  intros E. pose proof (is_fresh (dom (procs c))) as Hf. rewrite E in Hf.
  apply Hf, elem_of_dom. exists p0. exact Hl.
Qed.

End ClosedPipe.

Lemma kc_start_ffplay (h : nat) (spawn : result process) (c : controller) :
  stdin_closed h c -> keeps_closed h c (fst (start_ffplay spawn c)).
Proof.
  intros H. unfold start_ffplay. cbv zeta.
  change (is_restream_only (set_ffplay_proc None c)) with (is_restream_only c).
  destruct (is_restream_only c); [exact (kc_refl h _ H)|].
  set (c1 := put_update "status" (PStr "Starting audio player (ffplay)...")
               (set_ffplay_proc None c)).
  assert (H1 : keeps_closed h c (_kill_ffplay c1)).
  { eapply kc_trans with c1; [exact (kc_refl h _ H)|]. apply kc_kill_ffplay. exact H. }
  clearbody c1. set (c2 := _kill_ffplay c1) in *. clearbody c2.
  destruct spawn as [p|e].
  - pose proof (kc_spawn_process h "ffplay" p c2 (kc_closed h _ _ H1)) as H2.
    destruct (spawn_process "ffplay" p c2) as [h' c3]. cbn [snd fst] in *.
    eapply kc_frame; [| |exact (kc_trans h _ _ _ H1 H2)]; reflexivity.
  - destruct e; cbn [fst]; try exact H1;
      try (apply kc_log; [exact I|]; apply kc_put_update; exact H1).
    eapply kc_trans; [apply kc_put_update; exact H1|].
    apply kc_clear_running. exact (kc_closed h _ _ H1).
Qed.

Lemma kc_start_ffmpeg (h : nat) (spawn : result process) (c : controller) :
  stdin_closed h c -> keeps_closed h c (fst (start_ffmpeg spawn c)).
Proof.
  intros H. unfold start_ffmpeg. cbv zeta.
  change (stream_enabled (set_ffmpeg_proc None c)) with (stream_enabled c).
  destruct (stream_enabled c); [|exact (kc_refl h _ H)].
  set (c1 := put_update "status" (PStr "Starting AAC encoder (ffmpeg)...")
               (set_ffmpeg_proc None c)).
  assert (H1 : keeps_closed h c (_kill_ffmpeg c1)).
  { eapply kc_trans with c1; [exact (kc_refl h _ H)|]. apply kc_kill_ffmpeg. exact H. }
  clearbody c1. set (c2 := _kill_ffmpeg c1) in *. clearbody c2.
  destruct spawn as [p|e].
  - pose proof (kc_spawn_process h "ffmpeg" p c2 (kc_closed h _ _ H1)) as H2.
    destruct (spawn_process "ffmpeg" p c2) as [h' c3]. cbn [snd fst] in *.
    eapply kc_frame; [| |exact (kc_trans h _ _ _ H1 H2)]; reflexivity.
  - destruct e; cbn [fst]; try exact H1;
      (eapply kc_frame; [| |apply kc_put_update; exact H1]; reflexivity).
Qed.

Lemma kc_process_exits (h : nat) (exits : list (nat * Z)) (c : controller) :
  stdin_closed h c -> keeps_closed h c (process_exits exits c).
Proof.
  intros H. pose proof (kc_refl h c H) as H0. revert H0. generalize c at 2 4.
  unfold process_exits. induction exits as [|[h' rc] exits IH]; intros b Hb; [exact Hb|].
  cbn [fold_left]. apply IH. apply kc_update_proc; [|exact Hb]. intros p Hp. exact Hp.
Qed.

Lemma kc_check_process_status (h : nat) (win32 : bool) (c : controller) :
  stdin_closed h c -> keeps_closed h c (fst (check_process_status win32 c)).
Proof.
  intros H. pose proof (kc_refl h c H) as H0. unfold check_process_status. cbv zeta.
  destruct (if negb (is_restream_only c) then _ else _) as [rc|].
  - destruct (is_unexpected_exit _ _); cbn [fst];
      (eapply kc_frame; [| |exact H0]; reflexivity).
  - destruct (if stream_enabled c then _ else _) as [rc|]; [|exact H0].
    cbn [fst].
    match goal with |- keeps_closed h c (_kill_ffmpeg ?x) =>
      assert (Hx : keeps_closed h c x)
        by (destruct (is_unexpected_exit _ _); (eapply kc_frame; [| |exact H0]; reflexivity));
      set (y := x) in *; clearbody y
    end.
    eapply kc_trans; [exact Hx|]. apply kc_kill_ffmpeg. exact (kc_closed h _ _ Hx).
Qed.

(** The test before each write: a process whose stdin is closing is
    not written to. *)
Lemma writable_open (h h' : nat) (proc : option nat) (c : controller) :
  stdin_closed h c -> writable proc c = Some h' -> h' <> h.
Proof.
  intros (p & Hl & Hc). unfold writable. destruct proc as [h0|]; [|discriminate].
  destruct (procs c !! h0) as [p0|] eqn:E0; [|discriminate].
  destruct (stdin_closing p0) eqn:Ec; [discriminate|]. intros [= <-] ->. congruence.
Qed.

Lemma kc_pipe_to_ffplay (h : nat) (msg : list byte) (w : result unit) (c : controller) :
  stdin_closed h c -> keeps_closed h c (fst (pipe_to_ffplay msg w c)).
Proof.
  intros H. pose proof (kc_refl h c H) as H0. unfold pipe_to_ffplay.
  destruct (is_restream_only c); [exact H0|].
  destruct (writable (ffplay_proc c) c) as [h'|] eqn:Ew; [|exact H0].
  pose proof (writable_open h h' _ c H Ew) as Hne.
  assert (H1 : keeps_closed h c (log (EvStdinWrite h' msg) c)) by (apply kc_log; assumption).
  destruct w as [|e]; [exact H1|]. destruct (is_OSError e); [|exact H1].
  cbn [fst]. apply kc_log; [exact I|exact H1].
Qed.

Lemma kc_pipe_to_ffmpeg (h : nat) (msg : list byte) (w : result unit) (c : controller) :
  stdin_closed h c -> keeps_closed h c (fst (pipe_to_ffmpeg msg w c)).
Proof.
  intros H. pose proof (kc_refl h c H) as H0. unfold pipe_to_ffmpeg.
  destruct (stream_enabled c); [|exact H0].
  destruct (writable (ffmpeg_proc c) c) as [h'|] eqn:Ew; [|exact H0].
  pose proof (writable_open h h' _ c H Ew) as Hne.
  assert (H1 : keeps_closed h c (log (EvStdinWrite h' msg) c)) by (apply kc_log; assumption).
  destruct w as [|e]; [exact H1|]. destruct (is_OSError e); [|exact H1].
  cbn [fst].
  match goal with |- keeps_closed h c (set_ffmpeg_proc None (_kill_ffmpeg ?x)) =>
    assert (Hx : keeps_closed h c x) by (eapply kc_frame; [| |exact H1]; reflexivity);
    set (y := x) in *; clearbody y
  end.
  eapply kc_frame; [reflexivity|reflexivity|].
  eapply kc_trans; [exact Hx|]. apply kc_kill_ffmpeg. exact (kc_closed h _ _ Hx).
Qed.

Lemma kc_receive_and_pipe (h : nat) (env : frame_env) (c : controller) :
  stdin_closed h c -> keeps_closed h c (fst (receive_and_pipe env c)).
Proof.
  intros H. pose proof (kc_refl h c H) as H0. unfold receive_and_pipe.
  destruct (fe_recv env) as [v|e].
  - destruct v; try exact H0. destruct b as [|b0 b]; [exact H0|].
    pose proof (kc_pipe_to_ffplay h (b0 :: b) (fe_write_ffplay env) c H) as H1.
    destruct (pipe_to_ffplay (b0 :: b) (fe_write_ffplay env) c) as [c1 fl1]. cbn [fst] in H1.
    destruct fl1; try exact H1.
    + pose proof (kc_pipe_to_ffmpeg h (b0 :: b) (fe_write_ffmpeg env) c1 (kc_closed h _ _ H1))
        as H2.
      destruct (pipe_to_ffmpeg (b0 :: b) (fe_write_ffmpeg env) c1) as [c2 fl2]. cbn [fst] in H2.
      pose proof (kc_trans h _ _ _ H1 H2) as H12.
      destruct fl2; try exact H12.
      destruct e; cbn [fst]; try exact H12; apply kc_put_update; exact H12.
    + destruct e; cbn [fst]; try exact H1; apply kc_put_update; exact H1.
  - destruct e; cbn [fst]; try exact H0; try (apply kc_put_update; exact H0).
    destruct (fe_ping env) as [|e]; [apply kc_put_update; exact H0|].
    destruct e; cbn [fst]; repeat apply kc_put_update; exact H0.
Qed.

Lemma kc_receive_and_pipe_loop (h : nat) (win32 : bool) (frames : list frame_env) :
  forall c : controller,
    stdin_closed h c -> keeps_closed h c (fst (receive_and_pipe_loop win32 frames c)).
Proof.
  induction frames as [|env frames IH]; intros c H; cbn [receive_and_pipe_loop].
  - exact (kc_refl h c H).
  - assert (H0 : keeps_closed h c
                   (process_exits (fe_exits env) (interference (fe_shutdown env) c))).
    { eapply kc_trans; [apply kc_interference, H|].
      apply kc_process_exits. exact (kc_closed h _ _ (kc_interference h _ c H)). }
    set (c0 := process_exits (fe_exits env) (interference (fe_shutdown env) c)) in *.
    clearbody c0.
    destruct (app_running c0); [|exact H0].
    pose proof (kc_check_process_status h win32 c0 (kc_closed h _ _ H0)) as H1.
    destruct (check_process_status win32 c0) as [c1 ctl]. cbn [fst] in H1.
    pose proof (kc_trans h _ _ _ H0 H1) as H01.
    destruct ctl; [|exact H01].
    pose proof (kc_receive_and_pipe h env c1 (kc_closed h _ _ H1)) as H2.
    destruct (receive_and_pipe env c1) as [c2 fl]. cbn [fst] in H2.
    pose proof (kc_trans h _ _ _ H01 H2) as H012.
    destruct fl; try exact H012;
      (eapply kc_trans; [exact H012|apply IH; exact (kc_closed h _ _ H2)]).
Qed.

Lemma kc_audio_session (h : nat) (win32 : bool) (env : audio_env) (ws : websocket)
  (c : controller) :
  stdin_closed h c -> keeps_closed h c (fst (audio_session win32 env ws c)).
Proof.
  intros H. unfold audio_session. cbv zeta.
  set (c1 := log (EvWsSend (ws_id ws) fallback_request)
               (put_update "status" (PStr "Audio WS connected.") c)).
  assert (H1 : keeps_closed h c c1)
    by (apply kc_log; [exact I|]; apply kc_put_update; exact (kc_refl h c H)).
  clearbody c1.
  destruct (ae_send env); [|exact H1].
  pose proof (kc_start_ffplay h (ae_spawn_ffplay env) c1 (kc_closed h _ _ H1)) as H2.
  destruct (start_ffplay _ c1) as [c2 fl2]. cbn [fst] in H2.
  pose proof (kc_trans h _ _ _ H1 H2) as H12.
  destruct fl2; try exact H12.
  pose proof (kc_start_ffmpeg h (ae_spawn_ffmpeg env) c2 (kc_closed h _ _ H2)) as H3.
  destruct (start_ffmpeg _ c2) as [c3 fl3]. cbn [fst] in H3.
  pose proof (kc_trans h _ _ _ H12 H3) as H123.
  destruct fl3; try exact H123.
  eapply kc_trans; [exact H123|].
  apply kc_receive_and_pipe_loop. exact (kc_closed h _ _ H3).
Qed.

Lemma kc_audio_ws_handler (h : nat) (e : exn) (c : controller) :
  stdin_closed h c -> keeps_closed h c (fst (audio_ws_handler e c)).
Proof.
  intros H. pose proof (kc_refl h c H) as H0. unfold audio_ws_handler.
  destruct e; try destruct (is_OSError _); cbn [fst];
    try exact H0; try (apply kc_put_update; exact H0).
  eapply kc_trans; [apply kc_put_update; exact H0|]. apply kc_clear_running. exact H.
Qed.

Lemma kc_audio_ws_finally (h : nat) (ws : option websocket) (closed : bool) (c : controller) :
  stdin_closed h c -> keeps_closed h c (audio_ws_finally ws closed c).
Proof.
  intros H. unfold audio_ws_finally. cbv zeta.
  pose proof (kc_kill_media_processes h c H) as H1.
  set (c1 := kill_media_processes c) in *. clearbody c1.
  assert (H2 : keeps_closed h c
                 (match ws with
                  | Some ws0 => if closed then c1 else log (EvWsClose (ws_id ws0)) c1
                  | None => c1
                  end)).
  { destruct ws as [ws0|]; [destruct closed|]; try exact H1. apply kc_log; [exact I|exact H1]. }
  set (c2 := match ws with Some _ => _ | None => _ end) in *. clearbody c2.
  destruct (app_running c2); [|exact H2].
  apply kc_log; [exact I|]. apply kc_put_update. exact H2.
Qed.

Lemma kc_audio_attempt (h : nat) (win32 : bool) (env : audio_env) (last : Q) (c : controller) :
  stdin_closed h c -> keeps_closed h c (fst (fst (audio_attempt win32 env last c))).
Proof.
  intros H. unfold audio_attempt. cbv zeta.
  pose proof (kc_kill_media_processes h c H) as H0.
  set (c0 := kill_media_processes c) in *. clearbody c0.
  destruct (reconnect_wait _ _ _ c0) as [c1|] eqn:Ew.
  - pose proof (kc_trans h _ _ _ H0 (kc_reconnect_wait h _ _ _ _ _ (kc_closed h _ _ H0) Ew))
      as H1.
    clear Ew. destruct (negb (app_running c1)).
    { cbn [fst]. eapply kc_trans; [exact H1|].
      apply kc_audio_ws_finally. exact (kc_closed h _ _ H1). }
    set (c2 := log (EvConnect (audio_uri c1) (clock_after_wait (ae_now env) (ae_lag env) c0 c1))
                 (put_update "status" (PStr "Connecting Audio WS...") c1)).
    assert (H2 : keeps_closed h c c2)
      by (apply kc_log; [exact I|]; apply kc_put_update; exact H1).
    clearbody c2.
    pose proof (kc_trans h _ _ _ H2
                  (kc_interference h (ae_shutdown_in_connect env) c2 (kc_closed h _ _ H2)))
      as H3.
    set (c3 := interference (ae_shutdown_in_connect env) c2) in *. clearbody c3.
    destruct (ae_connect env) as [ws|e].
    + pose proof (kc_trans h _ _ _ H3
                    (kc_audio_session h win32 env ws c3 (kc_closed h _ _ H3))) as H4.
      destruct (audio_session win32 env ws c3) as [c4 fl]. cbn [fst] in H4.
      destruct fl; cbn [fst]; try exact H4;
        try (eapply kc_trans; [exact H4|];
             apply kc_audio_ws_finally; exact (kc_closed h _ _ H4)).
      pose proof (kc_trans h _ _ _ H4
                    (kc_audio_ws_handler h e c4 (kc_closed h _ _ H4))) as H5.
      destruct (audio_ws_handler e c4) as [c5 fl5]. cbn [fst] in *.
      eapply kc_trans; [exact H5|].
      apply kc_audio_ws_finally. exact (kc_closed h _ _ H5).
    + pose proof (kc_trans h _ _ _ H3
                    (kc_audio_ws_handler h e c3 (kc_closed h _ _ H3))) as H5.
      destruct (audio_ws_handler e c3) as [c5 fl5]. cbn [fst] in *.
      eapply kc_trans; [exact H5|].
      apply kc_audio_ws_finally. exact (kc_closed h _ _ H5).
  - cbn [audio_ws_handler fst]. eapply kc_trans; [exact H0|].
    apply kc_audio_ws_finally. exact (kc_closed h _ _ H0).
Qed.

Lemma kc_play_audio_stream (h : nat) (win32 : bool) (envs : list audio_env) :
  forall (last : Q) (c : controller),
    stdin_closed h c -> keeps_closed h c (_play_audio_stream win32 envs last c).
Proof.
  induction envs as [|env envs IH]; intros last c H.
  - rewrite play_audio_stream_nil.
    destruct (app_running c); [exact (kc_refl h c H)|apply kc_audio_final_cleanup, H].
  - rewrite play_audio_stream_cons.
    destruct (app_running c); [|apply kc_audio_final_cleanup, H].
    pose proof (kc_audio_attempt h win32 env last c H) as H1.
    destruct (audio_attempt win32 env last c) as [[c' last'] fl]. cbn [fst] in H1.
    destruct fl; try exact H1.
    + eapply kc_trans; [exact H1|]. apply IH. exact (kc_closed h _ _ H1).
    + eapply kc_trans; [exact H1|]. apply kc_audio_final_cleanup. exact (kc_closed h _ _ H1).
Qed.

Lemma written_to_quiet (h : nat) (evs : list event) :
  Forall (not_write_to h) evs -> written_to h evs = [].
Proof.
  induction 1 as [|ev evs Hev _ IH]; [reflexivity|].
  destruct ev; try exact IH. cbn in Hev.
  change (written_to h (EvStdinWrite h0 data :: evs))
    with (match (if Nat.eqb h h0 then Some data else None) with
          | Some d => d :: written_to h evs
          | None => written_to h evs
          end).
  destruct (Nat.eqb_spec h h0) as [->|]; [contradiction|]. exact IH.
Qed.

(** Once the termination routine has closed the stdin of a process, the
    audio channel never writes to that process again, whatever happens
    on the connection and to the processes: every write is preceded by
    the test that the stdin of the referenced process is not closing,
    and a new process is another one. *)
Theorem no_write_after_stdin_closed (win32 : bool) (envs : list audio_env) (last : Q)
  (c : controller) (h : nat) :
  alive h c ->
  let c1 := _kill_process (Some h) c in
  stdin_closed h c1 /\
  written_to h (new_events c1 (_play_audio_stream win32 envs last c1)) = [].
Proof.
  intros (p & Hl & Hrc). cbv zeta.
  assert (Hc : stdin_closed h (_kill_process (Some h) c)).
  { unfold _kill_process. rewrite Hl, Hrc.
    destruct (stdin_closing p) eqn:Ec.
    - exists p. destruct (on_terminate p) as [|[]]; split; assumption.
    - exists (close_stdin p).
      destruct (on_terminate p) as [|[]]; proj_simpl;
        (split; [rewrite lookup_update_proc; proj_simpl;
                 destruct (decide (h = h)); [rewrite Hl; reflexivity|congruence]
                |reflexivity]). }
  split; [exact Hc|].
  destruct (kc_play_audio_stream h win32 envs last _ Hc) as [(evs & Et & Hev) _].
  rewrite (new_events_app _ _ _ Et). apply written_to_quiet, Hev.
Qed.

(** ** The supervisor *)

(** The supervisor starts a task again only under its own name, only
    one of the two channel tasks or the relay, only after it failed with
    an error that is not fatal and while the flag is set; the relay only
    while streaming is enabled. A task that returned or was cancelled is
    never started again. The supervisor breaks out of the loop over the
    finished tasks only after it has cleared the flag. *)
Theorem supervisor_restart_policy (relay_pending : bool) (name : task_name)
  (outcome : task_outcome) (c : controller) :
  let '(c', restart, discard, ctl) := supervise_task relay_pending name outcome c in
  (forall n, restart = Some n ->
     n = name /\ (n = TxtWS \/ n = AudWS \/ n = AACRelay) /\
     (exists exc, outcome = TaskFailed exc /\ is_fatal name exc c = false) /\
     app_running c = true /\ app_running c' = true /\
     (n = AACRelay -> stream_enabled c' = true)) /\
  (ctl = Break -> app_running c' = false /\ restart = None) /\
  (forall n, discard = Some n -> n = AACRelay /\ name = StreamSrv /\ stream_enabled c' = false).
Proof.
  unfold supervise_task. destruct outcome as [| |exc].
  1,2: (split; [intros n [=]|split; [intros [=]|intros n [=]]]).
  destruct (task_name_eqb name StreamSrv && is_OSError exc
            && contains "Address already in use" (exn_str exc)) eqn:Eport.
  - split; [intros n [=]|]. split; [intros [=]|].
    intros n Hn. destruct relay_pending; [|discriminate]. injection Hn as <-.
    split; [reflexivity|]. split; [|reflexivity].
    apply andb_prop in Eport as [Eport _]. apply andb_prop in Eport as [Eport _].
    destruct name; try discriminate. reflexivity.
  - destruct (is_fatal name exc c) eqn:Ef.
    + split; [intros n [=]|]. split; [|intros n [=]].
      intros _. split; [apply app_running_clear_running|reflexivity].
    + proj_simpl. destruct (app_running c) eqn:Er.
      * destruct name; try destruct (stream_enabled c) eqn:Es;
          (split; [intros n [=]; subst; repeat split; eauto; try (intros [=]); intros _; exact Es|]);
          (split; [intros [=]|intros n [=]]).
      * split; [intros n [=]|]. split; [intros [=]|intros n [=]].
Qed.

(** A failure of the stream server, whatever the exception, never stops
    the application: the flag is left as it is, the server is not
    started again, and while the flag is set streaming is disabled. *)
Theorem stream_server_failure_not_fatal (relay_pending : bool) (exc : exn) (c : controller) :
  let '(c', restart, discard, ctl) :=
    supervise_task relay_pending StreamSrv (TaskFailed exc) c in
  restart = None /\ ctl = Continue /\ app_running c' = app_running c /\
  (app_running c = true -> stream_enabled c' = false).
Proof.
  unfold supervise_task.
  assert (Hf : is_fatal StreamSrv exc c = false) by (destruct exc; reflexivity).
  rewrite Hf.
  destruct (task_name_eqb StreamSrv StreamSrv && is_OSError exc
            && contains "Address already in use" (exn_str exc)).
  - repeat split.
  - proj_simpl. destruct (app_running c) eqn:Er; repeat split; try assumption.
    intros [=].
Qed.

(** ** The command listener sends tune commands only *)

Lemma sent_frames_quiet (evs : list event) :
  Forall (fun ev => match ev with EvWsSend _ _ => False | _ => True end) evs ->
  sent_frames evs = [].
Proof.
  induction 1 as [|ev evs Hev _ IH]; [reflexivity|].
  destruct ev; try exact IH. destruct Hev.
Qed.

Lemma command_loop_handlers_trace (e : exn) (c : controller) :
  exists evs, trace (fst (command_loop_handlers (Raise e) c)) = trace c ++ evs /\
              sent_frames evs = [].
Proof.
  destruct e; cbn [command_loop_handlers fst]; proj_simpl;
    first [exists []; rewrite app_nil_r; split; reflexivity
          |eexists [_]; split; reflexivity].
Qed.

(** What one iteration of the command listener sends: nothing, or the
    command at the head of the queue, which is then a string that starts
    with "T", on the connection the controller holds, whose close code
    is unset. *)
Lemma commands_iteration_sends (send : result unit) (c : controller) :
  exists evs,
    trace (fst (handle_gui_commands_iteration send c)) = trace c ++ evs /\
    (sent_frames evs = [] \/
     exists ws q rest s,
       text_ws_for_commands c = Some ws /\ close_code ws = None /\
       command_queue c = Some q /\ items q = PStr s :: rest /\
       startswith s "T" = true /\ sent_frames evs = [(ws_id ws, s)]).
Proof.
  pose (P := fun evs : list event =>
          exists ws q rest s,
            text_ws_for_commands c = Some ws /\ close_code ws = None /\
            command_queue c = Some q /\ items q = PStr s :: rest /\
            startswith s "T" = true /\ sent_frames evs = [(ws_id ws, s)]).
  change (exists evs,
            trace (fst (handle_gui_commands_iteration send c)) = trace c ++ evs /\
            (sent_frames evs = [] \/ P evs)).
  assert (Hquiet : forall x : controller,
            (exists evs, trace x = trace c ++ evs /\ sent_frames evs = []) ->
            exists evs, trace x = trace c ++ evs /\ (sent_frames evs = [] \/ P evs)).
  { intros x (evs & E & Hs). exists evs. split; [exact E|left; exact Hs]. }
  assert (Hnil : forall x : controller, trace x = trace c ->
            exists evs, trace x = trace c ++ evs /\ sent_frames evs = []).
  { intros x E. exists []. rewrite app_nil_r. split; [exact E|reflexivity]. }
  assert (Hh : forall (e : exn) (c1 : controller),
            (exists evs, trace c1 = trace c ++ evs /\ sent_frames evs = []) ->
            exists evs, trace (fst (command_loop_handlers (Raise e) c1)) = trace c ++ evs /\
                        sent_frames evs = []).
  { intros e c1 (evs & E & Hs).
    destruct (command_loop_handlers_trace e c1) as (evs' & E' & Hs').
    exists (evs ++ evs'). rewrite E', E, app_assoc. split; [reflexivity|].
    rewrite sent_frames_app, Hs, Hs'. reflexivity. }
  unfold handle_gui_commands_iteration.
  destruct (command_queue c) as [q|] eqn:Eq; [|apply Hquiet, Hh, Hnil; reflexivity].
  unfold get_nowait_with.
  destruct (items q) as [|command rest] eqn:Ei; [apply Hquiet, Hh, Hnil; reflexivity|].
  cbv zeta.
  set (q1 := Build_pyqueue (maxsize q) rest (unfinished_tasks q)).
  set (c0 := set_command_queue (Some q1) c).
  assert (Ht0 : trace c0 = trace c) by reflexivity.
  assert (Hw0 : text_ws_for_commands c0 = text_ws_for_commands c) by reflexivity.
  clearbody c0 q1.
  assert (Hdone : forall c1 : controller,
            (exists evs, trace c1 = trace c ++ evs /\ sent_frames evs = []) ->
            exists evs,
              trace (fst (match task_done q1 with
                          | Ok q'' => (set_command_queue (Some q'') c1, Continue)
                          | Raise e => command_loop_handlers (Raise e) c1
                          end)) = trace c ++ evs /\ sent_frames evs = []).
  { intros c1 H1. destruct (task_done q1) as [q''|e]; [exact H1|apply Hh, H1]. }
  destruct command as [| | | |s| | |];
    try (apply Hquiet; destruct (app_running c0); apply Hnil; exact Ht0);
    try (apply Hquiet; unfold forward_command, py_startswith;
         destruct (text_ws_for_commands c0) as [ws|]; [destruct (close_code ws)|];
         first [apply Hdone, Hnil; exact Ht0 | apply Hh, Hnil; exact Ht0]; fail).
  unfold forward_command, py_startswith. rewrite Hw0.
  destruct (text_ws_for_commands c) as [ws|] eqn:Ews.
  2: { apply Hquiet. destruct (startswith s "T"); apply Hdone, Hnil; exact Ht0. }
  destruct (close_code ws) eqn:Ecc.
  { apply Hquiet. destruct (startswith s "T"); apply Hdone, Hnil; exact Ht0. }
  destruct (startswith s "T") eqn:Est; [|apply Hquiet, Hdone, Hnil; exact Ht0].
  cbv zeta.
  assert (Hsent : forall x : controller,
            (exists evs, trace x = trace c ++ EvWsSend (ws_id ws) s :: evs /\
                         sent_frames evs = []) ->
            exists evs, trace x = trace c ++ evs /\ (sent_frames evs = [] \/ P evs)).
  { intros x (evs & E & Hs). exists (EvWsSend (ws_id ws) s :: evs). split; [exact E|].
    right. exists ws, q, rest, s.
    split; [reflexivity|]. split; [exact Ecc|]. split; [reflexivity|].
    split; [exact Ei|]. split; [exact Est|].
    change (sent_frames (EvWsSend (ws_id ws) s :: evs))
      with ((ws_id ws, s) :: sent_frames evs). rewrite Hs. reflexivity. }
  assert (Hh1 : forall (e : exn) (c1 : controller),
            trace c1 = trace c ++ [EvWsSend (ws_id ws) s] ->
            exists evs, trace (fst (command_loop_handlers (Raise e) c1))
                        = trace c ++ EvWsSend (ws_id ws) s :: evs /\ sent_frames evs = []).
  { intros e c1 E. destruct (command_loop_handlers_trace e c1) as (evs' & E' & Hs').
    exists evs'. rewrite E', E, <- app_assoc. split; [reflexivity|exact Hs']. }
  assert (Hdone1 : forall c1 : controller,
            trace c1 = trace c ++ [EvWsSend (ws_id ws) s] ->
            exists evs,
              trace (fst (match task_done q1 with
                          | Ok q'' => (set_command_queue (Some q'') c1, Continue)
                          | Raise e => command_loop_handlers (Raise e) c1
                          end)) = trace c ++ EvWsSend (ws_id ws) s :: evs /\
              sent_frames evs = []).
  { intros c1 E. destruct (task_done q1) as [q''|e]; [|apply Hh1, E].
    exists []. split; [exact E|reflexivity]. }
  assert (Hlog : trace (log (EvWsSend (ws_id ws) s) c0) = trace c ++ [EvWsSend (ws_id ws) s])
    by (unfold log; proj_simpl; rewrite Ht0; reflexivity).
  apply Hsent.
  destruct send as [u|e].
  - destruct (PyInt.int_of_str (drop_first s)) as [k|e] eqn:Ek.
    + apply Hdone1. exact Hlog.
    + rewrite (int_of_str_raises _ _ Ek). unfold PyInt.invalid_literal.
      apply Hdone1. exact Hlog.
  - destruct e; try (apply Hdone1; exact Hlog).
    apply Hh1. exact Hlog.
Qed.

(** Nothing but a tune command is ever sent on the metadata connection:
    whatever the command listener sends in an iteration is the command at
    the head of the queue, a string that starts with "T", and it is sent
    on the connection the controller holds, whose close code is unset. *)
Theorem only_tune_commands_are_sent (send : result unit) (c : controller)
  (w : nat) (s : string) :
  In (w, s) (sent_frames (new_events c (fst (handle_gui_commands_iteration send c)))) ->
  exists ws q rest,
    text_ws_for_commands c = Some ws /\ ws_id ws = w /\ close_code ws = None /\
    command_queue c = Some q /\ items q = PStr s :: rest /\ startswith s "T" = true.
Proof.
  destruct (commands_iteration_sends send c) as (evs & E & [Hs|Hs]).
  - rewrite (new_events_app _ _ _ E), Hs. intros [].
  - destruct Hs as (ws & q & rest & s0 & H1 & H2 & H3 & H4 & H5 & H6).
    rewrite (new_events_app _ _ _ E), H6. intros [[= <- <-]|[]].
    exists ws, q, rest. repeat split; assumption.
Qed.

(** ** The metadata channel *)

Lemma text_ws_finally_reference (ws : option websocket) (closed : bool) (c : controller) :
  text_ws_for_commands (text_ws_finally ws closed c) = None.
Proof.
  unfold text_ws_finally. cbv zeta.
  destruct ws as [ws|]; [destruct closed|];
    match goal with |- context [if app_running ?x then _ else _] => destruct (app_running x) end;
    reflexivity.
Qed.

(** Every attempt of the metadata loop ends with the reference to the
    connection cleared, however it ends: between two attempts the command
    listener finds no connection to send on. *)
Theorem text_reference_cleared_after_attempt (env : text_env) (last : Q) (c : controller) :
  text_ws_for_commands (fst (fst (text_ws_attempt env last c))) = None /\
  ws_is_open (fst (fst (text_ws_attempt env last c))) = false.
Proof.
  assert (H : text_ws_for_commands (fst (fst (text_ws_attempt env last c))) = None).
  { unfold text_ws_attempt. cbv zeta.
    destruct (reconnect_wait _ _ _ _) as [c1|].
    - destruct (negb (app_running c1)); [apply text_ws_finally_reference|].
      destruct (te_connect env) as [ws|e].
      + destruct (text_receive_loop _ _) as [c5 broke].
        destruct (if broke then _ else _) as [c6 ctl].
        destruct (close_exception _ _ _); [reflexivity|apply text_ws_finally_reference].
      + destruct (text_ws_handler e _) as [c4 ctl]. apply text_ws_finally_reference.
    - destruct (text_ws_handler CancelledError _) as [c1 ctl].
      apply text_ws_finally_reference. }
  split; [exact H|]. unfold ws_is_open. rewrite H. reflexivity.
Qed.

Lemma unbounded_put_update (ty : string) (d : pyval) (c : controller) :
  unbounded_updates c ->
  unbounded_updates (put_update ty d c) /\
  updates (put_update ty d c) = updates c ++ [(ty, d)].
Proof.
  intros (q & Hq & Hm). split; [|exact (updates_put_update_unbounded ty d c q Hq Hm)].
  unfold unbounded_updates. proj_simpl. rewrite Hq.
  unfold enqueue_update, put_nowait_with, full.
  destruct (Z.ltb_spec 0 (maxsize q)); [lia|]. eexists. split; [reflexivity|exact Hm].
Qed.

Lemma updates_of_type_app (ty : string) (a b : list (string * pyval)) :
  updates_of_type ty (a ++ b) = updates_of_type ty a ++ updates_of_type ty b.
Proof. apply omap_app. Qed.

(** What one message adds to the update queue: the record first, when
    the message is valid JSON, whatever the record holds. *)
Lemma process_text_message_data (d : result pyval) (c : controller) :
  unbounded_updates c ->
  unbounded_updates (process_text_message d c) /\
  updates_of_type "data" (updates (process_text_message d c))
  = updates_of_type "data" (updates c)
    ++ match d with Ok v => [v] | Raise _ => [] end.
Proof.
  intros H. unfold process_text_message.
  assert (Hother : forall (ty : string) (v : pyval) (x : controller),
            unbounded_updates x -> String.eqb ty "data" = false ->
            unbounded_updates (put_update ty v x) /\
            updates_of_type "data" (updates (put_update ty v x))
            = updates_of_type "data" (updates x)).
  { intros ty v x Hx Hty. destruct (unbounded_put_update ty v x Hx) as [H1 H2].
    split; [exact H1|]. rewrite H2, updates_of_type_app.
    unfold updates_of_type at 2. cbn [omap list_omap fst snd]. rewrite Hty.
    apply app_nil_r. }
  destruct d as [v|e].
  - destruct (unbounded_put_update "data" v c H) as [H1 H2].
    assert (Hd : updates_of_type "data" (updates (put_update "data" v c))
                 = updates_of_type "data" (updates c) ++ [v]).
    { rewrite H2, updates_of_type_app. reflexivity. }
    set (c1 := put_update "data" v c) in *. clearbody c1.
    destruct (py_get v "freq") as [f|e].
    + destruct (mhz_to_khz f) as [[k|]|e].
      * destruct (Hother "current_freq" (PInt k) c1 H1 eq_refl) as [A B].
        split; [exact A|rewrite B; exact Hd].
      * split; [exact H1|exact Hd].
      * destruct (Hother "error" (PStr ("Processing text data failed: " ++ exn_str e))
                    c1 H1 eq_refl) as [A B].
        split; [exact A|rewrite B; exact Hd].
    + destruct (Hother "error" (PStr ("Processing text data failed: " ++ exn_str e))
                  c1 H1 eq_refl) as [A B].
      split; [exact A|rewrite B; exact Hd].
  - rewrite app_nil_r. destruct e; apply Hother; try exact H; reflexivity.
Qed.

(** No message ends the receive loop of the metadata channel: whatever
    the messages hold (invalid JSON, a value that is not an object, a
    frequency that does not parse), as long as the flag stays set the loop
    goes through all of them, starts nothing, and puts one "data" update
    per message that is valid JSON, in the order of arrival. *)
Theorem text_receive_loop_robust (msgs : list (bool * result pyval)) (c : controller) :
  unbounded_updates c -> app_running c = true ->
  Forall (fun m => fst m = false) msgs ->
  snd (text_receive_loop msgs c) = false /\
  app_running (fst (text_receive_loop msgs c)) = true /\
  trace (fst (text_receive_loop msgs c)) = trace c /\
  updates_of_type "data" (updates (fst (text_receive_loop msgs c)))
  = updates_of_type "data" (updates c) ++ decoded_records msgs.
Proof.
  revert c. induction msgs as [|[b d] msgs IH]; intros c Hu Hr Hm.
  - cbn [text_receive_loop fst snd]. unfold decoded_records. cbn [omap list_omap].
    rewrite app_nil_r. auto.
  - apply Forall_cons in Hm as [Hb Hm]. cbn [fst] in Hb. subst b.
    cbn [text_receive_loop interference]. rewrite Hr.
    destruct (process_text_message_data d c Hu) as [Hu1 Hd1].
    assert (Hr1 : app_running (process_text_message d c) = true)
      by (rewrite flag_down_process_text_message; exact Hr).
    destruct (IH (process_text_message d c) Hu1 Hr1 Hm) as (A & B & C & D).
    split; [exact A|]. split; [exact B|].
    split; [rewrite C; apply process_text_message_trace|].
    rewrite D, Hd1, <- app_assoc. f_equal.
    unfold decoded_records. cbn [omap list_omap snd]. destruct d; reflexivity.
Qed.

(** ** End of the relay, end of a client *)

Lemma sink_ok_full (q : client_queue) : sink_ok q -> full q = (10 <=? qsize q).
Proof. intros (Hm & _). unfold full. rewrite Hm. reflexivity. Qed.

Lemma make_room_not_full (n : nat) (q : client_queue) :
  full q = false -> make_room n q = Ok q.
Proof. intros H. destruct n; [reflexivity|]. cbn [make_room]. rewrite H. reflexivity. Qed.

Lemma make_room_full (q : client_queue) :
  sink_ok q -> full q = true ->
  exists x rest,
    items q = x :: rest /\
    make_room (length (items q)) q
    = Ok (Build_pyqueue (maxsize q) rest (unfinished_tasks q - 1)) /\
    full (Build_pyqueue (maxsize q) rest (unfinished_tasks q - 1)) = false.
Proof.
  intros Hq Ef. pose proof Hq as (Hm & Hs & Hu).
  pose proof Ef as Ef'. rewrite sink_ok_full in Ef' by exact Hq. apply Z.leb_le in Ef'.
  unfold qsize in Hs, Hu, Ef'.
  destruct (items q) as [|x rest] eqn:Ei; [cbn in Ef'; lia|].
  exists x, rest. split; [reflexivity|]. cbn [length] in *.
  assert (Hnf : full (Build_pyqueue (maxsize q) rest (unfinished_tasks q - 1)) = false).
  { unfold full, qsize. cbn [maxsize items]. rewrite Hm.
    destruct (Z.leb_spec 10 (Z.of_nat (length rest))); [lia|reflexivity]. }
  split; [|exact Hnf].
  cbn [make_room]. rewrite Ef. unfold get_nowait_with. rewrite Ei.
  unfold task_done. cbn [unfinished_tasks maxsize items].
  destruct (Z.leb_spec (unfinished_tasks q) 0) as [|_]; [lia|].
  apply make_room_not_full, Hnf.
Qed.

(** [signal_eof] on a queue as the relay and the client keep it: the
    oldest chunk makes room if the queue is full, and the end marker is
    the last item. *)
Lemma signal_eof_items (q : client_queue) :
  sink_ok q ->
  items (signal_eof q) = (if full q then tail (items q) else items q) ++ [None] /\
  sink_ok (signal_eof q).
Proof.
  intros Hq. pose proof Hq as (Hm & Hs & Hu). unfold signal_eof.
  destruct (full q) eqn:Ef.
  - destruct (make_room_full q Hq Ef) as (x & rest & Ei & Hmr & Hnf).
    rewrite Hmr. unfold put_nowait_with. rewrite Hnf. cbn [items]. rewrite Ei. cbn [tail].
    split; [reflexivity|].
    unfold qsize in Hs, Hu. rewrite Ei in Hs, Hu. cbn [length] in Hs, Hu.
    unfold sink_ok, qsize. cbn [maxsize items unfinished_tasks].
    rewrite length_app. cbn [length]. lia.
  - rewrite (make_room_not_full _ q Ef). unfold put_nowait_with. rewrite Ef. cbn [items].
    split; [reflexivity|].
    rewrite sink_ok_full in Ef by exact Hq. apply Z.leb_gt in Ef.
    unfold sink_ok, qsize in *. cbn [maxsize items unfinished_tasks].
    rewrite length_app. cbn [length]. lia.
Qed.

Lemma relay_cleanup_lookup (c : controller) (i : nat) :
  client_queues (relay_cleanup c) !! i
  = if decide (i ∈ aac_clients c) then signal_eof <$> client_queues c !! i
    else client_queues c !! i.
Proof.
  unfold relay_cleanup. proj_simpl.
  rewrite foldr_alter_lookup by apply NoDup_elements.
  destruct (decide (i ∈ elements (aac_clients c))) as [Hin|Hnin];
    destruct (decide (i ∈ aac_clients c)) as [Hin'|Hnin']; try reflexivity.
  - exfalso. apply Hnin'. apply elem_of_elements. exact Hin.
  - exfalso. apply Hnin. apply elem_of_elements. exact Hin'.
Qed.

(** When the relay ends, every connected client finds the end marker as
    the last item of its queue, after the chunks that were waiting: all
    of them, or all but the oldest when the queue was full. The queues of
    clients that have left are not touched. *)
Theorem relay_cleanup_signals_eof (c : controller) (i : nat) :
  (forall q, i ∈ aac_clients c -> client_queues c !! i = Some q -> sink_ok q ->
     exists q', client_queues (relay_cleanup c) !! i = Some q' /\
                items q' = (if full q then tail (items q) else items q) ++ [None] /\
                sink_ok q') /\
  (i ∉ aac_clients c -> client_queues (relay_cleanup c) !! i = client_queues c !! i).
Proof.
  split.
  - intros q Hin Hl Hq. rewrite relay_cleanup_lookup.
    destruct (decide (i ∈ aac_clients c)); [|contradiction].
    rewrite Hl. exists (signal_eof q). split; [reflexivity|].
    apply signal_eof_items, Hq.
  - intros Hnin. rewrite relay_cleanup_lookup.
    destruct (decide (i ∈ aac_clients c)); [contradiction|reflexivity].
Qed.

Lemma delivered_to_writes (i : nat) (l : list (list byte)) :
  delivered_to i (map (EvClientWrite i) l) = l.
Proof.
  induction l as [|x l IH]; [reflexivity|].
  change (delivered_to i (map (EvClientWrite i) (x :: l)))
    with (match (if Nat.eqb i i then Some x else None) with
          | Some d => d :: delivered_to i (map (EvClientWrite i) l)
          | None => delivered_to i (map (EvClientWrite i) l)
          end).
  rewrite Nat.eqb_refl, IH. reflexivity.
Qed.

Lemma client_loop_cons (i : nat) (w : result unit) (writes : list (result unit))
  (c : controller) :
  client_loop i (w :: writes) c =
  if app_running c then
    match client_iteration i w c with
    | (c', Continue) => client_loop i writes c'
    | (c', Break) => (c', true)
    end
  else (c, true).
Proof. reflexivity. Qed.

(** The client takes a chunk, writes it and marks it done. *)
Lemma client_iteration_chunk (i : nat) (c : controller) (q : client_queue)
  (x : list byte) (rest : list (option (list byte))) :
  client_queues c !! i = Some q -> items q = Some x :: rest -> 0 < unfinished_tasks q ->
  exists c',
    client_iteration i (Ok tt) c = (c', Continue) /\
    app_running c' = app_running c /\
    client_queues c' !! i = Some (Build_pyqueue (maxsize q) rest (unfinished_tasks q - 1)) /\
    trace c' = trace c ++ [EvClientWrite i x].
Proof.
  intros Hl Hi Hu. unfold client_iteration. rewrite Hl. unfold get_nowait_with. rewrite Hi.
  cbv zeta. unfold task_done. cbn [unfinished_tasks maxsize items].
  destruct (Z.leb_spec (unfinished_tasks q) 0) as [|_]; [lia|].
  eexists. split; [reflexivity|]. split; [reflexivity|].
  split; [proj_simpl; apply lookup_insert_eq|reflexivity].
Qed.

(** The client takes the end marker and leaves its loop. *)
Lemma client_iteration_eof (i : nat) (w : result unit) (c : controller) (q : client_queue)
  (rest : list (option (list byte))) :
  client_queues c !! i = Some q -> items q = None :: rest ->
  exists c',
    client_iteration i w c = (c', Break) /\
    client_queues c' !! i = Some (Build_pyqueue (maxsize q) rest (unfinished_tasks q)) /\
    trace c' = trace c.
Proof.
  intros Hl Hi. unfold client_iteration. rewrite Hl. unfold get_nowait_with. rewrite Hi.
  eexists. split; [reflexivity|]. split; [proj_simpl; apply lookup_insert_eq|reflexivity].
Qed.

(** A client whose queue holds chunks and then the end marker writes the
    chunks in order and leaves its loop. *)
Lemma client_loop_drains (i : nat) (l : list (list byte)) :
  forall (c : controller) (q : client_queue),
    app_running c = true ->
    client_queues c !! i = Some q ->
    items q = map Some l ++ [None] ->
    Z.of_nat (length l) + 1 <= unfinished_tasks q ->
    let r := client_loop i (replicate (S (length l)) (Ok tt)) c in
    snd r = true /\
    trace (fst r) = trace c ++ map (EvClientWrite i) l /\
    exists q', client_queues (fst r) !! i = Some q' /\ items q' = [].
Proof.
  induction l as [|x l IH]; intros c q Hr Hl Hi Hu; cbv zeta.
  - change (replicate (S (length (@nil (list byte)))) (Ok tt))
      with ([Ok tt] : list (result unit)).
    rewrite client_loop_cons, Hr.
    destruct (client_iteration_eof i (Ok tt) c q [] Hl Hi) as (c' & E & Hq' & Ht').
    rewrite E. cbn [fst snd]. split; [reflexivity|].
    split; [rewrite Ht', app_nil_r; reflexivity|].
    eexists. split; [exact Hq'|reflexivity].
  - change (replicate (S (length (x :: l))) (Ok tt))
      with (Ok tt :: replicate (S (length l)) (Ok tt) : list (result unit)).
    rewrite client_loop_cons, Hr. cbn [length] in Hu.
    destruct (client_iteration_chunk i c q x (map Some l ++ [None]) Hl Hi) as
      (c' & E & Hr' & Hq' & Ht'); [lia|].
    rewrite E. rewrite Hr in Hr'.
    destruct (IH c' _ Hr' Hq' eq_refl) as (A & B & C).
    { cbn [unfinished_tasks]. lia. }
    cbv zeta in A, B, C. split; [exact A|]. split; [|exact C].
    rewrite B, Ht', <- app_assoc. reflexivity.
Qed.

Lemma chunks_of_all (l : list (option (list byte))) :
  Forall is_Some l -> l = map Some (chunks_of l).
Proof.
  induction 1 as [|x l [y ->] _ IH]; [reflexivity|].
  unfold chunks_of in *. cbn [omap list_omap map]. f_equal. exact IH.
Qed.

(** The end of the relay reaches the client: after the relay's cleanup a
    connected client, served while the flag is set, writes the chunks that
    were kept in its queue, in order, then takes the end marker and leaves
    its loop with an empty queue. *)
Theorem client_receives_backlog_then_eof (c : controller) (i : nat) (q : client_queue) :
  app_running c = true -> i ∈ aac_clients c -> client_queues c !! i = Some q ->
  sink_ok q -> Forall is_Some (items q) ->
  let kept := if full q then tail (items q) else items q in
  let c1 := relay_cleanup c in
  let r := client_loop i (replicate (S (length kept)) (Ok tt)) c1 in
  snd r = true /\
  delivered_to i (new_events c1 (fst r)) = chunks_of kept /\
  exists q', client_queues (fst r) !! i = Some q' /\ items q' = [].
Proof.
  intros Hr Hin Hl Hq Hall. cbv zeta.
  destruct (proj1 (relay_cleanup_signals_eof c i) q Hin Hl Hq) as (q' & Hl' & Hi' & Hq').
  set (kept := if full q then tail (items q) else items q) in *.
  assert (Hk : Forall is_Some kept).
  { unfold kept. destruct (full q); [|exact Hall].
    destruct (items q); [constructor|]. apply Forall_cons in Hall as [_ Hall]. exact Hall. }
  pose proof (chunks_of_all kept Hk) as Ek.
  assert (Hlen : length kept = length (chunks_of kept))
    by (rewrite Ek at 1; apply length_map).
  rewrite Hlen.
  destruct (client_loop_drains i (chunks_of kept) (relay_cleanup c) q') as (A & B & C).
  - exact Hr.
  - exact Hl'.
  - rewrite Hi', Ek at 1. reflexivity.
  - destruct Hq' as (_ & _ & Hu). unfold qsize in Hu. rewrite Hi', length_app in Hu.
    cbn [length] in Hu. rewrite <- Hlen. lia.
  - cbv zeta in A, B, C. split; [exact A|]. split; [|exact C].
    rewrite (new_events_app _ _ _ B). apply delivered_to_writes.
Qed.

Lemma drain_empties (n : nat) :
  forall q : client_queue,
    length (items q) = n -> Z.of_nat n <= unfinished_tasks q -> items (drain n q) = [].
Proof.
  induction n as [|n IH]; intros q Hn Hu.
  - cbn [drain]. destruct (items q); [reflexivity|discriminate].
  - cbn [drain]. unfold get_nowait_with.
    destruct (items q) as [|x rest] eqn:Ei; [discriminate|].
    unfold task_done. cbn [unfinished_tasks maxsize items].
    destruct (Z.leb_spec (unfinished_tasks q) 0) as [|_]; [lia|].
    apply IH; cbn [items unfinished_tasks]; [cbn [length] in Hn; lia|lia].
Qed.

Lemma update_client_count_frame (c : controller) :
  aac_clients (_update_client_count c) = aac_clients c /\
  client_queues (_update_client_count c) = client_queues c.
Proof. unfold _update_client_count. destruct (_ && _); split; reflexivity. Qed.

(** When a client leaves, its queue leaves the set of the relay and is
    emptied; the other clients keep their queues and their membership,
    and no chunk that the relay distributes afterwards enters the queue
    of the client that left. *)
Theorem client_disconnect_leaves (c : controller) (i : nat) (q : client_queue) :
  client_queues c !! i = Some q -> qsize q <= unfinished_tasks q ->
  let c' := client_disconnect i c in
  (i ∉ aac_clients c') /\
  (exists q', client_queues c' !! i = Some q' /\ items q' = []) /\
  (forall j, j <> i ->
     client_queues c' !! j = client_queues c !! j /\
     (j ∈ aac_clients c' <-> j ∈ aac_clients c)) /\
  (forall chunk, client_queues (distribute chunk c') !! i = client_queues c' !! i).
Proof.
  intros Hl Hu. cbv zeta. unfold client_disconnect. cbv zeta.
  destruct (update_client_count_frame (set_aac_clients (aac_clients c ∖ {[i]}) c))
    as [Ha Hq].
  set (c1 := _update_client_count (set_aac_clients (aac_clients c ∖ {[i]}) c)) in *.
  change (aac_clients (set_aac_clients (aac_clients c ∖ {[i]}) c))
    with (aac_clients c ∖ {[i]}) in Ha.
  change (client_queues (set_aac_clients (aac_clients c ∖ {[i]}) c))
    with (client_queues c) in Hq.
  clearbody c1.
  assert (Hnin : i ∉ aac_clients c1).
  { rewrite Ha. intros Hin. apply elem_of_difference in Hin as [_ Hn].
    apply Hn, elem_of_singleton. reflexivity. }
  split; [exact Hnin|]. split.
  - proj_simpl. rewrite lookup_alter_eq, Hq, Hl. eexists. split; [reflexivity|].
    apply drain_empties; [reflexivity|exact Hu].
  - split.
    + intros j Hj. proj_simpl. rewrite lookup_alter_ne by congruence. rewrite Hq, Ha.
      split; [reflexivity|]. rewrite elem_of_difference, elem_of_singleton. tauto.
    + intros chunk. rewrite distribute_lookup. proj_simpl.
      destruct (decide (i ∈ aac_clients c1)); [contradiction|reflexivity].
Qed.

(** * The frequency helpers *)

(** ** The range of [mhz_to_khz] *)

Module FreqRange.
Import PyFloat PyFloatFacts FreqFacts.

(** A float passes the test of the band exactly when it is [m * 2^-46]
    with [m] between the mantissas of 87.5 and 108.0. *)
Lemma in_band_exact (x : spec_float) :
  in_band x = true ->
  exists m, x = S754_finite false m (-46) /\
            6157265115545600 <= Zpos m <= 7599824371187712.
Proof.
  unfold in_band. rewrite MIN_FREQ_MHZ_value, MAX_FREQ_MHZ_value.
  destruct x as [s|s| |s m e]; try destruct s; try discriminate.
  unfold leb, SFleb, SFcompare. intros H. apply andb_prop in H as [H1 H2].
  destruct (Z.compare_spec (-46) e) as [E|E|E]; try discriminate;
    destruct (Z.compare_spec e (-46)) as [E'|E'|E']; try discriminate; try lia.
  subst e. exists m. split; [reflexivity|].
  assert (A : (6157265115545600 <= m)%positive)
    by (unfold Pos.le, Pos.compare; intros C; rewrite C in H1; discriminate).
  assert (B : (m <= 7599824371187712)%positive)
    by (unfold Pos.le, Pos.compare; intros C; rewrite C in H2; discriminate).
  split; apply Pos2Z.pos_le_pos; assumption.
Qed.

Lemma Zdigits2_between (a n : Z) : 0 < n -> 2 ^ (n - 1) <= a < 2 ^ n -> Zdigits2 a = n.
Proof.
  intros Hn [H1 H2].
  assert (0 < a) by (pose proof (Z.pow_pos_nonneg 2 (n - 1)); lia).
  rewrite Zdigits2_log2 by lia.
  rewrite (Z.log2_unique a (n - 1)); [lia|lia|].
  replace (Z.succ (n - 1)) with n by lia. split; assumption.
Qed.

(** The product of a float of the band with 1000.0: a float between
    87500 and 108000, with the exponent -36. *)
Lemma mul_1000_band (m : positive) :
  6157265115545600 <= Zpos m <= 7599824371187712 ->
  exists m1, mul (S754_finite false m (-46)) (of_int 1000) = S754_finite false m1 (-36) /\
             6012954214400000 <= Zpos m1 <= 7421703487488000.
Proof.
  intros Hm. destruct (Z.eq_dec (Zpos m) 7599824371187712) as [Emax|Hne].
  { injection Emax as ->. eexists. split; [vm_compute; reflexivity|lia]. }
  rewrite of_int_1000. unfold mul, SFmul. cbn [xorb].
  change (-46 + -43) with (-89).
  set (mx := Zpos (m * 8796093022208000)).
  assert (Hmx : mx = Zpos m * 8796093022208000) by reflexivity.
  assert (Hmx0 : 0 <= mx) by lia.
  unfold binary_round_aux.
  pose proof (shr_fexp_spec mx (-89) loc_Exact Hmx0) as H1. cbv zeta in H1.
  assert (Hd : Zdigits2 mx = 106).
  { apply Zdigits2_between; [lia|].
    change (2 ^ (106 - 1)) with 40564819207303340847894502572032.
    change (2 ^ 106) with 81129638414606681695789005144064. lia. }
  rewrite Hd in H1. change (Z.max 0 (fexp prec emax (106 + -89) - -89)) with 53 in H1.
  change (2 ^ 53) with 9007199254740992 in H1. change (-89 + 53) with (-36) in H1.
  destruct (shr_fexp prec emax mx (-89) loc_Exact) as [mrs' e']. cbn [fst snd] in H1.
  destruct H1 as [Hq ->].
  set (m1 := round_nearest_even (shr_m mrs') (loc_of_shr_record mrs')).
  pose proof (round_nearest_even_bounds (shr_m mrs') (loc_of_shr_record mrs')) as Hr.
  fold m1 in Hr. rewrite Hq in Hr.
  assert (Hlo : 6012954214400000 <= mx / 9007199254740992)
    by (apply Z.div_le_lower_bound; lia).
  assert (Hhi : mx / 9007199254740992 < 7421703487488000)
    by (apply Z.div_lt_upper_bound; lia).
  assert (Hm1 : 6012954214400000 <= m1 <= 7421703487488000) by lia.
  clearbody m1. clear Hr Hq mrs'.
  assert (Hm10 : 0 <= m1) by lia.
  pose proof (shr_fexp_spec m1 (-36) loc_Exact Hm10) as H2. cbv zeta in H2.
  assert (Hd1 : Zdigits2 m1 = 53).
  { apply Zdigits2_between; [lia|].
    change (2 ^ (53 - 1)) with 4503599627370496.
    change (2 ^ 53) with 9007199254740992. lia. }
  rewrite Hd1 in H2. change (Z.max 0 (fexp prec emax (53 + -36) - -36)) with 0 in H2.
  change (2 ^ 0) with 1 in H2. rewrite Z.div_1_r in H2. change (-36 + 0) with (-36) in H2.
  destruct (shr_fexp prec emax m1 (-36) loc_Exact) as [mrs'' e'']. cbn [fst snd] in H2.
  destruct H2 as [-> ->].
  destruct m1 as [|p|p]; try lia.
  exists p. split; [reflexivity|exact Hm1].
Qed.

Lemma mhz_to_khz_range (v : pyval) (k : Z) :
  mhz_to_khz v = Ok (Some k) -> 87500 <= k <= 108000.
Proof.
  destruct v as [| | | |s| | |]; try discriminate. cbn [mhz_to_khz].
  unfold mhz_to_khz_try.
  destruct (float_of_str (replace_comma s)) as [x|e]; [|destruct e; discriminate].
  fold (in_band x). destruct (in_band x) eqn:B; [|discriminate].
  destruct (in_band_exact x B) as (m & -> & Hm).
  destruct (mul_1000_band m Hm) as (m1 & -> & Hm1).
  cbn [to_int]. change (0 <=? -36) with false. cbn iota.
  change (- -36) with 36. change (2 ^ 36) with 68719476736.
  intros [= <-]. split.
  - apply Z.div_le_lower_bound; lia.
  - apply Z.div_le_upper_bound; lia.
Qed.

(** A frequency that [mhz_to_khz] accepts lies in the band: the
    returned number of kHz is between 87500 and 108000. *)
Theorem mhz_to_khz_in_band (v : pyval) (k : Z) :
  mhz_to_khz v = Ok (Some k) -> 87500 <= k <= 108000.
Proof. exact (mhz_to_khz_range v k). Qed.

End FreqRange.

Lemma mhz_to_khz_in_band_example :
  mhz_to_khz (PStr "97,3") = Ok (Some 97300) /\ 87500 <= 97300 <= 108000.
Proof.
  assert (E : mhz_to_khz (PStr "97,3") = Ok (Some 97300)) by (vm_compute; reflexivity).
  split; [exact E|]. exact (FreqRange.mhz_to_khz_in_band _ _ E).
Defined.

(** ** [int(str(k))] *)

Module IntText.
Import PyFloat PyInt.

Lemma is_digit_facts (c : ascii) :
  is_digit c = true ->
  (code c <? 128)%N = true /\ Ascii.eqb c zero = false /\ Py_ISSPACE c = false /\
  Ascii.eqb c "_" = false /\ Ascii.eqb c "-" = false /\ Ascii.eqb c "+" = false.
Proof.
  destruct c as [[|] [|] [|] [|] [|] [|] [|] [|]]; intros H; try discriminate H;
    repeat split; reflexivity.
Qed.

Lemma scan_step (c prev : ascii) (t : list ascii) (acc n : Z) :
  is_digit c = true ->
  scan_digits (c :: t) prev acc n = scan_digits t c (10 * acc + digit_val c) (n + 1).
Proof.
  intros H. destruct (is_digit_facts c H) as (_ & _ & _ & Hu & _).
  cbn [scan_digits]. rewrite Hu, H. reflexivity.
Qed.

(** The digits of a decimal numeral, read by [scan_digits] from a
    positive accumulator. *)
Lemma scan_uint_acc (d : Decimal.uint) :
  forall (prev : ascii) (a : positive) (n : Z),
    Ascii.eqb prev "_" = false ->
    exists prev',
      scan_digits (list_ascii_of_string (NilEmpty.string_of_uint d)) prev (Zpos a) n
      = Some (Zpos (Pos.of_uint_acc d a), n + Z.of_nat (Decimal.nb_digits d), prev', []) /\
      Ascii.eqb prev' "_" = false.
Proof.
  induction d as [|d IH|d IH|d IH|d IH|d IH|d IH|d IH|d IH|d IH|d IH]; intros prev a n Hp;
    [exists prev; cbn; rewrite Z.add_0_r; split; [reflexivity|exact Hp]|..];
    cbn [NilEmpty.string_of_uint list_ascii_of_string Pos.of_uint_acc Decimal.nb_digits];
    rewrite scan_step by reflexivity;
    match goal with
    | |- context [Pos.of_uint_acc d ?b] =>
        match goal with
        | |- context [scan_digits _ ?c ?acc ?m] =>
            replace acc with (Zpos b)
              by (let v := eval vm_compute in (digit_val c) in
                  change (digit_val c) with v; lia);
            replace (n + Z.of_nat (S (Decimal.nb_digits d)))
              with (m + Z.of_nat (Decimal.nb_digits d)) by lia;
            exact (IH c b m eq_refl)
        end
    end.
Qed.

(** The same from the accumulator 0: leading zeros add nothing. *)
Lemma scan_uint (d : Decimal.uint) :
  forall (prev : ascii) (n : Z),
    Ascii.eqb prev "_" = false ->
    exists prev',
      scan_digits (list_ascii_of_string (NilEmpty.string_of_uint d)) prev 0 n
      = Some (Z.of_N (Pos.of_uint d), n + Z.of_nat (Decimal.nb_digits d), prev', []) /\
      Ascii.eqb prev' "_" = false.
Proof.
  induction d as [|d IH|d IH|d IH|d IH|d IH|d IH|d IH|d IH|d IH|d IH]; intros prev n Hp;
    [exists prev; cbn; rewrite Z.add_0_r; split; [reflexivity|exact Hp]|..];
    cbn [NilEmpty.string_of_uint list_ascii_of_string Pos.of_uint Decimal.nb_digits];
    rewrite scan_step by reflexivity;
    replace (n + Z.of_nat (S (Decimal.nb_digits d)))
      with (n + 1 + Z.of_nat (Decimal.nb_digits d)) by lia.
  - change (10 * 0 + digit_val "0") with 0. exact (IH "0"%char (n + 1) eq_refl).
  - change (10 * 0 + digit_val "1") with 1. exact (scan_uint_acc d "1"%char 1 (n + 1) eq_refl).
  - change (10 * 0 + digit_val "2") with 2. exact (scan_uint_acc d "2"%char 2 (n + 1) eq_refl).
  - change (10 * 0 + digit_val "3") with 3. exact (scan_uint_acc d "3"%char 3 (n + 1) eq_refl).
  - change (10 * 0 + digit_val "4") with 4. exact (scan_uint_acc d "4"%char 4 (n + 1) eq_refl).
  - change (10 * 0 + digit_val "5") with 5. exact (scan_uint_acc d "5"%char 5 (n + 1) eq_refl).
  - change (10 * 0 + digit_val "6") with 6. exact (scan_uint_acc d "6"%char 6 (n + 1) eq_refl).
  - change (10 * 0 + digit_val "7") with 7. exact (scan_uint_acc d "7"%char 7 (n + 1) eq_refl).
  - change (10 * 0 + digit_val "8") with 8. exact (scan_uint_acc d "8"%char 8 (n + 1) eq_refl).
  - change (10 * 0 + digit_val "9") with 9. exact (scan_uint_acc d "9"%char 9 (n + 1) eq_refl).
Qed.

Lemma uint_digits (d : Decimal.uint) :
  forallb is_digit (list_ascii_of_string (NilEmpty.string_of_uint d)) = true.
Proof. induction d; cbn; auto. Qed.

Lemma digits_plain (l : list ascii) :
  forallb is_digit l = true ->
  forallb (fun c => (code c <? 128)%N) l = true /\ has_nul l = false.
Proof.
  induction l as [|c t IH]; [split; reflexivity|].
  cbn [forallb]. intros H. apply andb_prop in H as [Hc Ht].
  destruct (is_digit_facts c Hc) as (H1 & H2 & _). destruct (IH Ht) as [I1 I2].
  split; [cbn [forallb]; rewrite H1, I1; reflexivity|].
  unfold has_nul in *. cbn [existsb]. rewrite Ascii.eqb_sym, H2, I2. reflexivity.
Qed.

(** [int] of a sign and a run of digits. *)
Lemma int_of_str_scan (neg : bool) (s : string) (v n : Z) (prev : ascii) :
  forallb is_digit (list_ascii_of_string s) = true ->
  scan_digits (list_ascii_of_string s) zero 0 0 = Some (v, n, prev, []) ->
  Ascii.eqb prev "_" = false -> n <> 0 ->
  int_of_str ((if neg then "-" else EmptyString) ++ s) = Ok (if neg then - v else v).
Proof.
  intros Hd Hs Hp Hn.
  assert (Hne : exists c t, list_ascii_of_string s = c :: t /\ is_digit c = true).
  { destruct (list_ascii_of_string s) as [|c t] eqn:E.
    - cbn in Hs. injection Hs as _ Hn0 _. congruence.
    - exists c, t. split; [reflexivity|]. cbn [forallb] in Hd.
      apply andb_prop in Hd as [Hc _]. exact Hc. }
  destruct Hne as (c & t & E & Hc).
  destruct (is_digit_facts c Hc) as (_ & _ & Hsp & Hu & Hm & Hpl).
  destruct (digits_plain _ Hd) as [Ha Hz].
  assert (Hn' : (n =? 0) = false) by (apply Z.eqb_neq; exact Hn).
  unfold int_of_str, TransformDecimalAndSpaceToASCII.
  destruct neg.
  - change (list_ascii_of_string (String.append "-" s))
      with ("-"%char :: list_ascii_of_string s).
    replace (forallb (fun c => (code c <? 128)%N) ("-"%char :: list_ascii_of_string s))
      with true by (cbn [forallb]; rewrite Ha; reflexivity).
    replace (has_nul ("-"%char :: list_ascii_of_string s))
      with false by (unfold has_nul in *; cbn [existsb]; rewrite Hz; reflexivity).
    change (lstrip ("-"%char :: list_ascii_of_string s))
      with ("-"%char :: list_ascii_of_string s).
    change (parse_sign ("-"%char :: list_ascii_of_string s))
      with (true, list_ascii_of_string s).
    cbv iota beta. rewrite Hs. rewrite E, Hu, Hp, Hn'. reflexivity.
  - change (String.append EmptyString s) with s. rewrite Ha, Hz.
    replace (lstrip (list_ascii_of_string s)) with (list_ascii_of_string s)
      by (rewrite E; cbn [lstrip]; rewrite Hsp; reflexivity).
    replace (parse_sign (list_ascii_of_string s)) with (false, list_ascii_of_string s)
      by (rewrite E; cbn [parse_sign]; rewrite Hm, Hpl; reflexivity).
    cbv iota beta. rewrite Hs. rewrite E, Hu, Hp, Hn'. reflexivity.
Qed.

Lemma to_uint_digits (p : positive) : Decimal.nb_digits (Pos.to_uint p) <> 0%nat.
Proof.
  pose proof (DecimalPos.Unsigned.to_uint_nonnil p) as H.
  destruct (Pos.to_uint p); [congruence|..]; cbn; discriminate.
Qed.

(** [str] and [int] are inverse on the integers: the text that [str]
    writes for [k] is read back by [int] as [k]. *)
Lemma int_of_str_of_Z (k : Z) : int_of_str (str_of_Z k) = Ok k.
Proof.
  destruct k as [|p|p]; [vm_compute; reflexivity|..];
    unfold str_of_Z; cbn [Z.to_int NilZero.string_of_int];
    pose proof (DecimalPos.Unsigned.to_uint_nonnil p) as Hnil;
    pose proof (to_uint_digits p) as Hnb;
    pose proof (DecimalPos.Unsigned.of_to p) as Hof;
    destruct (scan_uint (Pos.to_uint p) zero 0 eq_refl) as (prev & Hs & Hp);
    rewrite Hof in Hs.
  - replace (NilZero.string_of_uint (Pos.to_uint p))
      with (NilEmpty.string_of_uint (Pos.to_uint p))
      by (destruct (Pos.to_uint p); [congruence|..]; reflexivity).
    exact (int_of_str_scan false _ _ _ _ (uint_digits _) Hs Hp ltac:(lia)).
  - replace (NilZero.string_of_uint (Pos.to_uint p))
      with (NilEmpty.string_of_uint (Pos.to_uint p))
      by (destruct (Pos.to_uint p); [congruence|..]; reflexivity).
    exact (int_of_str_scan true _ _ _ _ (uint_digits _) Hs Hp ltac:(lia)).
Qed.

End IntText.

(** * Exact rounding

    What [binary_round_aux] returns, not only how large it is: the
    location that the shifts compute is the position of the remainder,
    so that the rounded mantissa is the quotient rounded to nearest, ties
    to even. *)

Module ExactRounding.
Import PyFloat PyFloatFacts.

Lemma loc_of_shr_record_of_loc (m : Z) (l : location) :
  loc_of_shr_record (shr_record_of_loc m l) = l.
Proof. destruct l as [|[]]; reflexivity. Qed.

(** Rounding with the location of the remainder of [n / d]. *)
Lemma round_nearest_even_div (n d : Z) :
  0 < d ->
  round_nearest_even (n / d)
    (if n mod d =? 0 then loc_Exact else loc_Inexact (2 * (n mod d) ?= d))
  = round_half_even_div n d.
Proof.
  intros Hd. unfold round_half_even_div, round_nearest_even. cbv zeta.
  pose proof (Z.mod_pos_bound n d Hd) as Hr.
  destruct (Z.eqb_spec (n mod d) 0) as [E|E].
  - rewrite E. destruct (Z.ltb_spec (2 * 0) d); [reflexivity|lia].
  - destruct (Z.compare_spec (2 * (n mod d)) d) as [C|C|C];
      destruct (Z.ltb_spec (2 * (n mod d)) d); try lia;
      destruct (Z.ltb_spec d (2 * (n mod d))); try lia; reflexivity.
Qed.

(** One shift: the mantissa is halved and the location is the one of the
    remainder modulo twice the divisor. *)
Lemma shr_1_location (M a : Z) (mrs : shr_record) :
  0 < a -> 0 <= M ->
  shr_m mrs = M / a ->
  loc_of_shr_record mrs
  = (if M mod a =? 0 then loc_Exact else loc_Inexact (2 * (M mod a) ?= a)) ->
  shr_m (shr_1 mrs) = M / (2 * a) /\
  loc_of_shr_record (shr_1 mrs)
  = (if M mod (2 * a) =? 0 then loc_Exact
     else loc_Inexact (2 * (M mod (2 * a)) ?= 2 * a)).
Proof.
  intros Ha HM Hm Hl. destruct mrs as [m r s]. cbn [shr_m] in Hm.
  pose proof (Z.div_mod M a ltac:(lia)) as Hdm.
  pose proof (Z.mod_pos_bound M a Ha) as Hb.
  assert (Hq0 : 0 <= M / a) by (apply Z.div_pos; lia).
  set (F := M mod a) in *. set (q := M / a) in *. clearbody F q. subst m.
  assert (Hs : exists q' b, (b = 0 \/ b = 1) /\ q = 2 * q' + b /\ 0 <= q' /\
             shr_1 {| shr_m := q; shr_r := r; shr_s := s |}
             = {| shr_m := q'; shr_r := (b =? 1); shr_s := r || s |}).
  { destruct q as [|[p|p|]|p]; try lia.
    - exists 0, 0. repeat split; auto; lia.
    - exists (Zpos p), 1. repeat split; auto; lia.
    - exists (Zpos p), 0. repeat split; auto; lia.
    - exists 0, 1. repeat split; auto; lia. }
  destruct Hs as (q' & b & Hbv & Hq & Hq' & ->). cbn [shr_m].
  assert (Hdiv : M / (2 * a) = q').
  { symmetry. apply Z.div_unique with (a * b + F); [nia|nia]. }
  assert (Hmod : M mod (2 * a) = a * b + F).
  { symmetry. apply Z.mod_unique with q'; [nia|nia]. }
  rewrite Hdiv, Hmod. split; [reflexivity|].
  destruct (Z.eqb_spec F 0) as [EF|EF].
  - destruct r, s; try discriminate Hl. subst F.
    destruct Hbv as [->| ->]; cbn [Z.eqb orb loc_of_shr_record].
    + replace (a * 0 + 0) with 0 by lia. reflexivity.
    + replace (a * 1 + 0) with a by lia.
      destruct (Z.eqb_spec a 0); [lia|]. rewrite Z.compare_refl. reflexivity.
  - assert (Hrs : r || s = true) by (destruct r, s; try discriminate Hl; reflexivity).
    rewrite Hrs.
    destruct Hbv as [->| ->]; cbn [Z.eqb Pos.eqb loc_of_shr_record].
    + replace (a * 0 + F) with F by lia. destruct (Z.eqb_spec F 0); [lia|].
      destruct (Z.compare_spec (2 * F) (2 * a)); try lia. reflexivity.
    + destruct (Z.eqb_spec (a * 1 + F) 0); [lia|].
      destruct (Z.compare_spec (2 * (a * 1 + F)) (2 * a)); try lia. reflexivity.
Qed.

Lemma iter_shr_1_location (p : positive) :
  forall (M a : Z) (mrs : shr_record),
    0 < a -> 0 <= M ->
    shr_m mrs = M / a ->
    loc_of_shr_record mrs
    = (if M mod a =? 0 then loc_Exact else loc_Inexact (2 * (M mod a) ?= a)) ->
    shr_m (SpecFloat.iter_pos shr_1 p mrs) = M / (a * 2 ^ Zpos p) /\
    loc_of_shr_record (SpecFloat.iter_pos shr_1 p mrs)
    = (if M mod (a * 2 ^ Zpos p) =? 0 then loc_Exact
       else loc_Inexact (2 * (M mod (a * 2 ^ Zpos p)) ?= a * 2 ^ Zpos p)).
Proof.
  induction p as [p IH|p IH|]; intros M a mrs Ha HM Hm Hl.
  - change (SpecFloat.iter_pos shr_1 p~1 mrs)
      with (SpecFloat.iter_pos shr_1 p (SpecFloat.iter_pos shr_1 p (shr_1 mrs))).
    assert (Hp : 0 < 2 ^ Zpos p) by (apply Z.pow_pos_nonneg; lia).
    destruct (shr_1_location M a mrs Ha HM Hm Hl) as [H1 H2].
    destruct (IH M (2 * a) _ ltac:(lia) HM H1 H2) as [H3 H4].
    destruct (IH M (2 * a * 2 ^ Zpos p) _ ltac:(nia) HM H3 H4) as [H5 H6].
    replace (a * 2 ^ Zpos p~1) with (2 * a * 2 ^ Zpos p * 2 ^ Zpos p).
    + split; assumption.
    + replace (Zpos p~1) with (1 + Zpos p + Zpos p) by lia.
      rewrite !Z.pow_add_r by lia. lia.
  - change (SpecFloat.iter_pos shr_1 p~0 mrs)
      with (SpecFloat.iter_pos shr_1 p (SpecFloat.iter_pos shr_1 p mrs)).
    assert (Hp : 0 < 2 ^ Zpos p) by (apply Z.pow_pos_nonneg; lia).
    destruct (IH M a _ Ha HM Hm Hl) as [H3 H4].
    destruct (IH M (a * 2 ^ Zpos p) _ ltac:(nia) HM H3 H4) as [H5 H6].
    replace (a * 2 ^ Zpos p~0) with (a * 2 ^ Zpos p * 2 ^ Zpos p).
    + split; assumption.
    + replace (Zpos p~0) with (Zpos p + Zpos p) by lia.
      rewrite !Z.pow_add_r by lia. lia.
  - change (SpecFloat.iter_pos shr_1 1 mrs) with (shr_1 mrs).
    change (2 ^ 1) with 2. replace (a * 2) with (2 * a) by lia.
    apply shr_1_location; assumption.
Qed.

(** The shift of an exact mantissa by [n > 0] places, then the rounding:
    the quotient by [2^n], rounded to nearest, ties to even. *)
Lemma shr_round (M e : Z) (p : positive) :
  0 <= M ->
  round_nearest_even
    (shr_m (fst (shr (shr_record_of_loc M loc_Exact) e (Zpos p))))
    (loc_of_shr_record (fst (shr (shr_record_of_loc M loc_Exact) e (Zpos p))))
  = round_half_even_div M (2 ^ Zpos p) /\
  snd (shr (shr_record_of_loc M loc_Exact) e (Zpos p)) = e + Zpos p.
Proof.
  intros HM. cbn [shr fst snd shr_record_of_loc]. split; [|reflexivity].
  destruct (iter_shr_1_location p M 1 {| shr_m := M; shr_r := false; shr_s := false |}
              ltac:(lia) HM) as [H1 H2].
  - cbn [shr_m]. rewrite Z.div_1_r. reflexivity.
  - cbn [loc_of_shr_record]. rewrite Z.mod_1_r. reflexivity.
  - rewrite Z.mul_1_l in H1, H2. rewrite H1, H2.
    apply round_nearest_even_div. apply Z.pow_pos_nonneg; lia.
Qed.

(** A rounded mantissa of exactly 53 bits needs no second shift. *)
Lemma round_finish (s : bool) (m1 : positive) (e1 : Z) :
  Zdigits2 (Zpos m1) = 53 -> -1074 <= e1 <= emax - prec ->
  (let '(mrs'', e'') := shr_fexp prec emax (Zpos m1) e1 loc_Exact in
   match shr_m mrs'' with
   | 0 => S754_zero s
   | Zpos m => if e'' <=? emax - prec then S754_finite s m e'' else S754_infinity s
   | Zneg _ => S754_nan
   end) = S754_finite s m1 e1.
Proof.
  intros Hd He. unfold shr_fexp. rewrite Hd, fexp_eq.
  replace (Z.max (53 + e1 - 53) (-1074) - e1) with 0 by lia.
  cbn [shr shr_record_of_loc shr_m].
  destruct (Z.leb_spec e1 (emax - prec)); [reflexivity|lia].
Qed.

End ExactRounding.

(** * Division and product by 1000 on the band *)

Module BandArith.
Import PyFloat PyFloatFacts FreqFacts ExactRounding.

(** The rounded quotient is within half a divisor of the dividend. *)
Lemma round_half_even_div_error (n d : Z) :
  0 < d -> - d <= 2 * (round_half_even_div n d * d - n) <= d.
Proof.
  intros Hd. unfold round_half_even_div. cbv zeta.
  pose proof (Z.div_mod n d ltac:(lia)) as E.
  pose proof (Z.mod_pos_bound n d Hd) as B.
  set (q := n / d) in *. set (r := n mod d) in *. clearbody q r.
  destruct (Z.ltb_spec (2 * r) d); [nia|].
  destruct (Z.ltb_spec d (2 * r)); [nia|].
  destruct (Z.even q); nia.
Qed.

(** A dividend nearer than half a divisor to a multiple is rounded to
    that multiple. *)
Lemma round_half_even_div_near (n d k : Z) :
  0 < d -> - d < 2 * (n - k * d) < d -> round_half_even_div n d = k.
Proof.
  intros Hd Hn. unfold round_half_even_div. cbv zeta.
  destruct (Z_lt_le_dec (n - k * d) 0) as [Hneg|Hpos].
  - assert (Eq : n / d = k - 1)
      by (symmetry; apply Z.div_unique with (n - k * d + d); [lia|nia]).
    assert (Er : n mod d = n - k * d + d)
      by (symmetry; apply Z.mod_unique with (k - 1); [lia|nia]).
    rewrite Eq, Er.
    destruct (Z.ltb_spec (2 * (n - k * d + d)) d); [lia|].
    destruct (Z.ltb_spec d (2 * (n - k * d + d))); lia.
  - assert (Eq : n / d = k)
      by (symmetry; apply Z.div_unique with (n - k * d); [lia|nia]).
    assert (Er : n mod d = n - k * d)
      by (symmetry; apply Z.mod_unique with k; [lia|nia]).
    rewrite Eq, Er.
    destruct (Z.ltb_spec (2 * (n - k * d)) d); lia.
Qed.

(** The quotient of a frequency of the band by 1000, as the division and
    the parser of decimals compute it: its mantissa is [k * 2^46 / 1000]
    rounded to nearest, the exponent is -46. *)
Lemma quotient_1000_band (p : positive) :
  87500 <= Zpos p <= 108000 ->
  exists m,
    (let '(q, e', l) := SFdiv_core_binary prec emax (Zpos p) 0 1000 0 in
     binary_round_aux prec emax false q e' l) = S754_finite false m (-46) /\
    Zpos m = round_half_even_div (Zpos p * 70368744177664) 1000.
Proof.
  intros Hk.
  assert (Hd : Zdigits2 (Zpos p) = 17).
  { apply FreqRange.Zdigits2_between; [lia|].
    change (2 ^ (17 - 1)) with 65536. change (2 ^ 17) with 131072. lia. }
  unfold SFdiv_core_binary. rewrite Hd. change (Zdigits2 1000) with 10.
  cbv zeta.
  change (Z.min (fexp prec emax (17 + 0 - (10 + 0))) (0 - 0)) with (-46).
  change (0 - 0 - -46) with 46. cbv iota.
  rewrite Z.shiftl_mul_pow2 by lia. change (2 ^ 46) with 70368744177664.
  set (n := Zpos p * 70368744177664).
  assert (Eq : fst (Z.div_eucl n 1000) = n / 1000) by reflexivity.
  assert (Er : snd (Z.div_eucl n 1000) = n mod 1000) by reflexivity.
  destruct (Z.div_eucl n 1000) as [q r]. cbn [fst snd] in Eq, Er. subst q r.
  change (new_location 1000 (n mod 1000))
    with (if n mod 1000 =? 0 then loc_Exact
          else loc_Inexact (2 * (n mod 1000) ?= 1000)).
  set (l := if n mod 1000 =? 0 then loc_Exact else loc_Inexact (2 * (n mod 1000) ?= 1000)).
  pose proof (round_nearest_even_div n 1000 ltac:(lia)) as Hr. fold l in Hr.
  pose proof (round_half_even_div_error n 1000 ltac:(lia)) as He.
  set (R := round_half_even_div n 1000) in *.
  assert (HR : 6157265115545600 <= R <= 7599824371187712) by (unfold n in He; lia).
  assert (Hq : 6157265115545599 <= n / 1000 <= 7599824371187712).
  { split; [apply Z.div_le_lower_bound; unfold n; lia
          |apply Z.div_le_upper_bound; unfold n; lia]. }
  assert (Hdq : Zdigits2 (n / 1000) = 53).
  { apply FreqRange.Zdigits2_between; [lia|].
    change (2 ^ (53 - 1)) with 4503599627370496.
    change (2 ^ 53) with 9007199254740992. lia. }
  unfold binary_round_aux.
  assert (Es : shr_fexp prec emax (n / 1000) (-46) l = (shr_record_of_loc (n / 1000) l, -46)).
  { unfold shr_fexp. rewrite Hdq.
    change (fexp prec emax (53 + -46) - -46) with 0. reflexivity. }
  rewrite Es. rewrite loc_of_shr_record_of_loc.
  replace (shr_m (shr_record_of_loc (n / 1000) l)) with (n / 1000)
    by (symmetry; apply shr_m_of_loc).
  rewrite Hr. clearbody R. clear Hr He Es l.
  destruct R as [|m|m]; try lia.
  exists m. split; [|reflexivity].
  apply round_finish.
  - apply FreqRange.Zdigits2_between; [lia|].
    change (2 ^ (53 - 1)) with 4503599627370496.
    change (2 ^ 53) with 9007199254740992. lia.
  - unfold emax, prec. lia.
Qed.

(** The product of a float of the band with 1000.0, exactly. *)
Lemma mul_1000_exact (m m2 : positive) :
  6157265115545600 <= Zpos m <= 7599824371187712 ->
  Zpos m2 = round_half_even_div (Zpos m * 8796093022208000) 9007199254740992 ->
  Zdigits2 (Zpos m2) = 53 ->
  mul (S754_finite false m (-46)) (of_int 1000) = S754_finite false m2 (-36).
Proof.
  intros Hm Hm2 Hd2. rewrite of_int_1000. unfold mul, SFmul. cbn [xorb].
  change (-46 + -43) with (-89).
  set (mx := Zpos (m * 8796093022208000)).
  assert (Hmx : mx = Zpos m * 8796093022208000) by reflexivity.
  assert (Hmx0 : 0 <= mx) by lia.
  assert (Hd : Zdigits2 mx = 106).
  { apply FreqRange.Zdigits2_between; [lia|].
    change (2 ^ (106 - 1)) with 40564819207303340847894502572032.
    change (2 ^ 106) with 81129638414606681695789005144064. lia. }
  unfold binary_round_aux.
  assert (Es : shr_fexp prec emax mx (-89) loc_Exact
               = shr (shr_record_of_loc mx loc_Exact) (-89) 53).
  { unfold shr_fexp. rewrite Hd. reflexivity. }
  rewrite Es.
  destruct (shr_round mx (-89) 53 Hmx0) as [H1 H2].
  destruct (shr (shr_record_of_loc mx loc_Exact) (-89) 53) as [mrs' e'].
  cbn [fst snd] in H1, H2. rewrite H1, H2.
  change (2 ^ 53) with 9007199254740992. rewrite Hmx, <- Hm2.
  change (-89 + 53) with (-36).
  apply round_finish; [exact Hd2|unfold emax, prec; lia].
Qed.

(** A frequency of the band divided by 1000: a float of the band whose
    product with 1000.0 is the frequency again. *)
Lemma quotient_times_1000 (k : Z) (m : positive) :
  87500 <= k <= 108000 ->
  Zpos m = round_half_even_div (k * 70368744177664) 1000 ->
  6157265115545600 <= Zpos m <= 7599824371187712 /\
  round_half_even_div (Zpos m * 1000) 70368744177664 = k /\
  to_int (mul (S754_finite false m (-46)) (of_int 1000)) = Ok k.
Proof.
  intros Hk Hm.
  pose proof (round_half_even_div_error (k * 70368744177664) 1000 ltac:(lia)) as He.
  rewrite <- Hm in He.
  assert (Hb : 6157265115545600 <= Zpos m <= 7599824371187712) by lia.
  split; [exact Hb|]. split.
  - apply round_half_even_div_near; lia.
  - assert (H2 : round_half_even_div (Zpos m * 8796093022208000) 9007199254740992
                 = k * 68719476736)
      by (apply round_half_even_div_near; lia).
    destruct (k * 68719476736) as [|m2|m2] eqn:Ek; try lia.
    assert (Hd2 : Zdigits2 (Zpos m2) = 53).
    { apply FreqRange.Zdigits2_between; [lia|].
      change (2 ^ (53 - 1)) with 4503599627370496.
      change (2 ^ 53) with 9007199254740992. lia. }
    rewrite (mul_1000_exact m m2 Hb (eq_sym H2) Hd2).
    cbn [to_int]. change (0 <=? -36) with false. cbv iota.
    change (- -36) with 36. change (2 ^ 36) with 68719476736.
    rewrite <- Ek. rewrite Z.div_mul by lia. reflexivity.
Qed.

End BandArith.

(** * Reading a decimal with a point *)

Module DecimalText.
Import PyFloat PyInt.

(** A digit or the point. *)
Lemma plain_char_facts (c : ascii) :
  is_digit c || Ascii.eqb c "." = true ->
  (code c <? 128)%N = true /\ Ascii.eqb zero c = false /\ Py_ISSPACE c = false /\
  Ascii.eqb "_" c = false /\ Ascii.eqb c "," = false /\ Ascii.eqb c "-" = false /\
  Ascii.eqb c "+" = false.
Proof.
  destruct c as [[|] [|] [|] [|] [|] [|] [|] [|]]; intros H; try discriminate H;
    repeat split; reflexivity.
Qed.

Lemma list_ascii_of_string_app (a b : string) :
  list_ascii_of_string (a ++ b) = list_ascii_of_string a ++ list_ascii_of_string b.
Proof.
  induction a as [|c a IH]; [reflexivity|].
  change (list_ascii_of_string (String c a ++ b)) with (c :: list_ascii_of_string (a ++ b)).
  rewrite IH. reflexivity.
Qed.

Lemma replace_comma_plain (s : string) :
  forallb (fun c => is_digit c || Ascii.eqb c ".") (list_ascii_of_string s) = true ->
  replace_comma s = s.
Proof.
  induction s as [|c s IH]; [reflexivity|]. cbn [list_ascii_of_string forallb replace_comma].
  intros H. apply andb_prop in H as [Hc Hs].
  destruct (plain_char_facts c Hc) as (_ & _ & _ & _ & -> & _). rewrite (IH Hs). reflexivity.
Qed.

Lemma plain_text (l : list ascii) :
  forallb (fun c => is_digit c || Ascii.eqb c ".") l = true ->
  TransformDecimalAndSpaceToASCII l = l /\ has_nul l = false /\
  has_underscore l = false /\ rstrip l = l.
Proof.
  intros H.
  assert (H1 : forallb (fun c => (code c <? 128)%N) l = true /\ has_nul l = false /\
               has_underscore l = false /\ rstrip l = l).
  { induction l as [|c t IH]; [repeat split; reflexivity|].
    cbn [forallb] in H. apply andb_prop in H as [Hc Ht].
    destruct (plain_char_facts c Hc) as (A & B & C & D & _).
    destruct (IH Ht) as (I1 & I2 & I3 & I4).
    unfold has_nul, has_underscore in *. cbn [forallb existsb rstrip].
    rewrite A, B, D, I1, I2, I3, I4, C. repeat split. destruct t; reflexivity. }
  destruct H1 as (H1 & H2 & H3 & H4).
  unfold TransformDecimalAndSpaceToASCII. rewrite H1. repeat split; assumption.
Qed.

(** A run of digits is read to its end. *)
Lemma take_digits_run (l rest : list ascii) :
  forallb is_digit l = true ->
  match rest with c :: _ => is_digit c = false | [] => True end ->
  forall acc n,
    take_digits (l ++ rest) acc n
    = (fold_left (fun a c => 10 * a + digit_val c) l acc, n + Z.of_nat (length l), rest).
Proof.
  intros Hl Hr. induction l as [|c t IH]; intros acc n.
  - cbn [app fold_left length]. rewrite Z.add_0_r.
    destruct rest as [|c r]; [reflexivity|]. cbn [take_digits]. rewrite Hr. reflexivity.
  - cbn [forallb] in Hl. apply andb_prop in Hl as [Hc Ht].
    cbn [app take_digits fold_left length]. rewrite Hc, (IH Ht).
    do 2 f_equal. lia.
Qed.

Lemma scan_digits_run (l : list ascii) :
  forallb is_digit l = true ->
  forall prev acc n, exists prev',
    scan_digits l prev acc n
    = Some (fold_left (fun a c => 10 * a + digit_val c) l acc, n + Z.of_nat (length l),
            prev', []).
Proof.
  intros Hl. induction l as [|c t IH]; intros prev acc n.
  - exists prev. cbn. rewrite Z.add_0_r. reflexivity.
  - cbn [forallb] in Hl. apply andb_prop in Hl as [Hc Ht].
    destruct (IH Ht c (10 * acc + digit_val c) (n + 1)) as [prev' E].
    exists prev'. rewrite (IntText.scan_step c prev t acc n Hc), E.
    cbn [fold_left].
    replace (n + Z.of_nat (length (c :: t))) with (n + 1 + Z.of_nat (length t))
      by (cbn [length]; lia).
    reflexivity.
Qed.

(** The digits that [str] writes for a positive integer have its value. *)
Lemma str_of_pos_digits (p : positive) :
  forallb is_digit (list_ascii_of_string (str_of_Z (Zpos p))) = true /\
  list_ascii_of_string (str_of_Z (Zpos p)) <> [] /\
  fold_left (fun a c => 10 * a + digit_val c) (list_ascii_of_string (str_of_Z (Zpos p))) 0
  = Zpos p.
Proof.
  unfold str_of_Z. cbn [Z.to_int NilZero.string_of_int].
  pose proof (DecimalPos.Unsigned.to_uint_nonnil p) as Hnil.
  pose proof (IntText.to_uint_digits p) as Hnb.
  pose proof (DecimalPos.Unsigned.of_to p) as Hof.
  replace (NilZero.string_of_uint (Pos.to_uint p))
    with (NilEmpty.string_of_uint (Pos.to_uint p))
    by (destruct (Pos.to_uint p); [congruence|..]; reflexivity).
  pose proof (IntText.uint_digits (Pos.to_uint p)) as Hd.
  destruct (IntText.scan_uint (Pos.to_uint p) zero 0 eq_refl) as (prev & Hs & _).
  destruct (scan_digits_run _ Hd zero 0 0) as (prev' & Hs').
  rewrite Hs in Hs'. injection Hs' as Hv Hn _. rewrite Hof in Hv.
  split; [exact Hd|]. split.
  - intros E. rewrite E in Hn. cbn in Hn. lia.
  - rewrite <- Hv. reflexivity.
Qed.

(** [pad3] writes three digits. *)
Lemma pad3_digits (r : Z) :
  0 <= r < 1000 ->
  exists c1 c2 c3,
    pad3 r = String c1 (String c2 (String c3 EmptyString)) /\
    is_digit c1 = true /\ is_digit c2 = true /\ is_digit c3 = true /\
    100 * digit_val c1 + 10 * digit_val c2 + digit_val c3 = r.
Proof.
  intros Hr.
  assert (H : forallb
                (fun i => match pad3 (Z.of_nat i) with
                          | String c1 (String c2 (String c3 EmptyString)) =>
                              is_digit c1 && is_digit c2 && is_digit c3 &&
                              (100 * digit_val c1 + 10 * digit_val c2 + digit_val c3
                               =? Z.of_nat i)
                          | _ => false
                          end) (seq 0 1000) = true)
    by (vm_compute; reflexivity).
  pose proof (proj1 (forallb_forall _ _) H (Z.to_nat r) ltac:(apply in_seq; lia)) as Hi.
  cbv beta in Hi. rewrite Z2Nat.id in Hi by lia.
  destruct (pad3 r) as [|c1 [|c2 [|c3 [|? ?]]]]; try discriminate Hi.
  apply andb_prop in Hi as [Hi H4]. apply andb_prop in Hi as [Hi H3].
  apply andb_prop in Hi as [H1 H2]. apply Z.eqb_eq in H4.
  exists c1, c2, c3. repeat split; assumption.
Qed.

(** [float] of digits, a point and digits: the decimal with the digits
    after the point as its negative exponent. *)
Lemma float_of_point_decimal (a b : string) :
  forallb is_digit (list_ascii_of_string a) = true ->
  forallb is_digit (list_ascii_of_string b) = true ->
  list_ascii_of_string a <> [] ->
  float_of_str (replace_comma (a ++ "." ++ b))
  = Ok (of_decimal false
          (fold_left (fun x c => 10 * x + digit_val c)
             (list_ascii_of_string a ++ list_ascii_of_string b) 0)
          (- Z.of_nat (length (list_ascii_of_string b)))).
Proof.
  intros Ha Hb Hne.
  set (la := list_ascii_of_string a) in *. set (lb := list_ascii_of_string b) in *.
  assert (El : list_ascii_of_string (a ++ "." ++ b) = la ++ "."%char :: lb).
  { rewrite list_ascii_of_string_app. reflexivity. }
  assert (Hplain : forallb (fun c => is_digit c || Ascii.eqb c ".") (la ++ "."%char :: lb)
                   = true).
  { rewrite forallb_app. cbn [forallb].
    assert (W : forall l, forallb is_digit l = true ->
                          forallb (fun c => is_digit c || Ascii.eqb c ".") l = true).
    { intros l Hl. apply forallb_forall. intros c Hc.
      rewrite (proj1 (forallb_forall _ _) Hl c Hc). reflexivity. }
    rewrite (W la Ha), (W lb Hb). reflexivity. }
  rewrite replace_comma_plain by (rewrite El; exact Hplain).
  unfold float_of_str. rewrite El.
  destruct (plain_text _ Hplain) as (-> & -> & -> & Hrs).
  destruct la as [|c t] eqn:Ela; [congruence|].
  cbn [forallb] in Ha. apply andb_prop in Ha as [Hc Ht].
  destruct (plain_char_facts c ltac:(rewrite Hc; reflexivity)) as (_ & _ & Hsp & _ & _ & Hm & Hp).
  unfold float_from_string_inner.
  change ((c :: t) ++ "."%char :: lb) with (c :: t ++ "."%char :: lb) in *.
  cbn [lstrip]. rewrite Hsp, Hrs.
  unfold ascii_strtod, dg_strtod. cbn [parse_sign]. rewrite Hm, Hp.
  change (c :: t ++ "."%char :: lb) with ((c :: t) ++ "."%char :: lb).
  rewrite (take_digits_run (c :: t) ("."%char :: lb)
             ltac:(cbn [forallb]; rewrite Hc, Ht; reflexivity) eq_refl 0 0).
  change (Ascii.eqb "." ".") with true. cbv iota.
  pose proof (take_digits_run lb [] Hb I) as Hf. rewrite app_nil_r in Hf. rewrite Hf.
  replace (0 + Z.of_nat (length (c :: t)) + (0 + Z.of_nat (length lb)) =? 0) with false
    by (symmetry; apply Z.eqb_neq; cbn [length]; lia).
  cbn [parse_exponent]. rewrite fold_left_app.
  replace (0 - (0 + Z.of_nat (length lb))) with (- Z.of_nat (length lb)) by lia.
  reflexivity.
Qed.

End DecimalText.

(** * [khz_to_mhz_str] and [mhz_to_khz] on the band *)

Module BandText.
Import PyFloat PyFloatFacts FreqFacts.

Lemma khz_to_mhz_str_band (k : Z) :
  87500 <= k <= 108000 -> khz_to_mhz_str (PInt k) = Ok (thousandths k).
Proof.
  intros Hk. destruct k as [|p|p]; try lia.
  destruct (BandArith.quotient_1000_band p Hk) as (m & Hq & Hm).
  destruct (BandArith.quotient_times_1000 (Zpos p) m Hk Hm) as (_ & Hf & _).
  unfold khz_to_mhz_str. replace (Zpos p <=? 0) with false by (symmetry; apply Z.leb_gt; lia).
  unfold int_true_divide.
  change (SFdiv prec emax (S754_finite false p 0) (S754_finite false 1000 0))
    with (let '(q, e', l) := SFdiv_core_binary prec emax (Zpos p) 0 1000 0 in
          binary_round_aux prec emax false q e' l).
  rewrite Hq. unfold format_3f. change (0 <=? -46) with false. cbv iota zeta.
  change (2 ^ (- -46)) with 70368744177664. rewrite Hf. reflexivity.
Qed.

Lemma leb_same_exponent (a b : positive) (e : Z) :
  Zpos a <= Zpos b -> leb (S754_finite false a e) (S754_finite false b e) = true.
Proof.
  intros H. unfold leb, SFleb, SFcompare. rewrite Z.compare_refl.
  change (Pos.compare_cont Eq a b) with (Zpos a ?= Zpos b).
  destruct (Z.compare_spec (Zpos a) (Zpos b)); [reflexivity|reflexivity|lia].
Qed.

Lemma in_band_mantissa (m : positive) :
  6157265115545600 <= Zpos m <= 7599824371187712 ->
  leb MIN_FREQ_MHZ (S754_finite false m (-46))
  && leb (S754_finite false m (-46)) MAX_FREQ_MHZ = true.
Proof.
  intros [A B]. rewrite MIN_FREQ_MHZ_value, MAX_FREQ_MHZ_value.
  rewrite (leb_same_exponent _ _ _ A), (leb_same_exponent _ _ _ B). reflexivity.
Qed.

Lemma mhz_to_khz_thousandths (k : Z) :
  87500 <= k <= 108000 -> mhz_to_khz (PStr (thousandths k)) = Ok (Some k).
Proof.
  intros Hk.
  assert (Hip : 87 <= k / 1000 <= 108).
  { split; [apply Z.div_le_lower_bound; lia|apply Z.div_le_upper_bound; lia]. }
  pose proof (Z.mod_pos_bound k 1000 ltac:(lia)) as Hr.
  pose proof (Z.div_mod k 1000 ltac:(lia)) as Hdm.
  destruct (k / 1000) as [|ip|ip] eqn:Eip; try lia.
  destruct (DecimalText.str_of_pos_digits ip) as (Ha & Hne & Hva).
  destruct (DecimalText.pad3_digits (k mod 1000) Hr) as (c1 & c2 & c3 & Eb & H1 & H2 & H3 & Hvb).
  assert (Hb : forallb is_digit (list_ascii_of_string (pad3 (k mod 1000))) = true)
    by (rewrite Eb; cbn [list_ascii_of_string forallb]; rewrite H1, H2, H3; reflexivity).
  cbn [mhz_to_khz]. unfold mhz_to_khz_try, thousandths. rewrite Eip.
  rewrite (DecimalText.float_of_point_decimal _ _ Ha Hb Hne).
  rewrite fold_left_app, Hva, Eb. cbn [list_ascii_of_string fold_left length].
  replace (10 * (10 * (10 * Zpos ip + digit_val c1) + digit_val c2) + digit_val c3)
    with k by lia.
  change (- Z.of_nat 3) with (-3).
  destruct k as [|p|p]; try lia.
  destruct (BandArith.quotient_1000_band p Hk) as (m & Hq & Hm).
  destruct (BandArith.quotient_times_1000 (Zpos p) m Hk Hm) as (Hband & _ & Hi).
  unfold of_decimal. change (0 <=? -3) with false. cbv iota.
  change (10 ^ (- -3)) with 1000. rewrite Hq.
  rewrite (in_band_mantissa m Hband), Hi. reflexivity.
Qed.

Lemma band_round_trip (k : Z) :
  87500 <= k <= 108000 ->
  khz_to_mhz_str (PInt k) = Ok (thousandths k) /\
  mhz_to_khz (PStr (thousandths k)) = Ok (Some k).
Proof.
  intros Hk. split; [apply khz_to_mhz_str_band|apply mhz_to_khz_thousandths]; exact Hk.
Qed.

End BandText.

(** Every frequency of the band, a whole number of kHz, is displayed by
    [khz_to_mhz_str] as its MHz with the three digits of the kHz after the
    point, and [mhz_to_khz] reads that text back as the same number of kHz:
    neither the division nor the product by 1000 loses a kHz. *)
Theorem khz_mhz_round_trip (k : Z) :
  87500 <= k <= 108000 ->
  khz_to_mhz_str (PInt k) = Ok (thousandths k) /\
  mhz_to_khz (PStr (thousandths k)) = Ok (Some k).
Proof. exact (BandText.band_round_trip k). Qed.

Lemma khz_mhz_round_trip_example :
  khz_to_mhz_str (PInt 97300) = Ok "97.300" /\ mhz_to_khz (PStr "97.300") = Ok (Some 97300).
Proof. exact (khz_mhz_round_trip 97300 ltac:(lia)). Defined.

(** ** The tuning controls of the interface *)

Lemma max_khz_value :
  PyFloat.to_int (PyFloat.mul MAX_FREQ_MHZ (PyFloat.of_int 1000)) = Ok 108000.
Proof. vm_compute. reflexivity. Qed.

Lemma min_khz_value :
  PyFloat.to_int (PyFloat.mul MIN_FREQ_MHZ (PyFloat.of_int 1000)) = Ok 87500.
Proof. vm_compute. reflexivity. Qed.

Lemma new_commands_refl (c : controller) : new_commands c c = [].
Proof.
  unfold new_commands. destruct (command_queue c); [apply drop_all|reflexivity].
Qed.

Lemma new_commands_enqueue (cmd : pyval) (c : controller) :
  new_commands c (enqueue_command cmd c) = [] \/
  new_commands c (enqueue_command cmd c) = [cmd].
Proof.
  unfold enqueue_command. destruct (command_queue c) as [q|] eqn:Eq.
  - unfold put_nowait_with. destruct (full q).
    + left. apply new_commands_refl.
    + right. unfold new_commands. rewrite Eq. proj_simpl. apply drop_app_length.
  - left. apply new_commands_refl.
Qed.

(** [send_command] changes the status line at most, and puts at most
    the command on the queue. *)
Lemma send_command_commands (cmd : string) (g : radio_app) (c : controller) :
  current_freq_khz (fst (send_command cmd g c)) = current_freq_khz g /\
  manual_freq_mhz_var (fst (send_command cmd g c)) = manual_freq_mhz_var g /\
  connection_state (fst (send_command cmd g c)) = connection_state g /\
  (new_commands c (snd (send_command cmd g c)) = [] \/
   new_commands c (snd (send_command cmd g c)) = [PStr cmd]).
Proof.
  unfold send_command.
  destruct (_ && _ && _).
  - cbn [fst snd]. repeat split. apply new_commands_enqueue.
  - destruct (negb _); cbn [fst snd]; repeat split; left; apply new_commands_refl.
Qed.

(** The band in kHz, and what one step makes of a frequency in it. *)
Lemma step_up_in_band (k : Z) :
  87500 <= k <= 108000 -> 87500 <= Z.min (k + 100) 108000 <= 108000.
Proof. lia. Qed.

Lemma step_down_in_band (k : Z) :
  87500 <= k <= 108000 -> 87500 <= Z.max (k - 100) 87500 <= 108000.
Proof. lia. Qed.

(** [tune_up] and [tune_down] from a frequency of the band (87500 to
    108000 kHz): neither raises; the only command that either may put on
    the queue is the tune command to the frequency one step (100 kHz)
    away, cut at the edge of the band, so that the target is in the band
    again; and at the edge of the band, in the direction that leaves it,
    the method does nothing at all: no command, no change of the status
    line. *)
Theorem tune_steps_stay_in_band (g : radio_app) (c : controller) :
  87500 <= current_freq_khz g <= 108000 ->
  (exists g' c',
     tune_up g c = Ok (g', c') /\
     (new_commands c c' = [] \/
      new_commands c c'
      = [PStr ("T" ++ str_of_Z (Z.min (current_freq_khz g + 100) 108000))] /\
      current_freq_khz g < 108000)) /\
  (exists g' c',
     tune_down g c = Ok (g', c') /\
     (new_commands c c' = [] \/
      new_commands c c'
      = [PStr ("T" ++ str_of_Z (Z.max (current_freq_khz g - 100) 87500))] /\
      87500 < current_freq_khz g)) /\
  (current_freq_khz g = 108000 -> tune_up g c = Ok (g, c)) /\
  (current_freq_khz g = 87500 -> tune_down g c = Ok (g, c)).
Proof.
  intros Hk. set (k := current_freq_khz g) in *.
  assert (Up : forall b : bool,
    (if b then Ok (g, c) else
       match PyFloat.to_int (PyFloat.mul MAX_FREQ_MHZ (PyFloat.of_int 1000)) with
       | Raise e => Raise e
       | Ok max_khz =>
           let target_khz := Z.min (k + FREQ_STEP_KHZ) max_khz in
           if negb (target_khz =? k) then
             match khz_to_mhz_str (PInt target_khz) with
             | Raise e => Raise e
             | Ok freq_display_str =>
                 Ok (send_command ("T" ++ str_of_Z target_khz)
                       (set_status ("Tuning up to " ++ freq_display_str ++ " MHz...") g) c)
             end
           else Ok (g, c)
       end)
    = (if b || (Z.min (k + 100) 108000 =? k) then Ok (g, c)
       else Ok (send_command ("T" ++ str_of_Z (Z.min (k + 100) 108000))
                  (set_status ("Tuning up to " ++ thousandths (Z.min (k + 100) 108000)
                               ++ " MHz...") g) c))).
  { intros b. rewrite max_khz_value. cbv zeta. unfold FREQ_STEP_KHZ.
    rewrite (BandText.khz_to_mhz_str_band _ (step_up_in_band k Hk)).
    destruct b, (Z.min (k + 100) 108000 =? k); reflexivity. }
  assert (Down : forall b : bool,
    (if b then Ok (g, c) else
       match PyFloat.to_int (PyFloat.mul MIN_FREQ_MHZ (PyFloat.of_int 1000)) with
       | Raise e => Raise e
       | Ok min_khz =>
           let target_khz := Z.max (k - FREQ_STEP_KHZ) min_khz in
           if negb (target_khz =? k) then
             match khz_to_mhz_str (PInt target_khz) with
             | Raise e => Raise e
             | Ok freq_display_str =>
                 Ok (send_command ("T" ++ str_of_Z target_khz)
                       (set_status ("Tuning down to " ++ freq_display_str ++ " MHz...") g) c)
             end
           else Ok (g, c)
       end)
    = (if b || (Z.max (k - 100) 87500 =? k) then Ok (g, c)
       else Ok (send_command ("T" ++ str_of_Z (Z.max (k - 100) 87500))
                  (set_status ("Tuning down to " ++ thousandths (Z.max (k - 100) 87500)
                               ++ " MHz...") g) c))).
  { intros b. rewrite min_khz_value. cbv zeta. unfold FREQ_STEP_KHZ.
    rewrite (BandText.khz_to_mhz_str_band _ (step_down_in_band k Hk)).
    destruct b, (Z.max (k - 100) 87500 =? k); reflexivity. }
  unfold tune_up, tune_down. fold k. rewrite Up, Down. clear Up Down.
  split; [|split; [|split]].
  - destruct (_ || _) eqn:E.
    + exists g, c. split; [reflexivity|]. left. apply new_commands_refl.
    + apply orb_false_elim in E as [_ E]. apply Z.eqb_neq in E.
      destruct (send_command _ _ c) as [g' c'] eqn:Es. exists g', c'.
      split; [reflexivity|].
      destruct (send_command_commands ("T" ++ str_of_Z (Z.min (k + 100) 108000))
                  (set_status ("Tuning up to " ++ thousandths (Z.min (k + 100) 108000)
                               ++ " MHz...") g) c) as (_ & _ & _ & [H|H]);
        rewrite Es in H; cbn [snd] in H; [left; exact H|right].
      split; [exact H|lia].
  - destruct (_ || _) eqn:E.
    + exists g, c. split; [reflexivity|]. left. apply new_commands_refl.
    + apply orb_false_elim in E as [_ E]. apply Z.eqb_neq in E.
      destruct (send_command _ _ c) as [g' c'] eqn:Es. exists g', c'.
      split; [reflexivity|].
      destruct (send_command_commands ("T" ++ str_of_Z (Z.max (k - 100) 87500))
                  (set_status ("Tuning down to " ++ thousandths (Z.max (k - 100) 87500)
                               ++ " MHz...") g) c) as (_ & _ & _ & [H|H]);
        rewrite Es in H; cbn [snd] in H; [left; exact H|right].
      split; [exact H|lia].
  - intros E. replace (Z.min (k + 100) 108000 =? k) with true
      by (symmetry; apply Z.eqb_eq; lia).
    rewrite orb_true_r. reflexivity.
  - intros E. replace (Z.max (k - 100) 87500 =? k) with true
      by (symmetry; apply Z.eqb_eq; lia).
    rewrite orb_true_r. reflexivity.
Qed.

Lemma tune_steps_example :
  let g := {| connection_state := "connected"; current_freq_khz := 108000;
              status_var := "Status: Connected"; manual_freq_mhz_var := EmptyString;
              asyncio_controller := true |} in
  let c := start (init_controller true "ws://h:80/audio" "ws://h:80/text"
                    (Some (new_queue 0)) (Some (new_queue 0)) false false 8080) in
  87500 <= current_freq_khz g <= 108000 /\ tune_up g c = Ok (g, c).
Proof.
  cbv zeta. split; [cbn; lia|].
  match goal with |- tune_up ?g ?c = _ =>
    exact (proj1 (proj2 (proj2 (tune_steps_stay_in_band g c ltac:(cbn; lia)))) eq_refl)
  end.
Defined.

(** ** [manual_tune] *)

(** Whatever the entry field holds, [manual_tune] raises no exception
    and never changes the frequency the interface displays. It puts at
    most one command on the queue: the tune command to the frequency that
    [mhz_to_khz] reads in the entry without its outer white space, which
    lies in the band (87500 to 108000 kHz) and differs from the current
    frequency; the entry field is then cleared. An entry that
    [mhz_to_khz] refuses stays in the field and nothing is queued. *)
Theorem manual_tune_sends_in_band_only (g : radio_app) (c : controller) :
  exists g' c',
    manual_tune g c = Ok (g', c') /\
    current_freq_khz g' = current_freq_khz g /\
    (new_commands c c' = [] \/
     exists k, new_commands c c' = [PStr ("T" ++ str_of_Z k)] /\
       mhz_to_khz (PStr (py_strip (manual_freq_mhz_var g))) = Ok (Some k) /\
       87500 <= k <= 108000 /\ k <> current_freq_khz g /\
       manual_freq_mhz_var g' = EmptyString) /\
    (mhz_to_khz (PStr (py_strip (manual_freq_mhz_var g))) = Ok None ->
     manual_freq_mhz_var g' = manual_freq_mhz_var g /\ c' = c).
Proof.
  unfold manual_tune.
  destruct (negb (connection_state g =? "connected")%string).
  { eexists _, _. split; [reflexivity|]. split; [reflexivity|].
    split; [left; apply new_commands_refl|]. intros _. split; reflexivity. }
  cbv zeta.
  destruct (py_strip (manual_freq_mhz_var g)) as [|a s] eqn:Es.
  { eexists _, _. split; [reflexivity|]. split; [reflexivity|].
    split; [left; apply new_commands_refl|]. intros _. split; reflexivity. }
  destruct (mhz_to_khz_total (PStr (String a s))) as [[k|] Hr]; rewrite Hr.
  - pose proof (FreqRange.mhz_to_khz_range _ _ Hr) as Hk.
    rewrite (BandText.khz_to_mhz_str_band k Hk).
    destruct (negb (k =? current_freq_khz g)) eqn:En.
    + apply negb_true_iff, Z.eqb_neq in En.
      destruct (send_command_commands ("T" ++ str_of_Z k)
                  (set_status ("Tuning manually to " ++ thousandths k ++ " MHz...") g) c)
        as (H1 & _ & _ & H4).
      destruct (send_command _ _ c) as [g1 c1]. cbn [fst snd] in H1, H4.
      eexists _, _. split; [reflexivity|]. split; [exact H1|].
      split; [|discriminate].
      destruct H4 as [H4|H4]; [left; exact H4|right].
      exists k. repeat split; try assumption; lia.
    + eexists _, _. split; [reflexivity|]. split; [reflexivity|].
      split; [left; apply new_commands_refl|discriminate].
  - eexists _, _. split; [reflexivity|]. split; [reflexivity|].
    split; [left; apply new_commands_refl|]. intros _. split; reflexivity.
Qed.

(** ** From the tuning controls to the server and back *)

(** A tune command that [send_command] accepts, followed by one
    iteration of the command listener on an open connection. *)
Lemma queued_tune_round (k : Z) (g : radio_app) (c : controller)
  (q : pyqueue pyval) (ws : websocket) :
  connection_state g = "connected" -> asyncio_controller g = true ->
  controller_is_running c = true ->
  command_queue c = Some q -> items q = [] -> maxsize q <= 0 ->
  0 <= unfinished_tasks q ->
  text_ws_for_commands c = Some ws -> close_code ws = None ->
  unbounded_updates c ->
  exists c1 c2,
    send_command ("T" ++ str_of_Z k) g c = (g, c1) /\
    handle_gui_commands_iteration (Ok tt) c1 = (c2, Continue) /\
    new_events c c2 = [EvWsSend (ws_id ws) ("T" ++ str_of_Z k)] /\
    updates c2 = updates c ++ [("current_freq", PInt k)] /\
    new_commands c c2 = [].
Proof.
  intros Hcs Hac Hrun Hq Hi Hm Hu Hws Hcc (uq & Huq & Hum).
  unfold send_command. rewrite Hcs, Hac, Hrun. cbn [String.eqb Ascii.eqb Bool.eqb andb].
  unfold enqueue_command, put_nowait_with, full. rewrite Hq, Hi.
  destruct (Z.ltb_spec 0 (maxsize q)); [lia|]. cbn [andb app].
  eexists _, _. split; [reflexivity|].
  unfold handle_gui_commands_iteration, get_nowait_with. proj_simpl.
  cbn [items maxsize unfinished_tasks]. cbv iota beta zeta.
  unfold forward_command. proj_simpl. rewrite Hws, Hcc.
  change (startswith ("T" ++ str_of_Z k) "T") with true. cbv iota.
  change (drop_first ("T" ++ str_of_Z k)) with (str_of_Z k).
  rewrite IntText.int_of_str_of_Z.
  unfold task_done. cbn [items maxsize unfinished_tasks].
  destruct (Z.leb_spec (unfinished_tasks q + 1) 0); [lia|].
  split; [reflexivity|].
  split; [unfold new_events; proj_simpl; apply drop_app_length|].
  split.
  - unfold updates. proj_simpl. rewrite Huq.
    unfold enqueue_update, put_nowait_with, full.
    destruct (Z.ltb_spec 0 (maxsize uq)); [lia|]. reflexivity.
  - unfold new_commands. rewrite Hq. proj_simpl. rewrite Hi. reflexivity.
Qed.

(** One step of tuning, followed from the interface to the update that
    comes back. The interface is connected at a frequency of the band, its
    controller runs, the command queue is the unbounded queue of the
    program and is empty, and the metadata connection is open. Then
    [tune_up] below the top of the band (and [tune_down] above its
    bottom) returns, the next iteration of the command listener sends
    exactly one frame, ["T"] followed by the target in kHz, and reports
    that same target as the current frequency with one [current_freq]
    update; the command queue is empty again. The target is the current
    frequency plus (minus) 100 kHz, cut at 108000 (87500). *)
Theorem tune_step_reaches_server (g : radio_app) (c : controller)
  (q : pyqueue pyval) (ws : websocket) :
  connection_state g = "connected" -> asyncio_controller g = true ->
  controller_is_running c = true ->
  command_queue c = Some q -> items q = [] -> maxsize q <= 0 ->
  0 <= unfinished_tasks q ->
  text_ws_for_commands c = Some ws -> close_code ws = None ->
  unbounded_updates c ->
  87500 <= current_freq_khz g <= 108000 ->
  (current_freq_khz g < 108000 ->
   exists g' c1 c2,
     tune_up g c = Ok (g', c1) /\
     handle_gui_commands_iteration (Ok tt) c1 = (c2, Continue) /\
     new_events c c2
     = [EvWsSend (ws_id ws) ("T" ++ str_of_Z (Z.min (current_freq_khz g + 100) 108000))] /\
     updates c2
     = updates c ++ [("current_freq", PInt (Z.min (current_freq_khz g + 100) 108000))] /\
     new_commands c c2 = []) /\
  (87500 < current_freq_khz g ->
   exists g' c1 c2,
     tune_down g c = Ok (g', c1) /\
     handle_gui_commands_iteration (Ok tt) c1 = (c2, Continue) /\
     new_events c c2
     = [EvWsSend (ws_id ws) ("T" ++ str_of_Z (Z.max (current_freq_khz g - 100) 87500))] /\
     updates c2
     = updates c ++ [("current_freq", PInt (Z.max (current_freq_khz g - 100) 87500))] /\
     new_commands c c2 = []).
Proof.
  intros Hcs Hac Hrun Hq Hi Hm Hu Hws Hcc Huq Hk.
  set (k := current_freq_khz g) in *.
  split; intros Hedge.
  - unfold tune_up. fold k. rewrite Hcs.
    replace (k <=? 0) with false by (symmetry; apply Z.leb_gt; lia).
    cbn [String.eqb Ascii.eqb Bool.eqb andb negb orb].
    rewrite max_khz_value. cbv zeta. unfold FREQ_STEP_KHZ.
    replace (Z.min (k + 100) 108000 =? k) with false by (symmetry; apply Z.eqb_neq; lia).
    cbn [negb]. rewrite (BandText.khz_to_mhz_str_band _ (step_up_in_band k Hk)).
    set (g1 := set_status _ g).
    destruct (queued_tune_round (Z.min (k + 100) 108000) g1 c q ws
                Hcs Hac Hrun Hq Hi Hm Hu Hws Hcc Huq) as (c1 & c2 & -> & H).
    exists g1, c1, c2. split; [reflexivity|exact H].
  - unfold tune_down. fold k. rewrite Hcs.
    replace (k <=? 0) with false by (symmetry; apply Z.leb_gt; lia).
    cbn [String.eqb Ascii.eqb Bool.eqb andb negb orb].
    rewrite min_khz_value. cbv zeta. unfold FREQ_STEP_KHZ.
    replace (Z.max (k - 100) 87500 =? k) with false by (symmetry; apply Z.eqb_neq; lia).
    cbn [negb]. rewrite (BandText.khz_to_mhz_str_band _ (step_down_in_band k Hk)).
    set (g1 := set_status _ g).
    destruct (queued_tune_round (Z.max (k - 100) 87500) g1 c q ws
                Hcs Hac Hrun Hq Hi Hm Hu Hws Hcc Huq) as (c1 & c2 & -> & H).
    exists g1, c1, c2. split; [reflexivity|exact H].
Qed.

Lemma tune_step_reaches_server_example :
  let g := {| connection_state := "connected"; current_freq_khz := 97300;
              status_var := "Status: Connected"; manual_freq_mhz_var := EmptyString;
              asyncio_controller := true |} in
  let ws := {| ws_id := 1; close_code := None |} in
  let c := set_text_ws_for_commands (Some ws)
             (start (init_controller true "ws://h:80/audio" "ws://h:80/text"
                       (Some (new_queue 0)) (Some (new_queue 0)) false false 8080)) in
  exists g' c1 c2,
    tune_up g c = Ok (g', c1) /\
    handle_gui_commands_iteration (Ok tt) c1 = (c2, Continue) /\
    new_events c c2 = [EvWsSend 1 "T97400"] /\
    updates c2 = updates c ++ [("current_freq", PInt 97400)] /\
    new_commands c c2 = [].
Proof.
  cbv zeta.
  match goal with |- exists g' c1 c2, tune_up ?g ?c = _ /\ _ =>
    exact (proj1 (tune_step_reaches_server g c (new_queue 0)
                    {| ws_id := 1; close_code := None |}
                    eq_refl eq_refl eq_refl eq_refl eq_refl
                    ltac:(cbn; lia) ltac:(cbn; lia) eq_refl eq_refl
                    ltac:(eexists; split; [reflexivity|cbn; lia])
                    ltac:(cbn; lia))
             ltac:(cbn; lia))
  end.
Defined.

(** ** Instances *)


Lemma no_write_after_stdin_closed_example :
  let p := {| proc_name := "ffplay"; returncode := None; stdin_closing := false;
              on_terminate := Ok tt; on_kill := Ok tt |} in
  let c := set_procs (<[0%nat := p]> ∅)
             (set_ffplay_proc (Some 0%nat)
                (start (init_controller true "ws://h:80/audio" "ws://h:80/text"
                          (Some (new_queue 0)) (Some (new_queue 0)) false false 8080))) in
  let env := {| ae_now := 100; ae_sleep := Woke; ae_lag := 0;
                ae_connect := Ok {| ws_id := 0; close_code := None |};
                ae_shutdown_in_connect := false; ae_send := Ok tt;
                ae_spawn_ffplay := Ok p; ae_spawn_ffmpeg := Ok p;
                ae_frames := [{| fe_shutdown := false; fe_exits := [];
                                 fe_recv := Ok (PBytes ["x"%byte]); fe_ping := Ok tt;
                                 fe_write_ffplay := Ok tt; fe_write_ffmpeg := Ok tt |}];
                ae_ws_closed := false |} in
  alive 0 c /\
  written_to 0 (new_events (_kill_process (Some 0%nat) c)
                  (_play_audio_stream false [env] 0 (_kill_process (Some 0%nat) c))) = [].
Proof.
  cbv zeta.
  match goal with |- alive 0 ?c /\ _ =>
    assert (Ha : alive 0 c) by (eexists; split; vm_compute; reflexivity);
    split; [exact Ha|]
  end.
  match goal with |- written_to 0 (new_events _ (_play_audio_stream ?w ?envs ?last _)) = [] =>
    exact (proj2 (no_write_after_stdin_closed w envs last _ 0%nat Ha))
  end.
Defined.

Lemma supervisor_restart_policy_example :
  let c := start (init_controller true "ws://h:80/audio" "ws://h:80/text"
                    (Some (new_queue 0)) (Some (new_queue 0)) false false 8080) in
  snd (fst (fst (supervise_task false TxtWS (TaskFailed (OSError "reset")) c))) = Some TxtWS /\
  app_running c = true.
Proof.
  cbv zeta. split; [reflexivity|].
  match goal with |- app_running ?c = true =>
    pose proof (supervisor_restart_policy false TxtWS (TaskFailed (OSError "reset")) c) as H
  end.
  destruct (supervise_task _ _ _ _) as [[[c' restart] discard] ctl] eqn:E.
  assert (Er : restart = Some TxtWS) by (vm_compute in E; congruence).
  destruct H as (H & _). destruct (H TxtWS Er) as (_ & _ & _ & Hr & _). exact Hr.
Defined.

Lemma stream_server_failure_example :
  let c := start (init_controller true "ws://h:80/audio" "ws://h:80/text"
                    (Some (new_queue 0)) (Some (new_queue 0)) true false 8080) in
  app_running c = true /\
  stream_enabled
    (fst (fst (fst (supervise_task true StreamSrv
                      (TaskFailed (OSError "[Errno 98] Address already in use")) c)))) = false.
Proof.
  cbv zeta. split; [reflexivity|].
  match goal with |- stream_enabled (fst (fst (fst (supervise_task ?rp _ (TaskFailed ?e) ?c)))) = _ =>
    pose proof (stream_server_failure_not_fatal rp e c) as H
  end.
  destruct (supervise_task _ _ _ _) as [[[c' restart] discard] ctl].
  destruct H as (_ & _ & _ & H). apply H. reflexivity.
Defined.

Lemma only_tune_commands_example :
  let ws := {| ws_id := 7; close_code := None |} in
  let c := set_text_ws_for_commands (Some ws)
             (start (init_controller true "ws://h:80/audio" "ws://h:80/text"
                       (Some (Build_pyqueue 0 [PStr "T97300"] 1)) (Some (new_queue 0))
                       false false 8080)) in
  In (7%nat, "T97300")
     (sent_frames (new_events c (fst (handle_gui_commands_iteration (Ok tt) c)))) /\
  startswith "T97300" "T" = true.
Proof.
  cbv zeta.
  match goal with |- In ?x ?l /\ _ =>
    assert (Hin : In x l) by (vm_compute; left; reflexivity); split; [exact Hin|]
  end.
  destruct (only_tune_commands_are_sent _ _ _ _ Hin) as (ws & q & rest & _ & _ & _ & _ & _ & H).
  exact H.
Defined.

Lemma text_receive_loop_example :
  let c := start (init_controller true "ws://h:80/audio" "ws://h:80/text"
                    (Some (new_queue 0)) (Some (new_queue 0)) false false 8080) in
  let msgs := [(false, Raise (JSONDecodeError "Expecting value"));
               (false, Ok (PDict [("freq", PStr "97.3")]));
               (false, Ok (PList []))] in
  updates_of_type "data" (updates (fst (text_receive_loop msgs c)))
  = [PDict [("freq", PStr "97.3")]; PList []].
Proof.
  cbv zeta.
  match goal with |- updates_of_type _ (updates (fst (text_receive_loop ?msgs ?c))) = _ =>
    destruct (text_receive_loop_robust msgs c) as (_ & _ & _ & H);
      [eexists; split; [reflexivity|cbn; lia]
      |reflexivity
      |repeat constructor
      |]
  end.
  exact H.
Defined.

Lemma relay_cleanup_example :
  let q := Build_pyqueue 10 [Some ["a"%byte]; Some ["b"%byte]] 2 in
  let c := set_aac_clients {[ 0%nat ]}
             (set_client_queues (<[0%nat := q]> ∅)
                (start (init_controller true "ws://h:80/audio" "ws://h:80/text"
                          (Some (new_queue 0)) (Some (new_queue 0)) true false 8080))) in
  exists q', client_queues (relay_cleanup c) !! 0%nat = Some q' /\
             items q' = [Some ["a"%byte]; Some ["b"%byte]; None].
Proof.
  cbv zeta.
  match goal with |- exists q', client_queues (relay_cleanup ?c) !! _ = _ /\ _ =>
    destruct (proj1 (relay_cleanup_signals_eof c 0%nat)
                (Build_pyqueue 10 [Some ["a"%byte]; Some ["b"%byte]] 2))
      as (q' & H1 & H2 & _);
      [vm_compute; reflexivity
      |apply lookup_insert_eq
      |unfold sink_ok, qsize; cbn; lia
      |]
  end.
  exists q'. split; [exact H1|exact H2].
Defined.

Lemma client_receives_backlog_example :
  let q := Build_pyqueue 10 [Some ["a"%byte]; Some ["b"%byte]] 2 in
  let c := set_aac_clients {[ 0%nat ]}
             (set_client_queues (<[0%nat := q]> ∅)
                (start (init_controller true "ws://h:80/audio" "ws://h:80/text"
                          (Some (new_queue 0)) (Some (new_queue 0)) true false 8080))) in
  delivered_to 0 (new_events (relay_cleanup c)
                    (fst (client_loop 0 (replicate 3 (Ok tt)) (relay_cleanup c))))
  = [["a"%byte]; ["b"%byte]].
Proof.
  cbv zeta.
  match goal with |- delivered_to 0 (new_events (relay_cleanup ?c) _) = _ =>
    destruct (client_receives_backlog_then_eof c 0%nat
                (Build_pyqueue 10 [Some ["a"%byte]; Some ["b"%byte]] 2))
      as (_ & H & _);
      [reflexivity
      |vm_compute; reflexivity
      |apply lookup_insert_eq
      |unfold sink_ok, qsize; cbn; lia
      |repeat constructor; eexists; reflexivity
      |]
  end.
  exact H.
Defined.

Lemma client_disconnect_example :
  let q := Build_pyqueue 10 [Some ["a"%byte]; Some ["b"%byte]] 2 in
  let c := set_aac_clients {[ 0%nat ]}
             (set_client_queues (<[0%nat := q]> ∅)
                (start (init_controller true "ws://h:80/audio" "ws://h:80/text"
                          (Some (new_queue 0)) (Some (new_queue 0)) true false 8080))) in
  0%nat ∉ aac_clients (client_disconnect 0 c).
Proof.
  cbv zeta.
  match goal with |- _ ∉ aac_clients (client_disconnect 0 ?c) =>
    destruct (client_disconnect_leaves c 0%nat
                (Build_pyqueue 10 [Some ["a"%byte]; Some ["b"%byte]] 2))
      as (H & _);
      [apply lookup_insert_eq|unfold qsize; cbn; lia|]
  end.
  exact H.
Defined.
